(** * MessBuddy backend: a shallow embedding of the subscription, meal-pass,
      check-in, rating and signup logic, with the properties of these
      operations stated and proved.

    The Python sources embedded here are
      - app/models/*.py            (documents and their methods),
      - app/services/auth_service.py       (AuthService.signup),
      - app/routers/subscription_router.py (update_plan, subscribe_to_plan,
                                            activate_subscription),
      - app/routers/mealpass_router.py     (validate_meal_pass),
      - app/routers/checkin_router.py      (create_checkin),
      - app/routers/mess_router.py         (update_rating).

    Conventions.
      - A [datetime] is a number of microseconds; [datetime.utcnow()] reads
        the next value of the clock of the environment.
      - An [ObjectId] is represented by its canonical text, the 24 lower-case
        hexadecimal digits that [str] prints.
      - Python strings are modelled over ASCII; the text of a rating is
        taken over the code points below 256, among which the superscript
        digits count as digits for [str.isdigit].
      - A handler runs in a state-and-exception monad over the [World]: the
        database and the number of values drawn from the environment so far.
        A database call never raises, except the one write that
        subscribe_to_plan wraps in its own try block, whose outcome is an
        input of the environment.
      - A handler written this way is the request served alone. create_checkin
        and signup, which look a document up and insert one later, are given
        stretch by stretch between their awaits as well, and an event loop
        interleaves the requests in flight. *)

From Stdlib Require Import ZArith NArith List String Ascii Bool Lia QArith.
From Stdlib Require Import DecimalString.
Import ListNotations.
Open Scope string_scope.
Open Scope Z_scope.

(* ------------------------------------------------------------------ *)
(** ** Text helpers *)

Definition dquote : string := String (ascii_of_nat 34) EmptyString.

Definition is_digit (c : ascii) : bool :=
  let n := nat_of_ascii c in (48 <=? n)%nat && (n <=? 57)%nat.

Definition is_hex (c : ascii) : bool :=
  let n := nat_of_ascii c in
  ((48 <=? n)%nat && (n <=? 57)%nat)
  || ((97 <=? n)%nat && (n <=? 102)%nat)
  || ((65 <=? n)%nat && (n <=? 70)%nat).

(** [str.lower] on one character. *)
Definition lower_ascii (c : ascii) : ascii :=
  let n := nat_of_ascii c in
  if (65 <=? n)%nat && (n <=? 90)%nat then ascii_of_nat (n + 32) else c.

Fixpoint string_map (f : ascii -> ascii) (s : string) : string :=
  match s with
  | EmptyString => EmptyString
  | String c r => String (f c) (string_map f r)
  end.

Fixpoint string_forallb (p : ascii -> bool) (s : string) : bool :=
  match s with
  | EmptyString => true
  | String c r => p c && string_forallb p r
  end.

Definition lower (s : string) : string := string_map lower_ascii s.

(** [str(n)] for a Python int. *)
Definition str_int (z : Z) : string := NilZero.string_of_int (Z.to_int z).

(** [sep.join(parts)]. *)
Fixpoint join (sep : string) (parts : list string) : string :=
  match parts with
  | [] => ""
  | [p] => p
  | p :: rest => p ++ sep ++ join sep rest
  end.

(* ------------------------------------------------------------------ *)
(** ** ObjectId and datetime *)

Definition ObjectId := string.

(** [str(oid)]. *)
Definition oid_str (o : ObjectId) : string := o.

(** [PydanticObjectId(s)] for a string: 24 hexadecimal digits in either
    case, else [bson.errors.InvalidId]. *)
Definition PydanticObjectId (s : string) : option ObjectId :=
  if (String.length s =? 24)%nat && string_forallb is_hex s
  then Some (lower s) else None.

Definition oid_eqb (a b : ObjectId) : bool := String.eqb a b.

Definition datetime := Z.

Definition microseconds_per_day : Z := 86400000000.

(** [timedelta(days=n)]. *)
Definition timedelta_days (n : Z) : Z := n * microseconds_per_day.

(** [t.replace(hour=0, minute=0, second=0, microsecond=0)]. *)
Definition start_of_day (t : datetime) : datetime :=
  (t / microseconds_per_day) * microseconds_per_day.

(* ------------------------------------------------------------------ *)
(** ** Documents *)

Inductive LoginRole := USER | MESS_OWNER.

Definition LoginRole_value (r : LoginRole) : string :=
  match r with USER => "User" | MESS_OWNER => "Mess Owner" end.

Definition LoginRole_eqb (a b : LoginRole) : bool :=
  match a, b with
  | USER, USER | MESS_OWNER, MESS_OWNER => true
  | _, _ => false
  end.

Record User := {
  user_id : ObjectId;
  username : string;
  email : string;
  password : string;
  Login_Role : LoginRole;
  UserID : Z;
  user_created_at : option datetime;
  user_updated_at : option datetime
}.

Definition is_mess_owner (u : User) : bool :=
  LoginRole_eqb u.(Login_Role) MESS_OWNER.

Definition is_regular_user (u : User) : bool :=
  LoginRole_eqb u.(Login_Role) USER.

Inductive Duration := Daily | Weekly | Monthly.
Inductive MealType := Veg | NonVeg | Jain.

Definition MealType_value (m : MealType) : string :=
  match m with Veg => "Veg" | NonVeg => "Non-Veg" | Jain => "Jain" end.

Record SubscriptionPlan := {
  plan_id : ObjectId;
  plan_messId : ObjectId;
  planName : string;
  duration : Duration;
  plan_mealType : MealType;
  price : Q;
  description : string;
  plan_isActive : bool;
  plan_created_at : option datetime;
  plan_updated_at : option datetime
}.

Inductive SubStatus := Active | Expired | Cancelled | Pending | PlanRemoved.
Inductive PaymentStatus := PaymentPending | PaymentCompleted | PaymentFailed.

Definition SubStatus_eqb (a b : SubStatus) : bool :=
  match a, b with
  | Active, Active | Expired, Expired | Cancelled, Cancelled
  | Pending, Pending | PlanRemoved, PlanRemoved => true
  | _, _ => false
  end.

Record UserSubscription := {
  sub_id : ObjectId;
  sub_userId : ObjectId;
  sub_planId : ObjectId;
  startDate : datetime;
  endDate : datetime;
  status : SubStatus;
  paymentId : option string;
  paymentStatus : PaymentStatus;
  cancellationReason : option string;
  sub_created_at : option datetime;
  sub_updated_at : option datetime
}.

Record MealPass := {
  pass_id : ObjectId;
  pass_userId : ObjectId;
  subscriptionId : ObjectId;
  pass_messId : ObjectId;
  qrCode : string;
  isActive : bool;
  isBlocked : bool;
  blockReason : option string;
  validFrom : option datetime;
  validTill : option datetime;
  pass_created_at : option datetime;
  pass_updated_at : option datetime
}.

Inductive CheckinMeal := breakfast | lunch | dinner.

Definition CheckinMeal_eqb (a b : CheckinMeal) : bool :=
  match a, b with
  | breakfast, breakfast | lunch, lunch | dinner, dinner => true
  | _, _ => false
  end.

Inductive CheckinStatus := success | failed.

Record CheckIn := {
  checkin_id : ObjectId;
  checkin_userId : ObjectId;
  checkin_messId : ObjectId;
  mealPassId : ObjectId;
  checkin_mealType : CheckinMeal;
  checkin_status : CheckinStatus;
  failureReason : option string;
  checkin_created_at : option datetime;
  checkin_updated_at : option datetime
}.

(* ------------------------------------------------------------------ *)
(** ** The database, the environment and the handler monad *)

Record Db := {
  users : list User;
  plans : list SubscriptionPlan;
  subscriptions : list UserSubscription;
  mealpasses : list MealPass;
  checkins : list CheckIn
}.

Record World := { db : Db; tick : nat }.

(** What a handler draws from outside: the clock, the ids the driver
    generates, the server's [datetime.timestamp()] (which reads the local
    time zone), and whether the write inside subscribe_to_plan's own try
    block raises. Each is indexed by the number of draws made so far. *)
Record Env := {
  clock : nat -> datetime;
  new_oid : nat -> ObjectId;
  local_timestamp : datetime -> Z;
  pass_block_raises : nat -> bool
}.

Inductive Exn :=
| HTTPException (status_code : Z) (detail : string)
| ValidationError (message : string)
| DuplicateError (field value : string)
| NotFoundError (resource : string)
| InvalidId
| TypeError (message : string)
| PydanticValidationError
| DbError.

Inductive Result (A : Type) :=
| Ok (a : A)
| Raise (e : Exn).
Arguments Ok {A} a.
Arguments Raise {A} e.

Definition M (A : Type) : Type := World -> Result A * World.

Definition ret {A} (a : A) : M A := fun w => (Ok a, w).

Definition bind {A B} (m : M A) (k : A -> M B) : M B :=
  fun w => match m w with
           | (Ok a, w') => k a w'
           | (Raise e, w') => (Raise e, w')
           end.

Definition raise {A} (e : Exn) : M A := fun w => (Raise e, w).

Notation "x <- m ;; k" := (bind m (fun x => k))
  (at level 61, m at next level, right associativity).
Notation "m ;;; k" := (bind m (fun _ => k))
  (at level 61, right associativity).

(** [try: body except Exception as e: handler]. *)
Definition try_except {A} (body : M A) (handler : Exn -> M A) : M A :=
  fun w => match body w with
           | (Ok a, w') => (Ok a, w')
           | (Raise e, w') => handler e w'
           end.

(** The pair of clauses that closes every router handler:
      except HTTPException: raise
      except Exception: raise HTTPException(500, "Internal server error"). *)
Definition router_guard {A} (body : M A) : M A :=
  try_except body (fun e =>
    match e with
    | HTTPException c d => raise (HTTPException c d)
    | _ => raise (HTTPException 500 "Internal server error")
    end).

Definition get_db : M Db := fun w => (Ok w.(db), w).

Definition put_db (d : Db) : M unit :=
  fun w => (Ok tt, {| db := d; tick := w.(tick) |}).

(** [datetime.utcnow()]. *)
Definition utcnow (e : Env) : M datetime :=
  fun w => (Ok (e.(clock) w.(tick)), {| db := w.(db); tick := S w.(tick) |}).

(** The id the driver gives a document on its first save. *)
Definition fresh_oid (e : Env) : M ObjectId :=
  fun w => (Ok (e.(new_oid) w.(tick)), {| db := w.(db); tick := S w.(tick) |}).

(** [PydanticObjectId(s)] inside a handler. *)
Definition parse_oid (s : string) : M ObjectId :=
  match PydanticObjectId s with
  | Some o => ret o
  | None => raise InvalidId
  end.

(** [Document.get(id)] and [Document.find_one(...)]: the first match. *)
Definition User_get (d : Db) (i : ObjectId) : option User :=
  find (fun u => oid_eqb u.(user_id) i) d.(users).

Definition SubscriptionPlan_get (d : Db) (i : ObjectId) : option SubscriptionPlan :=
  find (fun p => oid_eqb p.(plan_id) i) d.(plans).

Definition UserSubscription_get (d : Db) (i : ObjectId) : option UserSubscription :=
  find (fun s => oid_eqb s.(sub_id) i) d.(subscriptions).

Definition MealPass_get (d : Db) (i : ObjectId) : option MealPass :=
  find (fun p => oid_eqb p.(pass_id) i) d.(mealpasses).

(** [save()] of a document that was read from the collection: the stored
    document with that id is replaced. *)
Fixpoint replace_by {A} (same : A -> bool) (x : A) (l : list A) : list A :=
  match l with
  | [] => []
  | y :: r => if same y then x :: r else y :: replace_by same x r
  end.

(* ------------------------------------------------------------------ *)
(** ** The event loop

    A handler is a coroutine: at each [await] it is suspended, and the
    event loop may run other requests before it resumes this one. A handler
    is given here by the stretch from its call to its first await
    ([begin]) and by what it does when it is resumed ([resume]): the
    awaited operation completes and the handler runs to its next await or
    to its end. *)

Section EventLoop.

Variables Request Task : Type.
Variable begin : Request -> World -> Task * World.
Variable resume : Request -> Task -> World -> Task * World.

(** A request in flight: its arguments and where it is suspended. *)
Record InFlight := {
  request : Request;
  suspended : Task
}.

(** What the event loop does next: it takes up a request that has arrived,
    or it resumes the i-th request in flight. *)
Inductive Event :=
| Arrives (r : Request)
| Resumes (i : nat).

Fixpoint resume_nth (i : nat) (pool : list InFlight) (w : World)
    {struct pool} : list InFlight * World :=
  match pool with
  | [] => ([], w)
  | r :: rest =>
      match i with
      | O =>
          let (t, w') := resume r.(request) r.(suspended) w in
          ({| request := r.(request); suspended := t |} :: rest, w')
      | S i' =>
          let (rest', w') := resume_nth i' rest w in
          (r :: rest', w')
      end
  end.

Definition event_step (ev : Event) (pool : list InFlight) (w : World)
    : list InFlight * World :=
  match ev with
  | Arrives r =>
      let (t, w') := begin r w in
      ((pool ++ [{| request := r; suspended := t |}])%list, w')
  | Resumes i => resume_nth i pool w
  end.

Fixpoint event_loop (events : list Event) (pool : list InFlight)
    (w : World) : list InFlight * World :=
  match events with
  | [] => (pool, w)
  | ev :: rest =>
      let (pool', w') := event_step ev pool w in
      event_loop rest pool' w'
  end.

End EventLoop.

Arguments request {Request Task} i.
Arguments suspended {Request Task} i.
Arguments Arrives {Request} r.
Arguments Resumes {Request} i.
Arguments resume_nth {Request Task} resume i pool w.
Arguments event_step {Request Task} begin resume ev pool w.
Arguments event_loop {Request Task} begin resume events pool w.

(* ------------------------------------------------------------------ *)
(** ** json.dumps(obj, sort_keys=True) for a flat dict *)

Inductive JsonValue :=
| JStr (s : string)
| JInt (z : Z).

(** The values serialized here are ObjectId texts and the meal-type
    literals, which hold no character that json.dumps escapes. *)
Definition json_value (v : JsonValue) : string :=
  match v with
  | JStr s => dquote ++ s ++ dquote
  | JInt z => str_int z
  end.

Definition json_item (kv : string * JsonValue) : string :=
  dquote ++ fst kv ++ dquote ++ ": " ++ json_value (snd kv).

Fixpoint insert_by_key (kv : string * JsonValue)
    (l : list (string * JsonValue)) : list (string * JsonValue) :=
  match l with
  | [] => [kv]
  | x :: r => if String.leb (fst kv) (fst x) then kv :: x :: r
              else x :: insert_by_key kv r
  end.

Definition sort_keys (l : list (string * JsonValue)) : list (string * JsonValue) :=
  fold_right insert_by_key [] l.

Definition json_dumps_sorted (d : list (string * JsonValue)) : string :=
  "{" ++ join ", " (map json_item (sort_keys d)) ++ "}".

(* ------------------------------------------------------------------ *)
(** ** app/routers/subscription_router.py *)

Module SubscriptionRouter.

Record UpdatePlanRequest := {
  upd_planName : option string;
  upd_duration : option Duration;
  upd_mealType : option MealType;
  upd_price : option Q;
  upd_description : option string;
  upd_isActive : option bool;
  upd_userId : string
}.

Record SubscribeToPlanRequest := {
  req_planId : string;
  req_userId : string
}.

(** The four literals UpdateSubscriptionRequest.status admits. *)
Inductive ReqStatus := ReqActive | ReqExpired | ReqCancelled | ReqPending.

Definition ReqStatus_value (s : ReqStatus) : SubStatus :=
  match s with
  | ReqActive => Active
  | ReqExpired => Expired
  | ReqCancelled => Cancelled
  | ReqPending => Pending
  end.

Record UpdateSubscriptionRequest := {
  act_status : option ReqStatus;
  act_messId : option string
}.

(** One entry of [payload.dict(exclude={'userId'}, exclude_none=True)]. *)
Inductive PlanField :=
| F_planName (v : string)
| F_duration (v : Duration)
| F_mealType (v : MealType)
| F_price (v : Q)
| F_description (v : string)
| F_isActive (v : bool).

Definition opt_item {A} (f : A -> PlanField) (o : option A) : list PlanField :=
  match o with Some v => [f v] | None => [] end.

Definition update_data (p : UpdatePlanRequest) : list PlanField :=
  opt_item F_planName p.(upd_planName)
  ++ opt_item F_duration p.(upd_duration)
  ++ opt_item F_mealType p.(upd_mealType)
  ++ opt_item F_price p.(upd_price)
  ++ opt_item F_description p.(upd_description)
  ++ opt_item F_isActive p.(upd_isActive).

(** [setattr(plan, key, value)]. *)
Definition setattr (plan : SubscriptionPlan) (f : PlanField) : SubscriptionPlan :=
  match f with
  | F_planName v =>
      {| plan_id := plan.(plan_id); plan_messId := plan.(plan_messId);
         planName := v; duration := plan.(duration);
         plan_mealType := plan.(plan_mealType); price := plan.(price);
         description := plan.(description); plan_isActive := plan.(plan_isActive);
         plan_created_at := plan.(plan_created_at);
         plan_updated_at := plan.(plan_updated_at) |}
  | F_duration v =>
      {| plan_id := plan.(plan_id); plan_messId := plan.(plan_messId);
         planName := plan.(planName); duration := v;
         plan_mealType := plan.(plan_mealType); price := plan.(price);
         description := plan.(description); plan_isActive := plan.(plan_isActive);
         plan_created_at := plan.(plan_created_at);
         plan_updated_at := plan.(plan_updated_at) |}
  | F_mealType v =>
      {| plan_id := plan.(plan_id); plan_messId := plan.(plan_messId);
         planName := plan.(planName); duration := plan.(duration);
         plan_mealType := v; price := plan.(price);
         description := plan.(description); plan_isActive := plan.(plan_isActive);
         plan_created_at := plan.(plan_created_at);
         plan_updated_at := plan.(plan_updated_at) |}
  | F_price v =>
      {| plan_id := plan.(plan_id); plan_messId := plan.(plan_messId);
         planName := plan.(planName); duration := plan.(duration);
         plan_mealType := plan.(plan_mealType); price := v;
         description := plan.(description); plan_isActive := plan.(plan_isActive);
         plan_created_at := plan.(plan_created_at);
         plan_updated_at := plan.(plan_updated_at) |}
  | F_description v =>
      {| plan_id := plan.(plan_id); plan_messId := plan.(plan_messId);
         planName := plan.(planName); duration := plan.(duration);
         plan_mealType := plan.(plan_mealType); price := plan.(price);
         description := v; plan_isActive := plan.(plan_isActive);
         plan_created_at := plan.(plan_created_at);
         plan_updated_at := plan.(plan_updated_at) |}
  | F_isActive v =>
      {| plan_id := plan.(plan_id); plan_messId := plan.(plan_messId);
         planName := plan.(planName); duration := plan.(duration);
         plan_mealType := plan.(plan_mealType); price := plan.(price);
         description := plan.(description); plan_isActive := v;
         plan_created_at := plan.(plan_created_at);
         plan_updated_at := plan.(plan_updated_at) |}
  end.

Definition set_plan_updated_at (plan : SubscriptionPlan) (t : datetime)
    : SubscriptionPlan :=
  {| plan_id := plan.(plan_id); plan_messId := plan.(plan_messId);
     planName := plan.(planName); duration := plan.(duration);
     plan_mealType := plan.(plan_mealType); price := plan.(price);
     description := plan.(description); plan_isActive := plan.(plan_isActive);
     plan_created_at := plan.(plan_created_at);
     plan_updated_at := Some t |}.

Definition save_plan (plan : SubscriptionPlan) : M unit :=
  d <- get_db ;;
  put_db {| users := d.(users);
            plans := replace_by (fun p => oid_eqb p.(plan_id) plan.(plan_id))
                                plan d.(plans);
            subscriptions := d.(subscriptions);
            mealpasses := d.(mealpasses);
            checkins := d.(checkins) |}.

(** The guard of update_plan:
      not user or not user.is_mess_owner() or str(plan.messId) != payload.userId *)
Definition not_own_plan (user : option User) (plan : SubscriptionPlan)
    (userId : string) : bool :=
  match user with
  | None => true
  | Some u => negb (is_mess_owner u)
              || negb (String.eqb (oid_str plan.(plan_messId)) userId)
  end.

Definition update_plan (e : Env) (plan_id_arg : string)
    (payload : UpdatePlanRequest) : M SubscriptionPlan :=
  router_guard (
    pid <- parse_oid plan_id_arg ;;
    d <- get_db ;;
    match SubscriptionPlan_get d pid with
    | None => raise (HTTPException 404 "Plan not found")
    | Some plan =>
        uid <- parse_oid payload.(upd_userId) ;;
        if not_own_plan (User_get d uid) plan payload.(upd_userId)
        then raise (HTTPException 403 "You can only update your own plans")
        else
          let plan1 := fold_left setattr (update_data payload) plan in
          now <- utcnow e ;;
          let plan2 := set_plan_updated_at plan1 now in
          save_plan plan2 ;;;
          ret plan2
    end).

(** The if/elif chain on plan.duration, shared in shape by subscribe_to_plan
    and activate_subscription. *)
Definition end_date_for (dur : Duration) (start_date : datetime) : datetime :=
  match dur with
  | Daily => start_date + timedelta_days 1
  | Weekly => start_date + timedelta_days 7
  | Monthly => start_date + timedelta_days 30
  end.

Definition same_user_and_plan (uid pid : ObjectId) (s : UserSubscription) : bool :=
  oid_eqb s.(sub_userId) uid && oid_eqb s.(sub_planId) pid.

Definition insert_subscription (s : UserSubscription) : M unit :=
  d <- get_db ;;
  put_db {| users := d.(users); plans := d.(plans);
            subscriptions := d.(subscriptions) ++ [s];
            mealpasses := d.(mealpasses);
            checkins := d.(checkins) |}.

Definition insert_mealpass (p : MealPass) : M unit :=
  d <- get_db ;;
  put_db {| users := d.(users); plans := d.(plans);
            subscriptions := d.(subscriptions);
            mealpasses := d.(mealpasses) ++ [p];
            checkins := d.(checkins) |}.

(** [meal_pass.save()] inside the try block: the one database write whose
    failure the handler catches itself. *)
Definition save_new_mealpass (e : Env) (mk : ObjectId -> MealPass) : M MealPass :=
  fun w =>
    if e.(pass_block_raises) w.(tick)
    then (Raise DbError, w)
    else (i <- fresh_oid e ;; insert_mealpass (mk i) ;;; ret (mk i)) w.

Definition qr_data (e : Env) (user : User) (subscription : UserSubscription)
    (plan : SubscriptionPlan) (ts_now : datetime) : list (string * JsonValue) :=
  [ ("userId", JStr (oid_str user.(user_id)));
    ("subscriptionId", JStr (oid_str subscription.(sub_id)));
    ("planId", JStr (oid_str plan.(plan_id)));
    ("messId", JStr (oid_str plan.(plan_messId)));
    ("mealType", JStr (MealType_value plan.(plan_mealType)));
    ("timestamp", JInt (e.(local_timestamp) ts_now)) ].

Section Subscribe.

(** [hashlib.sha256(b).hexdigest()]. *)
Variable sha256_hexdigest : string -> string.

(** The pydantic constraint on MealPass.qrCode: min_length=1, max_length=500. *)
Definition qrCode_ok (q : string) : bool :=
  ((1 <=? String.length q) && (String.length q <=? 500))%nat.

Definition generate_meal_pass (e : Env) (user : User)
    (subscription : UserSubscription) (plan : SubscriptionPlan)
    (start_date end_date : datetime) : M MealPass :=
  ts_now <- utcnow e ;;
  let qr_string :=
    sha256_hexdigest (json_dumps_sorted (qr_data e user subscription plan ts_now)) in
  created <- utcnow e ;;
  updated <- utcnow e ;;
  if qrCode_ok qr_string then
    save_new_mealpass e (fun i =>
      {| pass_id := i;
         pass_userId := user.(user_id);
         subscriptionId := subscription.(sub_id);
         pass_messId := plan.(plan_messId);
         qrCode := qr_string;
         isActive := true;
         isBlocked := false;
         blockReason := None;
         validFrom := Some start_date;
         validTill := Some end_date;
         pass_created_at := Some created;
         pass_updated_at := Some updated |})
  else raise PydanticValidationError.

Definition subscribe_to_plan (e : Env) (payload : SubscribeToPlanRequest)
    : M UserSubscription :=
  router_guard (
    uid <- parse_oid payload.(req_userId) ;;
    d <- get_db ;;
    match User_get d uid with
    | None => raise (HTTPException 403 "Only users can subscribe to plans")
    | Some user =>
      if negb (is_regular_user user)
      then raise (HTTPException 403 "Only users can subscribe to plans")
      else
        pid <- parse_oid payload.(req_planId) ;;
        match SubscriptionPlan_get d pid with
        | None => raise (HTTPException 404 "Plan not found or inactive")
        | Some plan =>
          if negb plan.(plan_isActive)
          then raise (HTTPException 404 "Plan not found or inactive")
          else
            match find (same_user_and_plan user.(user_id) plan.(plan_id))
                       d.(subscriptions) with
            | Some _ =>
                raise (HTTPException 400
                  "You have already subscribed to this plan before. Each plan can only be subscribed once.")
            | None =>
                start_date <- utcnow e ;;
                let end_date := end_date_for plan.(duration) start_date in
                created <- utcnow e ;;
                updated <- utcnow e ;;
                i <- fresh_oid e ;;
                let subscription :=
                  {| sub_id := i;
                     sub_userId := user.(user_id);
                     sub_planId := plan.(plan_id);
                     startDate := start_date;
                     endDate := end_date;
                     status := Pending;
                     paymentId := None;
                     paymentStatus := PaymentPending;
                     cancellationReason := None;
                     sub_created_at := Some created;
                     sub_updated_at := Some updated |} in
                insert_subscription subscription ;;;
                try_except
                  (generate_meal_pass e user subscription plan start_date end_date ;;;
                   ret tt)
                  (fun _ => ret tt) ;;;
                ret subscription
            end
        end
    end).

End Subscribe.

Definition set_subscription (s : UserSubscription) (st : SubStatus)
    (start_d end_d : datetime) (upd : option datetime) : UserSubscription :=
  {| sub_id := s.(sub_id); sub_userId := s.(sub_userId);
     sub_planId := s.(sub_planId);
     startDate := start_d; endDate := end_d; status := st;
     paymentId := s.(paymentId); paymentStatus := s.(paymentStatus);
     cancellationReason := s.(cancellationReason);
     sub_created_at := s.(sub_created_at);
     sub_updated_at := upd |}.

Definition save_subscription (s : UserSubscription) : M unit :=
  d <- get_db ;;
  put_db {| users := d.(users); plans := d.(plans);
            subscriptions :=
              replace_by (fun x => oid_eqb x.(sub_id) s.(sub_id)) s d.(subscriptions);
            mealpasses := d.(mealpasses);
            checkins := d.(checkins) |}.

(** [payload.messId and str(plan.messId) != payload.messId]. *)
Definition not_authorized (plan : SubscriptionPlan) (messId : option string) : bool :=
  match messId with
  | None => false
  | Some m => negb (String.eqb m "") && negb (String.eqb (oid_str plan.(plan_messId)) m)
  end.

(** The block under [if payload.status:]. *)
Definition apply_status (e : Env) (plan : SubscriptionPlan)
    (subscription : UserSubscription) (st : option ReqStatus) : M UserSubscription :=
  match st with
  | None => ret subscription
  | Some ReqCancelled =>
      now <- utcnow e ;;
      ret (set_subscription subscription Cancelled subscription.(startDate) now
             subscription.(sub_updated_at))
  | Some ReqExpired =>
      now <- utcnow e ;;
      ret (set_subscription subscription Expired subscription.(startDate) now
             subscription.(sub_updated_at))
  | Some ReqActive =>
      now <- utcnow e ;;
      ret (set_subscription subscription Active now
             (end_date_for plan.(duration) now) subscription.(sub_updated_at))
  | Some ReqPending =>
      ret (set_subscription subscription Pending subscription.(startDate)
             subscription.(endDate) subscription.(sub_updated_at))
  end.

Definition activate_subscription (e : Env) (subscription_id : string)
    (payload : UpdateSubscriptionRequest) : M UserSubscription :=
  router_guard (
    sid <- parse_oid subscription_id ;;
    d <- get_db ;;
    match UserSubscription_get d sid with
    | None => raise (HTTPException 404 "Subscription not found")
    | Some subscription =>
      match SubscriptionPlan_get d subscription.(sub_planId) with
      | None => raise (HTTPException 404 "Plan not found")
      | Some plan =>
        if not_authorized plan payload.(act_messId)
        then raise (HTTPException 403 "Not authorized to update this subscription")
        else
          s1 <- apply_status e plan subscription payload.(act_status) ;;
          now <- utcnow e ;;
          let s2 := set_subscription s1 s1.(status) s1.(startDate) s1.(endDate)
                      (Some now) in
          save_subscription s2 ;;;
          ret s2
      end
    end).

End SubscriptionRouter.

(* ------------------------------------------------------------------ *)
(** ** app/routers/mealpass_router.py *)

Module MealpassRouter.

Record ValidateMealPassRequest := { req_qrCode : string }.

(** The populated dictionary validate_meal_pass answers with: the pass, the
    user's _id, username and email under "userId", and, when the plan of
    the subscription is found, the subscription's _id and status with the
    plan's _id, planName, mealType and duration under "subscriptionId". *)
Record ValidResponse := {
  valid : bool;
  mealPass : MealPass;
  userId_info : string * string * string;
  subscriptionId_info :
    option (string * SubStatus * (string * string * MealType * Duration))
}.

(** [str(x)] of an optional string inside an f-string. *)
Definition str_optional (o : option string) : string :=
  match o with Some s => s | None => "None" end.

(** [now < meal_pass.validFrom or now > meal_pass.validTill]; comparing a
    datetime with None raises TypeError. *)
Definition outside_window (now : datetime) (mp : MealPass) : M bool :=
  match mp.(validFrom) with
  | None => raise (TypeError
      "'<' not supported between instances of 'datetime.datetime' and 'NoneType'")
  | Some f =>
      if now <? f then ret true
      else match mp.(validTill) with
           | None => raise (TypeError
               "'>' not supported between instances of 'datetime.datetime' and 'NoneType'")
           | Some t => ret (now >? t)
           end
  end.

Definition exn_str (x : Exn) : string :=
  match x with
  | HTTPException _ d => d
  | ValidationError m => m
  | DuplicateError f v => f ++ " '" ++ v ++ "' already exists"
  | NotFoundError r => r ++ " not found"
  | InvalidId => "invalid ObjectId"
  | TypeError m => m
  | PydanticValidationError => "validation error"
  | DbError => "database error"
  end.

Definition validate_meal_pass (e : Env) (user_id_arg : string)
    (payload : ValidateMealPassRequest) : M ValidResponse :=
  try_except (
    d <- get_db ;;
    match find (fun p => String.eqb p.(qrCode) payload.(req_qrCode)) d.(mealpasses) with
    | None => raise (HTTPException 404 "Invalid QR code")
    | Some meal_pass =>
      if meal_pass.(isBlocked)
      then raise (HTTPException 403
                    ("User is blocked: " ++ str_optional meal_pass.(blockReason)))
      else if negb meal_pass.(isActive)
      then raise (HTTPException 403 "Meal pass is not active")
      else
        now <- utcnow e ;;
        outside <- outside_window now meal_pass ;;
        if (outside : bool)
        then raise (HTTPException 403 "Meal pass has expired")
        else
          match UserSubscription_get d meal_pass.(subscriptionId) with
          | None => raise (HTTPException 404 "Subscription not found")
          | Some subscription =>
            if negb (SubStatus_eqb subscription.(status) Active)
            then raise (HTTPException 403 "Subscription is not active")
            else
              match User_get d meal_pass.(pass_userId) with
              | None => raise (HTTPException 404 "User not found")
              | Some user =>
                ret {| valid := true;
                       mealPass := meal_pass;
                       userId_info := (oid_str user.(user_id), user.(username),
                                       user.(email));
                       subscriptionId_info :=
                         match SubscriptionPlan_get d subscription.(sub_planId) with
                         | Some plan =>
                             Some (oid_str subscription.(sub_id), subscription.(status),
                                   (oid_str plan.(plan_id), plan.(planName),
                                    plan.(plan_mealType), plan.(duration)))
                         | None => None
                         end |}
              end
          end
    end)
    (fun x =>
       match x with
       | HTTPException c d => raise (HTTPException c d)
       | _ => raise (HTTPException 500 (exn_str x))
       end).

End MealpassRouter.

(* ------------------------------------------------------------------ *)
(** ** app/routers/checkin_router.py *)

Module CheckinRouter.

Record CreateCheckInRequest := {
  req_mealPassId : string;
  req_mealType : CheckinMeal
}.

(** create_checkin answers its rejections with a JSONResponse, not with an
    exception. *)
Inductive CheckinResponse :=
| Created (c : CheckIn)
| JSONResponse (status_code : Z) (message : string).

Definition SubStatus_value (s : SubStatus) : string :=
  match s with
  | Active => "Active"
  | Expired => "Expired"
  | Cancelled => "Cancelled"
  | Pending => "Pending"
  | PlanRemoved => "Plan Removed"
  end.

(** The query of [CheckIn.find_one] for a check-in of this pass and meal
    created in [today_start, today_end). A document without created_at
    matches no range. *)
Definition checked_in_between (pid : ObjectId) (meal : CheckinMeal)
    (today_start today_end : datetime) (c : CheckIn) : bool :=
  oid_eqb c.(mealPassId) pid
  && CheckinMeal_eqb c.(checkin_mealType) meal
  && match c.(checkin_created_at) with
     | Some t => (today_start <=? t) && (t <? today_end)
     | None => false
     end.

Definition insert_checkin (c : CheckIn) : M unit :=
  d <- get_db ;;
  put_db {| users := d.(users); plans := d.(plans);
            subscriptions := d.(subscriptions);
            mealpasses := d.(mealpasses);
            checkins := d.(checkins) ++ [c] |}.

(** *** The handler between its awaits

    create_checkin is a coroutine. It awaits four times: MealPass.get,
    UserSubscription.get, CheckIn.find_one and checkin.insert, and at each
    await the event loop may run other requests before it resumes this
    one. Each function below is one awaited operation with the code that
    runs from its completion to the next await; it yields either the
    response the handler returns on the way ([inl]) or the local variables
    the handler goes on with ([inr]). *)

(** [await MealPass.get(...)], then the tests of the pass. *)
Definition await_meal_pass (pid : ObjectId) : M (CheckinResponse + MealPass) :=
  d <- get_db ;;
  match MealPass_get d pid with
  | None => ret (inl (JSONResponse 404 "Meal pass not found"))
  | Some meal_pass =>
      if negb meal_pass.(isActive) || meal_pass.(isBlocked)
      then ret (inl (JSONResponse 403 "Meal pass is inactive or blocked"))
      else ret (inr meal_pass)
  end.

(** [await UserSubscription.get(...)], the test of the status, and the
    reading of the clock that gives today_start and today_end. *)
Definition await_subscription (e : Env) (meal_pass : MealPass)
    : M (CheckinResponse + datetime * datetime) :=
  d <- get_db ;;
  match UserSubscription_get d meal_pass.(subscriptionId) with
  | None => ret (inl (JSONResponse 404 "Subscription not found"))
  | Some subscription =>
      if negb (SubStatus_eqb subscription.(status) Active)
      then ret (inl (JSONResponse 403
                       ("Subscription is not active. Current status: "
                        ++ SubStatus_value subscription.(status))))
      else
        now <- utcnow e ;;
        let today_start := start_of_day now in
        let today_end := today_start + timedelta_days 1 in
        ret (inr (today_start, today_end))
  end.

(** [await CheckIn.find_one(...)], the test of its result, and the
    construction of the CheckIn, whose default factories read the clock
    for created_at and updated_at. *)
Definition await_find_one (e : Env) (payload : CreateCheckInRequest)
    (meal_pass : MealPass) (today_start today_end : datetime)
    : M (CheckinResponse + datetime * datetime) :=
  d <- get_db ;;
  match find (checked_in_between meal_pass.(pass_id)
                payload.(req_mealType) today_start today_end)
             d.(checkins) with
  | Some _ => ret (inl (JSONResponse 400 "Already checked in for this meal today"))
  | None =>
      created <- utcnow e ;;
      updated <- utcnow e ;;
      ret (inr (created, updated))
  end.

(** [await checkin.insert()], which gives the document its id, and the
    return of checkin.to_dict(). *)
Definition await_insert (e : Env) (payload : CreateCheckInRequest)
    (meal_pass : MealPass) (created updated : datetime) : M CheckinResponse :=
  i <- fresh_oid e ;;
  let checkin :=
    {| checkin_id := i;
       checkin_userId := meal_pass.(pass_userId);
       checkin_messId := meal_pass.(pass_messId);
       mealPassId := meal_pass.(pass_id);
       checkin_mealType := payload.(req_mealType);
       checkin_status := success;
       failureReason := None;
       checkin_created_at := Some created;
       checkin_updated_at := Some updated |} in
  insert_checkin checkin ;;;
  ret (Created checkin).

(** The handler served alone: every await is answered before any other
    request runs. *)
Definition create_checkin (e : Env) (mess_id_arg : string)
    (payload : CreateCheckInRequest) : M CheckinResponse :=
  router_guard (
    pid <- parse_oid payload.(req_mealPassId) ;;
    got <- await_meal_pass pid ;;
    match got with
    | inl response => ret response
    | inr meal_pass =>
      checked <- await_subscription e meal_pass ;;
      match checked with
      | inl response => ret response
      | inr (today_start, today_end) =>
        found <- await_find_one e payload meal_pass today_start today_end ;;
        match found with
        | inl response => ret response
        | inr (created, updated) =>
            await_insert e payload meal_pass created updated
        end
      end
    end).

(** *** The handler among other requests

    A request in flight is suspended at one of its awaits, with the local
    variables it still uses, or has returned. *)
Inductive CheckinTask :=
| AwaitMealPass (pid : ObjectId)
| AwaitSubscription (meal_pass : MealPass)
| AwaitFindOne (meal_pass : MealPass) (today_start today_end : datetime)
| AwaitInsert (meal_pass : MealPass) (created updated : datetime)
| Returned (r : Result CheckinResponse).

(** One stretch of the handler, inside its try block: it ends at the next
    await, at a return, or at the exception that leaves the handler. *)
Definition stretch {A} (next : A -> CheckinTask)
    (body : M (CheckinResponse + A)) (w : World) : CheckinTask * World :=
  match router_guard body w with
  | (Ok (inl response), w') => (Returned (Ok response), w')
  | (Ok (inr a), w') => (next a, w')
  | (Raise x, w') => (Returned (Raise x), w')
  end.

(** From the call to the first await. *)
Definition checkin_begin (payload : CreateCheckInRequest)
    : World -> CheckinTask * World :=
  stretch AwaitMealPass
    (pid <- parse_oid payload.(req_mealPassId) ;; ret (inr pid)).

(** The handler is resumed: the awaited operation completes and the
    handler runs to its next await. *)
Definition checkin_resume (e : Env) (payload : CreateCheckInRequest)
    (t : CheckinTask) : World -> CheckinTask * World :=
  match t with
  | AwaitMealPass pid =>
      stretch AwaitSubscription (await_meal_pass pid)
  | AwaitSubscription meal_pass =>
      stretch (fun today => AwaitFindOne meal_pass (fst today) (snd today))
              (await_subscription e meal_pass)
  | AwaitFindOne meal_pass today_start today_end =>
      stretch (fun stamps => AwaitInsert meal_pass (fst stamps) (snd stamps))
              (await_find_one e payload meal_pass today_start today_end)
  | AwaitInsert meal_pass created updated =>
      fun w =>
        let (r, w') :=
          router_guard (await_insert e payload meal_pass created updated) w in
        (Returned r, w')
  | Returned r => fun w => (Returned r, w)
  end.

(** The event loop with create_checkin for its handler. The path parameter
    mess_id is no part of a request here: the handler never reads it. *)
Definition checkin_step (e : Env) :=
  event_step checkin_begin (checkin_resume e).

Definition checkin_loop (e : Env) :=
  event_loop checkin_begin (checkin_resume e).


End CheckinRouter.

(* ------------------------------------------------------------------ *)
(** ** app/services/auth_service.py, with app/utils/password_hasher.py and
       app/utils/token_manager.py *)

Module AuthService.

Section Signup.

(** The libraries signup calls: bcrypt, python-jose and the validator
    behind pydantic's EmailStr, which accepts a text or not ([email_ok]) and
    gives the field the address in its normal form ([normalized_email]: the
    domain in lower case, among others); the salt
    bcrypt.gensalt(rounds=10) draws; [int(t.timestamp() * 1000)]; and the
    JWT_EXPIRATION_HOURS setting. *)
Variable bcrypt_gensalt : nat -> string.
Variable bcrypt_hashpw : string -> string -> string.
Variable jwt_encode : string -> string -> datetime -> datetime -> string.
Variable email_ok : string -> bool.
Variable normalized_email : string -> string.
Variable timestamp_millis : datetime -> Z.
Variable JWT_EXPIRATION_HOURS : Z.

Definition microseconds_per_hour : Z := 3600000000.

(** PasswordHasher.hash_password. *)
Definition hash_password (plain_password : string) : M string :=
  fun w => (Ok (bcrypt_hashpw plain_password (bcrypt_gensalt w.(tick))),
            {| db := w.(db); tick := S w.(tick) |}).

(** TokenManager.create_token. *)
Definition create_token (e : Env) (user_id_text role : string) : M string :=
  exp_now <- utcnow e ;;
  iat <- utcnow e ;;
  ret (jwt_encode user_id_text role
         (exp_now + JWT_EXPIRATION_HOURS * microseconds_per_hour) iat).

(** The field constraints of the User document, checked when [User(...)]
    is built: username of 3 to 50 characters, a well-formed e-mail address,
    password of at least 6 characters. *)
Definition user_fields_ok (username_arg email_arg password_arg : string) : bool :=
  ((3 <=? String.length username_arg) && (String.length username_arg <=? 50)
   && (6 <=? String.length password_arg))%nat
  && email_ok email_arg.

Definition insert_user (u : User) : M unit :=
  d <- get_db ;;
  put_db {| users := d.(users) ++ [u]; plans := d.(plans);
            subscriptions := d.(subscriptions);
            mealpasses := d.(mealpasses);
            checkins := d.(checkins) |}.

(** [all([username, email, password, login_role])]: a LoginRole member is
    a non-empty string, hence always true. *)
Definition all_fields (username_arg email_arg password_arg : string)
    (login_role : LoginRole) : bool :=
  negb (String.eqb username_arg "") && negb (String.eqb email_arg "")
  && negb (String.eqb password_arg "")
  && negb (String.eqb (LoginRole_value login_role) "").

(** *** The method between its awaits

    signup awaits three times: User.find_one by e-mail, User.find_one by
    username and user.insert. Each function below is one awaited operation
    with the code that runs from its completion to the next await. *)

(** From the call to the first await. *)
Definition check_fields (username_arg email_arg password_arg : string)
    (login_role : LoginRole) : M unit :=
  if negb (all_fields username_arg email_arg password_arg login_role)
  then raise (ValidationError "All fields are required")
  else if (128 <? String.length password_arg)%nat
  then raise (ValidationError "Password is too long (max 128 characters)")
  else ret tt.

(** [await User.find_one({"email": email})] and the test of its result:
    the look-up is by the text as given. *)
Definition await_email_lookup (email_arg : string) : M unit :=
  d <- get_db ;;
  match find (fun u => String.eqb u.(email) email_arg) d.(users) with
  | Some _ => raise (DuplicateError "Email" email_arg)
  | None => ret tt
  end.

(** What [User(...)] holds before the document is inserted: the hash and
    the three readings of the clock. *)
Record UserDraft := {
  draft_password : string;
  draft_stamp : datetime;
  draft_created_at : datetime;
  draft_updated_at : datetime
}.

(** [await User.find_one({"username": username})], the test of its
    result, the hashing of the password and the construction of the User,
    which validates the fields. *)
Definition await_username_lookup (e : Env)
    (username_arg email_arg password_arg : string) : M UserDraft :=
  d <- get_db ;;
  match find (fun u => String.eqb u.(username) username_arg) d.(users) with
  | Some _ => raise (DuplicateError "Username" username_arg)
  | None =>
      hashed_password <- hash_password password_arg ;;
      stamp <- utcnow e ;;
      created <- utcnow e ;;
      updated <- utcnow e ;;
      if negb (user_fields_ok username_arg email_arg hashed_password)
      then raise PydanticValidationError
      else ret {| draft_password := hashed_password; draft_stamp := stamp;
                  draft_created_at := created; draft_updated_at := updated |}
  end.

(** [await user.insert()], which gives the document its id, then the
    token. The e-mail field holds the normal form of the address. *)
Definition await_user_insert (e : Env) (username_arg email_arg : string)
    (login_role : LoginRole) (draft : UserDraft) : M (User * string) :=
  i <- fresh_oid e ;;
  let user :=
    {| user_id := i;
       username := username_arg;
       email := normalized_email email_arg;
       password := draft.(draft_password);
       Login_Role := login_role;
       UserID := timestamp_millis draft.(draft_stamp);
       user_created_at := Some draft.(draft_created_at);
       user_updated_at := Some draft.(draft_updated_at) |} in
  insert_user user ;;;
  token <- create_token e (oid_str user.(user_id))
             (LoginRole_value login_role) ;;
  ret (user, token).

(** The method served alone: every await is answered before any other
    request runs. *)
Definition signup (e : Env) (username_arg email_arg password_arg : string)
    (login_role : LoginRole) : M (User * string) :=
  check_fields username_arg email_arg password_arg login_role ;;;
  await_email_lookup email_arg ;;;
  draft <- await_username_lookup e username_arg email_arg password_arg ;;
  await_user_insert e username_arg email_arg login_role draft.

(** *** The method among other requests *)

Record SignupCall := {
  call_username : string;
  call_email : string;
  call_password : string;
  call_role : LoginRole
}.

Inductive SignupTask :=
| AwaitEmailLookup
| AwaitUsernameLookup
| AwaitUserInsert (draft : UserDraft)
| SignupDone (r : Result (User * string)).

(** One stretch of the method: it ends at the next await or at the
    exception that leaves the method. *)
Definition signup_stretch {A} (next : A -> SignupTask) (body : M A) (w : World)
    : SignupTask * World :=
  match body w with
  | (Ok a, w') => (next a, w')
  | (Raise x, w') => (SignupDone (Raise x), w')
  end.

Definition signup_begin (c : SignupCall) : World -> SignupTask * World :=
  signup_stretch (fun _ => AwaitEmailLookup)
    (check_fields c.(call_username) c.(call_email) c.(call_password)
       c.(call_role)).

Definition signup_resume (e : Env) (c : SignupCall) (t : SignupTask)
    : World -> SignupTask * World :=
  match t with
  | AwaitEmailLookup =>
      signup_stretch (fun _ => AwaitUsernameLookup)
        (await_email_lookup c.(call_email))
  | AwaitUsernameLookup =>
      signup_stretch AwaitUserInsert
        (await_username_lookup e c.(call_username) c.(call_email)
           c.(call_password))
  | AwaitUserInsert draft =>
      fun w =>
        let (r, w') :=
          await_user_insert e c.(call_username) c.(call_email) c.(call_role)
            draft w in
        (SignupDone r, w')
  | SignupDone r => fun w => (SignupDone r, w)
  end.

(** The event loop with signup for its handler. *)
Definition signup_loop (e : Env) :=
  event_loop signup_begin (signup_resume e).

(** The events of a call served alone: it arrives and is resumed after
    each of its three awaits. *)
Definition signup_alone (c : SignupCall) : list (Event SignupCall) :=
  [Arrives c; Resumes 0; Resumes 0; Resumes 0].

End Signup.

End AuthService.

(* ------------------------------------------------------------------ *)
(** ** app/models/mess.py and the rating endpoint of
       app/routers/mess_router.py *)

Module MessModel.

(** [s.replace('.', '', 1)]. *)
Fixpoint replace_first_dot (s : string) : string :=
  match s with
  | EmptyString => EmptyString
  | String c r => if Ascii.eqb c "." then r else String c (replace_first_dot r)
  end.

(** A rating text is a Python str. Its characters are taken from the code
    points below 256 (Latin-1), one per [ascii].

    [c.isdigit()] for one such character: the decimal digits 0-9 and the
    superscripts U+00B2, U+00B3 and U+00B9, which Unicode gives the property
    Numeric_Type=Digit although they are no decimal digits. *)
Definition is_superscript_digit (c : ascii) : bool :=
  let n := nat_of_ascii c in
  (n =? 178)%nat || (n =? 179)%nat || (n =? 185)%nat.

Definition py_isdigit_char (c : ascii) : bool :=
  is_digit c || is_superscript_digit c.

(** [s.isdigit()]: at least one character, all of them digits. *)
Definition isdigit (s : string) : bool :=
  (1 <=? String.length s)%nat && string_forallb py_isdigit_char s.

(** The guard of calculate_average_rating on a string entry. *)
Definition numeric_text (s : string) : bool := isdigit (replace_first_dot s).

Section Ratings.

(** Python's float with the operations the method uses: the literal 0.0,
    float(n) for an int, float(s) for a text ([None] when it raises
    ValueError), float addition, int / int and float / float. *)
Variable float : Type.
Variable float_zero : float.
Variable float_of_int : Z -> float.
Variable float_of_str : string -> option float.
Variable float_add : float -> float -> float.
Variable int_truediv : Z -> Z -> float.
Variable float_div : float -> float -> float.

(** A Python number: int or float. *)
Inductive number :=
| NInt (z : Z)
| NFloat (f : float).

(** [a + b]. *)
Definition py_add (a b : number) : number :=
  match a, b with
  | NInt x, NInt y => NInt (x + y)
  | NInt x, NFloat y => NFloat (float_add (float_of_int x) y)
  | NFloat x, NInt y => NFloat (float_add x (float_of_int y))
  | NFloat x, NFloat y => NFloat (float_add x y)
  end.

(** [sum(l)]: from the int 0, left to right. *)
Definition py_sum (l : list number) : number := fold_left py_add l (NInt 0).

(** [total / n] for an int n. *)
Definition py_truediv (total : number) (n : Z) : float :=
  match total with
  | NInt x => int_truediv x n
  | NFloat f => float_div f (float_of_int n)
  end.

(** An entry of Mess.Ratings (List[Any]): an int (bool included, as 0 or
    1), a float, a string, or anything else. *)
Inductive Rating :=
| RInt (z : Z)
| RFloat (f : float)
| RStr (s : string)
| ROther.

(** An entry of Mess.RatedBy (List[Any]): an ObjectId, a string or an int. *)
Inductive RatedByEntry :=
| UOid (o : ObjectId)
| UStr (s : string)
| UInt (z : Z).

(** [str(uid)]. *)
Definition uid_str (u : RatedByEntry) : string :=
  match u with
  | UOid o => oid_str o
  | UStr s => s
  | UInt z => str_int z
  end.

Record Mess := {
  mess_id : ObjectId;
  Mess_ID : Z;
  Mess_Name : string;
  Mobile_No : option string;
  Capacity : option Z;
  Address : option string;
  Owner_ID : ObjectId;
  Description : option string;
  Ratings : list Rating;
  RatedBy : list RatedByEntry;
  mess_UserID : Z;
  Image : option string;
  mess_created_at : option datetime;
  mess_updated_at : option datetime
}.

Definition set_ratings (m : Mess) (rs : list Rating) (by_ : list RatedByEntry) : Mess :=
  {| mess_id := m.(mess_id); Mess_ID := m.(Mess_ID); Mess_Name := m.(Mess_Name);
     Mobile_No := m.(Mobile_No); Capacity := m.(Capacity); Address := m.(Address);
     Owner_ID := m.(Owner_ID); Description := m.(Description);
     Ratings := rs; RatedBy := by_;
     mess_UserID := m.(mess_UserID); Image := m.(Image);
     mess_created_at := m.(mess_created_at);
     mess_updated_at := m.(mess_updated_at) |}.

(** One turn of the loop of calculate_average_rating:
      try:
          if isinstance(rating, (int, float)): valid_ratings.append(rating)
          elif isinstance(rating, str) and rating.replace('.', '', 1).isdigit():
              valid_ratings.append(float(rating))
      except: continue
    A text that passes the guard and on which float() raises (a superscript
    digit) takes the except clause and is left out. *)
Definition collect (valid_ratings : list number) (rating : Rating) : list number :=
  match rating with
  | RInt z => valid_ratings ++ [NInt z]
  | RFloat f => valid_ratings ++ [NFloat f]
  | RStr s =>
      if numeric_text s
      then match float_of_str s with
           | Some f => valid_ratings ++ [NFloat f]
           | None => valid_ratings
           end
      else valid_ratings
  | ROther => valid_ratings
  end.

Definition calculate_average_rating (m : Mess) : float :=
  match m.(Ratings) with
  | [] => float_zero
  | _ =>
      let valid_ratings := fold_left collect m.(Ratings) [] in
      match valid_ratings with
      | [] => float_zero
      | _ => py_truediv (py_sum valid_ratings) (Z.of_nat (List.length valid_ratings))
      end
  end.

(** Mess.has_user_rated. *)
Definition has_user_rated (m : Mess) (user_id_arg : string) : bool :=
  existsb (String.eqb user_id_arg) (map uid_str m.(RatedBy)).

(** Mess.add_rating: the result, and the object as the call leaves it.
    The rating is appended before PydanticObjectId(user_id) is evaluated. *)
Definition add_rating (m : Mess) (user_id_arg : string) (rating : Z)
    : Result bool * Mess :=
  if existsb (String.eqb user_id_arg) (map uid_str m.(RatedBy))
  then (Ok false, m)
  else
    let m1 := set_ratings m (m.(Ratings) ++ [RInt rating]) m.(RatedBy) in
    match PydanticObjectId user_id_arg with
    | None => (Raise InvalidId, m1)
    | Some o => (Ok true, set_ratings m1 m1.(Ratings) (m1.(RatedBy) ++ [UOid o]))
    end.

(** MessService.get_mess_by_id. *)
Definition get_mess_by_id (messes : list Mess) (mess_id_arg : string)
    : Result Mess :=
  let found :=
    match PydanticObjectId mess_id_arg with
    | Some i => find (fun m => oid_eqb m.(mess_id) i) messes
    | None => None
    end in
  match found with
  | Some m => Ok m
  | None => Raise (NotFoundError "Mess")
  end.

Record RatingResponse := {
  resp_success : bool;
  resp_message : string;
  resp_rating : float;
  resp_total_ratings : nat
}.

(** The except clauses of update_rating: HTTPException passes, a
    MessBuddyException is converted, anything else becomes HTTP 500. *)
Definition rating_guard (x : Exn) : Exn :=
  match x with
  | HTTPException c d => HTTPException c d
  | NotFoundError r => HTTPException 404 (r ++ " not found")
  | ValidationError m => HTTPException 400 m
  | DuplicateError f v => HTTPException 400 (f ++ " '" ++ v ++ "' already exists")
  | _ => HTTPException 500 "Internal server error"
  end.

(** update_rating over the collection of messes. *)
Definition update_rating (messes : list Mess) (mess_id_arg user_id_arg : string)
    (rating : Z) : Result RatingResponse * list Mess :=
  if (rating <? 1) || (rating >? 5)
  then (Raise (HTTPException 400 "Rating must be between 1 and 5"), messes)
  else
    match get_mess_by_id messes mess_id_arg with
    | Raise x => (Raise (rating_guard x), messes)
    | Ok mess =>
      if has_user_rated mess user_id_arg
      then (Raise (HTTPException 400 "You have already rated this mess"), messes)
      else
        match add_rating mess user_id_arg rating with
        | (Raise x, _) => (Raise (rating_guard x), messes)
        | (Ok _, mess') =>
            (Ok {| resp_success := true;
                   resp_message := "Rating submitted successfully";
                   resp_rating := calculate_average_rating mess';
                   resp_total_ratings := List.length mess'.(Ratings) |},
             replace_by (fun m => oid_eqb m.(mess_id) mess'.(mess_id)) mess' messes)
        end
    end.

End Ratings.

Arguments NInt {float} z.
Arguments NFloat {float} f.
Arguments RInt {float} z.
Arguments RFloat {float} f.
Arguments RStr {float} s.
Arguments ROther {float}.
Arguments mess_id {float} m.
Arguments Mess_ID {float} m.
Arguments Mess_Name {float} m.
Arguments Mobile_No {float} m.
Arguments Capacity {float} m.
Arguments Address {float} m.
Arguments Owner_ID {float} m.
Arguments Description {float} m.
Arguments Ratings {float} m.
Arguments RatedBy {float} m.
Arguments mess_UserID {float} m.
Arguments Image {float} m.
Arguments mess_created_at {float} m.
Arguments mess_updated_at {float} m.
Arguments set_ratings {float} m rs by_.
Arguments has_user_rated {float} m user_id_arg.
Arguments add_rating {float} m user_id_arg rating.
Arguments get_mess_by_id {float} messes mess_id_arg.
Arguments resp_success {float} r.
Arguments resp_message {float} r.
Arguments resp_rating {float} r.
Arguments resp_total_ratings {float} r.

End MessModel.

(* ------------------------------------------------------------------ *)
(** ** app/routers/subscription_router.py: create_plan and delete_plan *)

Module PlanRouter.
Import SubscriptionRouter.

Record CreatePlanRequest := {
  cr_planName : string;
  cr_duration : Duration;
  cr_mealType : MealType;
  cr_price : Q;
  cr_description : string;
  cr_userId : string
}.

(** The field constraints of the SubscriptionPlan document, checked when
    [SubscriptionPlan(...)] is built: planName of 1 to 200 characters,
    price >= 0, description of 1 to 1000 characters. *)
Definition plan_fields_ok (p : CreatePlanRequest) : bool :=
  ((1 <=? String.length p.(cr_planName)) && (String.length p.(cr_planName) <=? 200)
   && (1 <=? String.length p.(cr_description))
   && (String.length p.(cr_description) <=? 1000))%nat
  && Qle_bool 0 p.(cr_price).

Definition insert_plan (plan : SubscriptionPlan) : M unit :=
  d <- get_db ;;
  put_db {| users := d.(users); plans := d.(plans) ++ [plan];
            subscriptions := d.(subscriptions);
            mealpasses := d.(mealpasses);
            checkins := d.(checkins) |}.

(** [not user or not user.is_mess_owner()]. *)
Definition not_mess_owner (user : option User) : bool :=
  match user with
  | None => true
  | Some u => negb (is_mess_owner u)
  end.

Definition create_plan (e : Env) (payload : CreatePlanRequest) : M SubscriptionPlan :=
  router_guard (
    uid <- parse_oid payload.(cr_userId) ;;
    d <- get_db ;;
    if not_mess_owner (User_get d uid)
    then raise (HTTPException 403 "Only mess owners can create subscription plans")
    else
      mess <- parse_oid payload.(cr_userId) ;;
      created <- utcnow e ;;
      updated <- utcnow e ;;
      if negb (plan_fields_ok payload)
      then raise PydanticValidationError
      else
        i <- fresh_oid e ;;
        let new_plan :=
          {| plan_id := i;
             plan_messId := mess;
             planName := payload.(cr_planName);
             duration := payload.(cr_duration);
             plan_mealType := payload.(cr_mealType);
             price := payload.(cr_price);
             description := payload.(cr_description);
             plan_isActive := true;
             plan_created_at := Some created;
             plan_updated_at := Some updated |} in
        insert_plan new_plan ;;;
        ret new_plan).

(** [Document.delete()]: the stored document with that id is removed. *)
Fixpoint remove_by {A} (same : A -> bool) (l : list A) : list A :=
  match l with
  | [] => []
  | y :: r => if same y then r else y :: remove_by same r
  end.

Definition delete_stored_plan (plan : SubscriptionPlan) : M unit :=
  d <- get_db ;;
  put_db {| users := d.(users);
            plans := remove_by (fun p => oid_eqb p.(plan_id) plan.(plan_id)) d.(plans);
            subscriptions := d.(subscriptions);
            mealpasses := d.(mealpasses);
            checkins := d.(checkins) |}.

(** The body of the loop of delete_plan on one subscription. *)
Definition plan_removed (s : UserSubscription) (now : datetime) : UserSubscription :=
  {| sub_id := s.(sub_id); sub_userId := s.(sub_userId);
     sub_planId := s.(sub_planId);
     startDate := s.(startDate); endDate := now; status := PlanRemoved;
     paymentId := s.(paymentId); paymentStatus := s.(paymentStatus);
     cancellationReason := Some "Plan deleted by mess owner";
     sub_created_at := s.(sub_created_at);
     sub_updated_at := s.(sub_updated_at) |}.

(** [for sub in subscriptions: ...; await sub.save()]. *)
Fixpoint mark_plan_removed (e : Env) (subs : list UserSubscription) : M unit :=
  match subs with
  | [] => ret tt
  | sub :: rest =>
      now <- utcnow e ;;
      save_subscription (plan_removed sub now) ;;;
      mark_plan_removed e rest
  end.

Definition plan_deleted_message : string :=
  "Plan deleted successfully and related subscriptions updated".

Definition delete_plan (e : Env) (plan_id_arg mess_id_arg : string) : M string :=
  router_guard (
    pid <- parse_oid plan_id_arg ;;
    d <- get_db ;;
    match SubscriptionPlan_get d pid with
    | None => raise (HTTPException 404 "Plan not found")
    | Some plan =>
      if negb (String.eqb (oid_str plan.(plan_messId)) mess_id_arg)
      then raise (HTTPException 403 "You can only delete your own plans")
      else
        let subscriptions_of_plan :=
          filter (fun s => oid_eqb s.(sub_planId) plan.(plan_id)) d.(subscriptions) in
        mark_plan_removed e subscriptions_of_plan ;;;
        delete_stored_plan plan ;;;
        ret plan_deleted_message
    end).

(** get_mess_plans: the active plans of one mess, in stored order. *)
Definition get_mess_plans (mess_id_arg : string) : M (list SubscriptionPlan) :=
  try_except (
    mess <- parse_oid mess_id_arg ;;
    d <- get_db ;;
    ret (filter (fun p => oid_eqb p.(plan_messId) mess && p.(plan_isActive))
           d.(plans)))
    (fun _ => raise (HTTPException 500 "Internal server error")).

End PlanRouter.

(* ------------------------------------------------------------------ *)
(** ** app/routers/checkin_router.py: get_today_stats *)

Module StatsRouter.

Record Stats := {
  stat_breakfast : Z;
  stat_lunch : Z;
  stat_dinner : Z
}.

(** [stats[meal_type] += 1]. *)
Definition count_meal (stats : Stats) (c : CheckIn) : Stats :=
  match c.(checkin_mealType) with
  | breakfast =>
      {| stat_breakfast := stats.(stat_breakfast) + 1;
         stat_lunch := stats.(stat_lunch); stat_dinner := stats.(stat_dinner) |}
  | lunch =>
      {| stat_breakfast := stats.(stat_breakfast);
         stat_lunch := stats.(stat_lunch) + 1; stat_dinner := stats.(stat_dinner) |}
  | dinner =>
      {| stat_breakfast := stats.(stat_breakfast);
         stat_lunch := stats.(stat_lunch); stat_dinner := stats.(stat_dinner) + 1 |}
  end.

Definition is_success (s : CheckinStatus) : bool :=
  match s with success => true | failed => false end.

(** The query of get_today_stats. *)
Definition succeeded_today (mess : ObjectId) (today_start today_end : datetime)
    (c : CheckIn) : bool :=
  oid_eqb c.(checkin_messId) mess
  && match c.(checkin_created_at) with
     | Some t => (today_start <=? t) && (t <? today_end)
     | None => false
     end
  && is_success c.(checkin_status).

Definition no_stats : Stats :=
  {| stat_breakfast := 0; stat_lunch := 0; stat_dinner := 0 |}.

Definition get_today_stats (e : Env) (mess_id_arg : string) : M Stats :=
  try_except (
    now <- utcnow e ;;
    let today_start := start_of_day now in
    let today_end := today_start + timedelta_days 1 in
    mess <- parse_oid mess_id_arg ;;
    d <- get_db ;;
    let todays := filter (succeeded_today mess today_start today_end) d.(checkins) in
    ret (fold_left count_meal todays no_stats))
    (fun _ => raise (HTTPException 500 "Internal server error")).

End StatsRouter.

(* ------------------------------------------------------------------ *)
(** ** app/services/auth_service.py: signin *)

Module AuthSignin.
Import AuthService.

Section Signin.

Variable jwt_encode : string -> string -> datetime -> datetime -> string.
Variable JWT_EXPIRATION_HOURS : Z.

(** [bcrypt.checkpw]: [None] when bcrypt refuses the stored hash
    (ValueError). *)
Variable bcrypt_checkpw : string -> string -> option bool.

(** What signin returns, or the ValueError of bcrypt, which signin does
    not catch. *)
Inductive SigninAnswer :=
| Authenticated (user : User) (token : string)
| InvalidSalt.

Definition invalid_credentials : Exn := ValidationError "Invalid credentials".

Definition signin (e : Env) (username_arg password_arg : string)
    (login_role : LoginRole) : M SigninAnswer :=
  if negb (negb (String.eqb username_arg "") && negb (String.eqb password_arg "")
           && negb (String.eqb (LoginRole_value login_role) ""))
  then raise (ValidationError "All fields are required")
  else
    d <- get_db ;;
    match find (fun u => String.eqb u.(username) username_arg
                         && LoginRole_eqb u.(Login_Role) login_role) d.(users) with
    | None => raise invalid_credentials
    | Some user =>
        match bcrypt_checkpw password_arg user.(password) with
        | None => ret InvalidSalt
        | Some false => raise invalid_credentials
        | Some true =>
            token <- create_token jwt_encode JWT_EXPIRATION_HOURS e
                       (oid_str user.(user_id)) (LoginRole_value login_role) ;;
            ret (Authenticated user token)
        end
    end.

End Signin.

End AuthSignin.

(* ------------------------------------------------------------------ *)
(** ** app/routers/mess_router.py: has_user_rated, and
       app/services/mess_service.py: add_rating_to_mess *)

Module RatingRouter.
Import MessModel.

(** A value passed to Mess.add_rating, which Python does not check
    against the annotations: a string, an int or an ObjectId. *)
Inductive PyArg :=
| AStr (s : string)
| AInt (z : Z)
| AOid (o : ObjectId).

Section Rated.

Variable float : Type.

(** [x in [str(uid) for uid in RatedBy]]: only a string equals a string. *)
Definition in_texts (x : PyArg) (texts : list string) : bool :=
  match x with
  | AStr s => existsb (String.eqb s) texts
  | AInt _ | AOid _ => false
  end.

(** The entry [Ratings.append(x)] stores. *)
Definition as_rating (x : PyArg) : Rating float :=
  match x with
  | AInt z => RInt z
  | AStr s => RStr s
  | AOid _ => ROther
  end.

(** [PydanticObjectId(x)]. *)
Definition oid_of_arg (x : PyArg) : Result ObjectId :=
  match x with
  | AStr s => match PydanticObjectId s with
              | Some o => Ok o
              | None => Raise InvalidId
              end
  | AOid o => Ok o
  | AInt _ => Raise (TypeError
      "id must be an instance of (bytes, str, ObjectId), not <class 'int'>")
  end.

(** Mess.add_rating on whatever arguments it is given. *)
Definition add_rating_any (m : Mess float) (user_id_arg rating : PyArg)
    : Result bool * Mess float :=
  if in_texts user_id_arg (map uid_str m.(RatedBy))
  then (Ok false, m)
  else
    let m1 := set_ratings m (m.(Ratings) ++ [as_rating rating]) m.(RatedBy) in
    match oid_of_arg user_id_arg with
    | Raise x => (Raise x, m1)
    | Ok o => (Ok true, set_ratings m1 m1.(Ratings) (m1.(RatedBy) ++ [UOid o]))
    end.

(** MessService.add_rating_to_mess, which calls
    [mess.add_rating(rating, user_obj_id)]: the rating where the user id is
    expected, and the ObjectId where the rating is. The answer and the
    collection the call leaves. *)
Definition add_rating_to_mess (messes : list (Mess float))
    (mess_id_arg : string) (rating : Z) (user_id_arg : string)
    : Result (Mess float) * list (Mess float) :=
  match get_mess_by_id messes mess_id_arg with
  | Raise x => (Raise x, messes)
  | Ok mess =>
    if negb ((1 <=? rating) && (rating <=? 5))
    then (Raise (ValidationError "Rating must be between 1 and 5"), messes)
    else
      match PydanticObjectId user_id_arg with
      | None => (Raise InvalidId, messes)
      | Some user_obj_id =>
        match add_rating_any mess (AInt rating) (AOid user_obj_id) with
        | (Raise x, _) => (Raise x, messes)
        | (Ok false, _) =>
            (Raise (ValidationError "You have already rated this mess"), messes)
        | (Ok true, mess') =>
            (Ok mess',
             replace_by (fun m => oid_eqb m.(mess_id) mess'.(mess_id)) mess' messes)
        end
      end
  end.

(** [RatedBy.index(user_id)]: the position of the first entry equal to the
    string; an ObjectId or an int is never equal to a string. *)
Fixpoint index_of_text (l : list RatedByEntry) (user_id_arg : string) : option nat :=
  match l with
  | [] => None
  | UStr s :: r =>
      if String.eqb s user_id_arg then Some 0%nat
      else option_map S (index_of_text r user_id_arg)
  | _ :: r => option_map S (index_of_text r user_id_arg)
  end.

Record HasRatedResponse := {
  hr_success : bool;
  hasRated : bool;
  hr_rating : Rating float
}.

(** The has_user_rated endpoint. *)
Definition has_user_rated_endpoint (messes : list (Mess float))
    (mess_id_arg user_id_arg : string) : Result HasRatedResponse :=
  match get_mess_by_id messes mess_id_arg with
  | Raise x => Raise (rating_guard x)
  | Ok mess =>
      let has_rated := has_user_rated mess user_id_arg in
      let user_rating :=
        if has_rated then
          match index_of_text mess.(RatedBy) user_id_arg with
          | None => RInt 0
          | Some user_index =>
              match nth_error mess.(Ratings) user_index with
              | Some r => r
              | None => RInt 0
              end
          end
        else RInt 0 in
      Ok {| hr_success := true; hasRated := has_rated; hr_rating := user_rating |}
  end.

End Rated.

Arguments hr_success {float} h.
Arguments hasRated {float} h.
Arguments hr_rating {float} h.

End RatingRouter.

(* ------------------------------------------------------------------ *)
(** ** Properties of subscribe_to_plan *)

Module SubscribeProps.
Import SubscriptionRouter.

#[local] Arguments User_get : simpl never.
#[local] Arguments SubscriptionPlan_get : simpl never.
#[local] Arguments UserSubscription_get : simpl never.
#[local] Arguments MealPass_get : simpl never.
#[local] Arguments find : simpl never.
#[local] Arguments end_date_for : simpl never.
#[local] Arguments json_dumps_sorted : simpl never.
#[local] Arguments qr_data : simpl never.
#[local] Arguments qrCode_ok : simpl never.

Lemma oid_eqb_eq (a b : ObjectId) : oid_eqb a b = true <-> a = b.
Proof. apply String.eqb_eq. Qed.

Lemma find_same_user_and_plan_none uid pid l :
  find (same_user_and_plan uid pid) l = None <->
  ~ exists s, In s l /\ s.(sub_userId) = uid /\ s.(sub_planId) = pid.
Proof.
  split.
  - intros Hnone (s & Hin & Hu & Hp).
    pose proof (find_none _ _ Hnone s Hin) as Hf.
    unfold same_user_and_plan in Hf.
    rewrite Hu, Hp in Hf. unfold oid_eqb in Hf.
    now rewrite !String.eqb_refl in Hf.
  - intros Hno. destruct (find _ l) as [s|] eqn:Hf; [|reflexivity].
    exfalso. apply Hno. apply find_some in Hf. destruct Hf as [Hin Hb].
    unfold same_user_and_plan in Hb. apply andb_true_iff in Hb.
    destruct Hb as [Hu Hp]. exists s. repeat split; trivial; now apply oid_eqb_eq.
Qed.

(** The number of days the claim attaches to each duration. *)
Definition plan_days (dur : Duration) : Z :=
  match dur with Daily => 1 | Weekly => 7 | Monthly => 30 end.

Lemma end_date_for_days dur t :
  end_date_for dur t = t + plan_days dur * microseconds_per_day.
Proof. destruct dur; reflexivity. Qed.

(** The text json.dumps(qr_data, sort_keys=True) produces, keys in
    alphabetical order. *)
Definition sorted_payload_text (userId subId planId messId mealType : string)
    (timestamp : Z) : string :=
  "{" ++ dquote ++ "mealType" ++ dquote ++ ": " ++ dquote ++ mealType ++ dquote
  ++ ", " ++ dquote ++ "messId" ++ dquote ++ ": " ++ dquote ++ messId ++ dquote
  ++ ", " ++ dquote ++ "planId" ++ dquote ++ ": " ++ dquote ++ planId ++ dquote
  ++ ", " ++ dquote ++ "subscriptionId" ++ dquote ++ ": " ++ dquote ++ subId ++ dquote
  ++ ", " ++ dquote ++ "timestamp" ++ dquote ++ ": " ++ str_int timestamp
  ++ ", " ++ dquote ++ "userId" ++ dquote ++ ": " ++ dquote ++ userId ++ dquote
  ++ "}".

Lemma string_app_assoc (a b c : string) : (a ++ b) ++ c = a ++ (b ++ c).
Proof. induction a as [|x a IH]; simpl; [reflexivity | now rewrite IH]. Qed.

Lemma json_dumps_qr_data e user subscription plan ts_now :
  json_dumps_sorted (qr_data e user subscription plan ts_now)
  = sorted_payload_text (oid_str user.(user_id)) (oid_str subscription.(sub_id))
      (oid_str plan.(plan_id)) (oid_str plan.(plan_messId))
      (MealType_value plan.(plan_mealType)) (e.(local_timestamp) ts_now).
Proof.
  unfold json_dumps_sorted, qr_data, sorted_payload_text, sort_keys.
  cbn [fold_right insert_by_key fst snd String.leb String.compare
       Ascii.compare N.compare map join json_item json_value].
  unfold dquote. cbn.
  repeat (rewrite string_app_assoc; cbn [append]).
  reflexivity.
Qed.

Section WithDigest.

Variable sha256_hexdigest : string -> string.

(** The guards of subscribe_to_plan that precede the duplicate check. *)
Definition may_subscribe (w : World) (payload : SubscribeToPlanRequest)
    (user : User) (plan : SubscriptionPlan) : Prop :=
  (exists uid, PydanticObjectId payload.(req_userId) = Some uid
               /\ User_get w.(db) uid = Some user)
  /\ is_regular_user user = true
  /\ (exists pid, PydanticObjectId payload.(req_planId) = Some pid
                  /\ SubscriptionPlan_get w.(db) pid = Some plan)
  /\ plan.(plan_isActive) = true.

Definition prior_subscription (w : World) (user : User) (plan : SubscriptionPlan)
    : Prop :=
  exists s, In s w.(db).(subscriptions)
            /\ s.(sub_userId) = user.(user_id) /\ s.(sub_planId) = plan.(plan_id).

(** The subscription document the handler builds. *)
Definition new_subscription (e : Env) (w : World) (user : User)
    (plan : SubscriptionPlan) : UserSubscription :=
  {| sub_id := e.(new_oid) (3 + w.(tick))%nat;
     sub_userId := user.(user_id);
     sub_planId := plan.(plan_id);
     startDate := e.(clock) w.(tick);
     endDate := end_date_for plan.(duration) (e.(clock) w.(tick));
     status := Pending;
     paymentId := None;
     paymentStatus := PaymentPending;
     cancellationReason := None;
     sub_created_at := Some (e.(clock) (1 + w.(tick))%nat);
     sub_updated_at := Some (e.(clock) (2 + w.(tick))%nat) |}.

(** The meal pass the handler builds. *)
Definition new_mealpass (e : Env) (w : World) (user : User)
    (plan : SubscriptionPlan) : MealPass :=
  let subscription := new_subscription e w user plan in
  {| pass_id := e.(new_oid) (7 + w.(tick))%nat;
     pass_userId := user.(user_id);
     subscriptionId := subscription.(sub_id);
     pass_messId := plan.(plan_messId);
     qrCode := sha256_hexdigest
                 (json_dumps_sorted
                    (qr_data e user subscription plan (e.(clock) (4 + w.(tick))%nat)));
     isActive := true;
     isBlocked := false;
     blockReason := None;
     validFrom := Some subscription.(startDate);
     validTill := Some subscription.(endDate);
     pass_created_at := Some (e.(clock) (5 + w.(tick))%nat);
     pass_updated_at := Some (e.(clock) (6 + w.(tick))%nat) |}.

Definition with_subscription (d : Db) (s : UserSubscription) : Db :=
  {| users := d.(users); plans := d.(plans);
     subscriptions := d.(subscriptions) ++ [s];
     mealpasses := d.(mealpasses); checkins := d.(checkins) |}.

Definition with_mealpass (d : Db) (p : MealPass) : Db :=
  {| users := d.(users); plans := d.(plans);
     subscriptions := d.(subscriptions);
     mealpasses := d.(mealpasses) ++ [p]; checkins := d.(checkins) |}.

(** Whether the try block of subscribe_to_plan runs to its end: the pass
    passes validation and its write does not raise. *)
Definition pass_block_completes (e : Env) (w : World) (user : User)
    (plan : SubscriptionPlan) : bool :=
  qrCode_ok (new_mealpass e w user plan).(qrCode)
  && negb (e.(pass_block_raises) (7 + w.(tick))%nat).

(** What a call that passes every guard does, in both outcomes of the
    try block. *)
Lemma subscribe_to_plan_run e w payload user plan :
  may_subscribe w payload user plan ->
  ~ prior_subscription w user plan ->
  subscribe_to_plan sha256_hexdigest e payload w =
    if pass_block_completes e w user plan
    then (Ok (new_subscription e w user plan),
          {| db := with_mealpass
                     (with_subscription w.(db) (new_subscription e w user plan))
                     (new_mealpass e w user plan);
             tick := (8 + w.(tick))%nat |})
    else (Ok (new_subscription e w user plan),
          {| db := with_subscription w.(db) (new_subscription e w user plan);
             tick := (7 + w.(tick))%nat |}).
Proof.
  intros ((uid & Hu & Hget) & Hreg & (pid & Hp & Hplan) & Hact) Hno.
  apply find_same_user_and_plan_none in Hno.
  destruct w as [d t]. cbn [db tick] in *.
  unfold pass_block_completes, new_mealpass. cbn [qrCode db tick].
  unfold subscribe_to_plan, generate_meal_pass, save_new_mealpass,
    insert_mealpass, insert_subscription, router_guard, try_except, parse_oid,
    bind, utcnow, fresh_oid, get_db, put_db, ret, raise.
  rewrite Hu, Hp. cbn [db tick]. rewrite Hget, Hreg. cbn [negb].
  rewrite Hplan, Hact. cbn [negb]. rewrite Hno. cbn [db tick plus].
  fold (new_subscription e {| db := d; tick := t |} user plan).
  destruct (qrCode_ok _) eqn:Hq; cbn [andb db tick]; [|reflexivity].
  destruct (pass_block_raises e (S (S (S (S (S (S (S t))))))));
    cbn [negb db tick]; reflexivity.
Qed.

Definition already_subscribed : Exn :=
  HTTPException 400
    "You have already subscribed to this plan before. Each plan can only be subscribed once.".

Lemma subscribe_to_plan_duplicate e w payload user plan :
  may_subscribe w payload user plan ->
  prior_subscription w user plan ->
  subscribe_to_plan sha256_hexdigest e payload w = (Raise already_subscribed, w).
Proof.
  intros ((uid & Hu & Hget) & Hreg & (pid & Hp & Hplan) & Hact) Hprior.
  destruct (find (same_user_and_plan user.(user_id) plan.(plan_id))
                 w.(db).(subscriptions)) as [s|] eqn:Hf.
  2:{ apply find_same_user_and_plan_none in Hf. contradiction. }
  unfold subscribe_to_plan, router_guard, try_except, parse_oid,
    bind, get_db, ret, raise.
  rewrite Hu, Hp, Hget, Hreg. cbn [negb]. rewrite Hplan, Hact. cbn [negb].
  rewrite Hf. reflexivity.
Qed.

(** C4. For a call by an existing regular user for an existing active plan,
    subscribe_to_plan fails with HTTP 400 and the "already subscribed"
    detail exactly when a subscription with the same userId and planId is
    stored, and that failure leaves the whole state as it was: no
    subscription and no meal pass is added. *)
Theorem duplicate_subscription_rejected e w payload user plan :
  may_subscribe w payload user plan ->
  ((exists w', subscribe_to_plan sha256_hexdigest e payload w
               = (Raise already_subscribed, w'))
   <-> prior_subscription w user plan)
  /\ (forall w', subscribe_to_plan sha256_hexdigest e payload w
                 = (Raise already_subscribed, w') -> w' = w).
Proof.
  intros Hmay.
  assert (Hdec : prior_subscription w user plan \/ ~ prior_subscription w user plan).
  { destruct (find (same_user_and_plan user.(user_id) plan.(plan_id))
                   w.(db).(subscriptions)) as [s|] eqn:Hf.
    - left. apply find_some in Hf. destruct Hf as [Hin Hb].
      apply andb_true_iff in Hb. destruct Hb as [Ha Hb].
      exists s. repeat split; trivial; now apply oid_eqb_eq.
    - right. now apply find_same_user_and_plan_none. }
  split; [split|].
  - intros [w' Hr]. destruct Hdec as [Hprior|Hno]; [assumption|].
    rewrite (subscribe_to_plan_run e w payload user plan Hmay Hno) in Hr.
    destruct (pass_block_completes e w user plan); discriminate.
  - intros Hprior. exists w.
    exact (subscribe_to_plan_duplicate e w payload user plan Hmay Hprior).
  - intros w' Hr. destruct Hdec as [Hprior|Hno].
    + rewrite (subscribe_to_plan_duplicate e w payload user plan Hmay Hprior) in Hr.
      now inversion Hr.
    + rewrite (subscribe_to_plan_run e w payload user plan Hmay Hno) in Hr.
      destruct (pass_block_completes e w user plan); discriminate.
Qed.

(** The property C1 asserts of a call: the subscription and the meal pass
    are both stored, with the dates, status and QR code the claim gives. *)
Definition issues_subscription_and_pass (e : Env) (w : World)
    (payload : SubscribeToPlanRequest) (user : User) (plan : SubscriptionPlan)
    : Prop :=
  exists sub pass w',
    subscribe_to_plan sha256_hexdigest e payload w = (Ok sub, w')
    /\ In sub w'.(db).(subscriptions)
    /\ sub.(sub_userId) = user.(user_id)
    /\ sub.(sub_planId) = plan.(plan_id)
    /\ sub.(startDate) = e.(clock) w.(tick)
    /\ sub.(endDate)
       = sub.(startDate) + plan_days plan.(duration) * microseconds_per_day
    /\ sub.(status) = Pending
    /\ In pass w'.(db).(mealpasses)
    /\ pass.(subscriptionId) = sub.(sub_id)
    /\ pass.(validFrom) = Some sub.(startDate)
    /\ pass.(validTill) = Some sub.(endDate)
    /\ exists timestamp,
         pass.(qrCode)
         = sha256_hexdigest
             (sorted_payload_text (oid_str user.(user_id)) (oid_str sub.(sub_id))
                (oid_str plan.(plan_id)) (oid_str plan.(plan_messId))
                (MealType_value plan.(plan_mealType)) timestamp).

(** C1, amended. When the write of the meal pass does not raise (and the
    digest has the 64 characters of a SHA-256 hexdigest), every call that
    passes the guards stores a subscription starting at the current time,
    ending 1, 7 or 30 days later and Pending, and a meal pass valid over the
    same window whose qrCode is the digest of the sorted-key JSON text of the
    payload. *)
Theorem subscribe_issues_pass e w payload user plan :
  (forall s, String.length (sha256_hexdigest s) = 64%nat) ->
  may_subscribe w payload user plan ->
  ~ prior_subscription w user plan ->
  e.(pass_block_raises) (7 + w.(tick))%nat = false ->
  issues_subscription_and_pass e w payload user plan.
Proof.
  intros Hlen Hmay Hno Hok.
  pose proof (subscribe_to_plan_run e w payload user plan Hmay Hno) as Hrun.
  unfold pass_block_completes in Hrun. rewrite Hok in Hrun.
  unfold qrCode_ok in Hrun. cbn [new_mealpass qrCode] in Hrun.
  rewrite Hlen in Hrun. cbn [Nat.leb andb negb] in Hrun.
  exists (new_subscription e w user plan), (new_mealpass e w user plan).
  eexists. split; [exact Hrun|].
  cbn [db subscriptions mealpasses with_mealpass with_subscription
       new_subscription new_mealpass sub_userId sub_planId startDate endDate
       status subscriptionId validFrom validTill qrCode sub_id].
  repeat split.
  - apply in_or_app. right. now left.
  - apply end_date_for_days.
  - apply in_or_app. right. now left.
  - eexists. now rewrite json_dumps_qr_data.
Qed.

(** C9. When the write of the meal pass raises, the exception is swallowed:
    the call still answers with the subscription it has just stored, the
    subscription stays stored, the meal passes are exactly those stored
    before, so no pass refers to the new subscription, and the answer is the
    one any run with the same clock and ids gives, whatever the outcome of
    that write. *)
Theorem pass_failure_is_swallowed e w payload user plan :
  may_subscribe w payload user plan ->
  ~ prior_subscription w user plan ->
  e.(pass_block_raises) (7 + w.(tick))%nat = true ->
  (forall p, In p w.(db).(mealpasses) ->
             p.(subscriptionId) <> e.(new_oid) (3 + w.(tick))%nat) ->
  exists sub w',
    subscribe_to_plan sha256_hexdigest e payload w = (Ok sub, w')
    /\ In sub w'.(db).(subscriptions)
    /\ w'.(db).(mealpasses) = w.(db).(mealpasses)
    /\ (forall p, In p w'.(db).(mealpasses) -> p.(subscriptionId) <> sub.(sub_id))
    /\ (forall e', (forall n, e'.(clock) n = e.(clock) n) ->
                   (forall n, e'.(new_oid) n = e.(new_oid) n) ->
                   fst (subscribe_to_plan sha256_hexdigest e' payload w) = Ok sub).
Proof.
  intros Hmay Hno Hraise Hfresh.
  pose proof (subscribe_to_plan_run e w payload user plan Hmay Hno) as Hrun.
  unfold pass_block_completes in Hrun. rewrite Hraise in Hrun.
  rewrite andb_false_r in Hrun.
  exists (new_subscription e w user plan). eexists.
  split; [exact Hrun|]. cbn [db subscriptions mealpasses with_subscription].
  repeat split.
  - apply in_or_app. right. now left.
  - exact Hfresh.
  - intros e' Hc Ho.
    rewrite (subscribe_to_plan_run e' w payload user plan Hmay Hno).
    assert (Hs : new_subscription e' w user plan = new_subscription e w user plan).
    { unfold new_subscription. now rewrite !Hc, Ho. }
    destruct (pass_block_completes e' w user plan); cbn [fst]; now rewrite Hs.
Qed.

End WithDigest.

End SubscribeProps.

(* ------------------------------------------------------------------ *)
(** ** Properties of update_plan and activate_subscription *)

Module PlanProps.
Import SubscriptionRouter.

#[local] Arguments User_get : simpl never.
#[local] Arguments SubscriptionPlan_get : simpl never.
#[local] Arguments UserSubscription_get : simpl never.

Lemma find_replace_by {A} (f : A -> bool) (x y : A) (l : list A) :
  find f l = Some y -> f x = true -> find f (replace_by f x l) = Some x.
Proof.
  intros Hfind Hx. induction l as [|a l IH]; [discriminate|].
  simpl in *. destruct (f a) eqn:Ha.
  - simpl. now rewrite Hx.
  - simpl. rewrite Ha. now apply IH.
Qed.

Definition or_else {A} (o : option A) (old : A) : A :=
  match o with Some v => v | None => old end.

(** The plan update_plan stores: each field of the payload that is not
    None replaces the stored one, every other field is kept, and
    updated_at is the time of the call. *)
Definition updated_plan (payload : UpdatePlanRequest) (plan : SubscriptionPlan)
    (now : datetime) : SubscriptionPlan :=
  {| plan_id := plan.(plan_id);
     plan_messId := plan.(plan_messId);
     planName := or_else payload.(upd_planName) plan.(planName);
     duration := or_else payload.(upd_duration) plan.(duration);
     plan_mealType := or_else payload.(upd_mealType) plan.(plan_mealType);
     price := or_else payload.(upd_price) plan.(price);
     description := or_else payload.(upd_description) plan.(description);
     plan_isActive := or_else payload.(upd_isActive) plan.(plan_isActive);
     plan_created_at := plan.(plan_created_at);
     plan_updated_at := Some now |}.

Lemma setattr_loop payload plan now :
  set_plan_updated_at (fold_left setattr (update_data payload) plan) now
  = updated_plan payload plan now.
Proof.
  destruct payload as [n d m p ds a u].
  destruct n, d, m, p, ds, a; reflexivity.
Qed.

Definition with_plan (d : Db) (plan : SubscriptionPlan) : Db :=
  {| users := d.(users);
     plans := replace_by (fun p => oid_eqb p.(plan_id) plan.(plan_id)) plan d.(plans);
     subscriptions := d.(subscriptions);
     mealpasses := d.(mealpasses);
     checkins := d.(checkins) |}.

(** "An existing plan": the path parameter parses and names a stored plan. *)
Definition existing_plan (w : World) (plan_id_arg : string)
    (plan : SubscriptionPlan) : Prop :=
  exists pid, PydanticObjectId plan_id_arg = Some pid
              /\ SubscriptionPlan_get w.(db) pid = Some plan.

(** The three conditions of C6 on the requester. *)
Definition owns_plan (w : World) (payload : UpdatePlanRequest)
    (plan : SubscriptionPlan) : Prop :=
  exists uid u, PydanticObjectId payload.(upd_userId) = Some uid
                /\ User_get w.(db) uid = Some u
                /\ is_mess_owner u = true
                /\ oid_str plan.(plan_messId) = payload.(upd_userId).

Definition plan_modified (e : Env) (w : World) (payload : UpdatePlanRequest)
    (plan : SubscriptionPlan) (r : Result SubscriptionPlan * World) : Prop :=
  r = (Ok (updated_plan payload plan (e.(clock) w.(tick))),
       {| db := with_plan w.(db) (updated_plan payload plan (e.(clock) w.(tick)));
          tick := S w.(tick) |})
  /\ SubscriptionPlan_get (with_plan w.(db)
                            (updated_plan payload plan (e.(clock) w.(tick))))
       plan.(plan_id)
     = Some (updated_plan payload plan (e.(clock) w.(tick))).

Definition not_your_plan : Exn :=
  HTTPException 403 "You can only update your own plans".

(** C6 as the claim states it, for one call. *)
Definition update_plan_claim (e : Env) (w : World) (plan_id_arg : string)
    (payload : UpdatePlanRequest) (plan : SubscriptionPlan) : Prop :=
  (plan_modified e w payload plan (update_plan e plan_id_arg payload w)
   <-> owns_plan w payload plan)
  /\ (~ owns_plan w payload plan ->
      update_plan e plan_id_arg payload w = (Raise not_your_plan, w)).

Lemma not_own_plan_false w payload plan uid :
  PydanticObjectId payload.(upd_userId) = Some uid ->
  not_own_plan (User_get w.(db) uid) plan payload.(upd_userId) = false
  <-> owns_plan w payload plan.
Proof.
  intros Hu. unfold not_own_plan, owns_plan. split.
  - destruct (User_get (db w) uid) as [u|] eqn:Hg; [|discriminate].
    intros H. apply orb_false_iff in H. destruct H as [Ho Hs].
    apply negb_false_iff in Ho, Hs. apply String.eqb_eq in Hs.
    exists uid, u. auto.
  - intros (uid' & u & Hu' & Hg & Ho & Hs).
    rewrite Hu in Hu'. inversion Hu'; subst uid'.
    rewrite Hg, Ho, Hs, String.eqb_refl. reflexivity.
Qed.

Lemma plan_id_of_get d pid plan :
  SubscriptionPlan_get d pid = Some plan -> plan.(plan_id) = pid.
Proof.
  unfold SubscriptionPlan_get. intros H. apply find_some in H.
  now apply String.eqb_eq.
Qed.

Lemma update_plan_owner e w plan_id_arg payload plan :
  existing_plan w plan_id_arg plan ->
  owns_plan w payload plan ->
  plan_modified e w payload plan (update_plan e plan_id_arg payload w).
Proof.
  intros (pid & Hp & Hplan) Hown.
  destruct Hown as (uid & u & Hu & Hg & Ho & Hs).
  assert (Hguard : not_own_plan (User_get w.(db) uid) plan payload.(upd_userId) = false).
  { apply not_own_plan_false; trivial. exists uid, u. auto. }
  split.
  - unfold update_plan, router_guard, try_except, parse_oid, save_plan,
      bind, utcnow, get_db, put_db, ret, raise.
    rewrite Hp, Hplan, Hu, Hguard. cbn [db tick].
    rewrite setattr_loop. reflexivity.
  - unfold with_plan, SubscriptionPlan_get. cbn [plans updated_plan plan_id].
    apply find_replace_by with (y := plan).
    + rewrite (plan_id_of_get _ _ _ Hplan). exact Hplan.
    + cbn [plan_id]. apply String.eqb_refl.
Qed.

Lemma update_plan_stranger e w plan_id_arg payload plan uid :
  existing_plan w plan_id_arg plan ->
  PydanticObjectId payload.(upd_userId) = Some uid ->
  ~ owns_plan w payload plan ->
  update_plan e plan_id_arg payload w = (Raise not_your_plan, w).
Proof.
  intros (pid & Hp & Hplan) Hu Hno.
  destruct (not_own_plan (User_get w.(db) uid) plan payload.(upd_userId)) eqn:Hguard.
  2:{ exfalso. apply Hno. now apply (not_own_plan_false w payload plan uid). }
  unfold update_plan, router_guard, try_except, parse_oid, bind, get_db, ret, raise.
  rewrite Hp, Hplan, Hu, Hguard. reflexivity.
Qed.

Lemma update_plan_malformed e w plan_id_arg payload plan :
  existing_plan w plan_id_arg plan ->
  PydanticObjectId payload.(upd_userId) = None ->
  update_plan e plan_id_arg payload w
  = (Raise (HTTPException 500 "Internal server error"), w).
Proof.
  intros (pid & Hp & Hplan) Hu.
  unfold update_plan, router_guard, try_except, parse_oid, bind, get_db, ret, raise.
  rewrite Hp, Hplan, Hu. reflexivity.
Qed.

(** C6, amended. On an existing plan, when payload.userId is a well-formed
    ObjectId text the plan is modified (the non-None fields written,
    updated_at refreshed) exactly when the requesting user exists, is a mess
    owner and str(plan.messId) equals userId, and otherwise the call raises
    HTTP 403 and leaves the state as it was; when userId is not a well-formed
    ObjectId text the call raises HTTP 500 and leaves the state as it was. *)
Theorem update_plan_by_owner_only e w plan_id_arg payload plan :
  existing_plan w plan_id_arg plan ->
  (PydanticObjectId payload.(upd_userId) <> None ->
   update_plan_claim e w plan_id_arg payload plan)
  /\ (PydanticObjectId payload.(upd_userId) = None ->
      update_plan e plan_id_arg payload w
      = (Raise (HTTPException 500 "Internal server error"), w)).
Proof.
  intros Hex. split.
  - intros Hwf.
    destruct (PydanticObjectId payload.(upd_userId)) as [uid|] eqn:Hu;
      [clear Hwf | contradiction].
    assert (Hdec : owns_plan w payload plan \/ ~ owns_plan w payload plan).
    { destruct (not_own_plan (User_get w.(db) uid) plan payload.(upd_userId)) eqn:Hg.
      - right. intros Hown. apply (not_own_plan_false w payload plan uid Hu) in Hown.
        congruence.
      - left. now apply (not_own_plan_false w payload plan uid). }
    split; [split|].
    + intros [Hr _]. destruct Hdec as [Hown|Hno]; [assumption|].
      rewrite (update_plan_stranger e w plan_id_arg payload plan uid Hex Hu Hno) in Hr.
      discriminate.
    + now apply update_plan_owner.
    + now apply update_plan_stranger with (uid := uid).
  - intros Hu. exact (update_plan_malformed e w plan_id_arg payload plan Hex Hu).
Qed.

(** *** activate_subscription *)

(** The guards of activate_subscription. *)
Definition may_activate (w : World) (subscription_id : string)
    (payload : UpdateSubscriptionRequest) (subscription : UserSubscription)
    (plan : SubscriptionPlan) : Prop :=
  (exists sid, PydanticObjectId subscription_id = Some sid
               /\ UserSubscription_get w.(db) sid = Some subscription)
  /\ SubscriptionPlan_get w.(db) subscription.(sub_planId) = Some plan
  /\ not_authorized plan payload.(act_messId) = false.

Lemma activate_keeps_mealpasses e subscription_id payload w :
  (snd (activate_subscription e subscription_id payload w)).(db).(mealpasses)
  = w.(db).(mealpasses).
Proof.
  unfold activate_subscription, router_guard, try_except, parse_oid,
    apply_status, save_subscription, bind, utcnow, get_db, put_db, ret, raise.
  destruct (PydanticObjectId subscription_id) as [sid|]; [|reflexivity].
  destruct (UserSubscription_get (db w) sid) as [s|]; [|reflexivity].
  destruct (SubscriptionPlan_get (db w) (sub_planId s)) as [p|]; [|reflexivity].
  destruct (not_authorized p (act_messId payload)); [reflexivity|].
  destruct (act_status payload) as [[| | |]|]; reflexivity.
Qed.

Lemma sub_id_of_get d sid s :
  UserSubscription_get d sid = Some s -> s.(sub_id) = sid.
Proof.
  unfold UserSubscription_get. intros H. apply find_some in H.
  now apply String.eqb_eq.
Qed.

(** The subscription a call with status 'Active' stores. *)
Definition activated (e : Env) (w : World) (subscription : UserSubscription)
    (plan : SubscriptionPlan) : UserSubscription :=
  set_subscription subscription Active (e.(clock) w.(tick))
    (end_date_for plan.(duration) (e.(clock) w.(tick)))
    (Some (e.(clock) (S w.(tick)))).

(** C10. A call with status 'Active' that passes the guards stores the
    subscription with startDate the current time, endDate 1, 7 or 30 days
    later and status Active; no call of activate_subscription changes the
    collection of meal passes, so every pass keeps its validFrom and
    validTill, and a pass of this subscription whose window began earlier
    no longer has the window of the subscription. *)
Theorem activation_leaves_passes e w subscription_id payload subscription plan :
  may_activate w subscription_id payload subscription plan ->
  payload.(act_status) = Some ReqActive ->
  (forall e' id' payload' w',
      (snd (activate_subscription e' id' payload' w')).(db).(mealpasses)
      = w'.(db).(mealpasses))
  /\ exists s2 w2,
      activate_subscription e subscription_id payload w = (Ok s2, w2)
      /\ UserSubscription_get w2.(db) subscription.(sub_id) = Some s2
      /\ s2.(startDate) = e.(clock) w.(tick)
      /\ s2.(endDate)
         = s2.(startDate)
           + SubscribeProps.plan_days plan.(duration) * microseconds_per_day
      /\ s2.(status) = Active
      /\ w2.(db).(mealpasses) = w.(db).(mealpasses)
      /\ (forall p t, In p w2.(db).(mealpasses) ->
                      p.(subscriptionId) = s2.(sub_id) ->
                      p.(validFrom) = Some t -> t < e.(clock) w.(tick) ->
                      In p w.(db).(mealpasses)
                      /\ p.(validFrom) <> Some s2.(startDate)).
Proof.
  intros ((sid & Hs & Hget) & Hplan & Hauth) Hst.
  split; [intros; apply activate_keeps_mealpasses|].
  exists (activated e w subscription plan). eexists.
  split.
  { unfold activate_subscription, router_guard, try_except, parse_oid,
      apply_status, save_subscription, bind, utcnow, get_db, put_db, ret, raise.
    rewrite Hs, Hget, Hplan, Hauth, Hst. cbn [db tick]. reflexivity. }
  cbn [db subscriptions mealpasses activated set_subscription startDate endDate
       status sub_id].
  split; [|split; [reflexivity|split; [|split; [reflexivity|split; [reflexivity|]]]]].
  - unfold UserSubscription_get. cbn [subscriptions].
    apply find_replace_by with (y := subscription).
    + rewrite (sub_id_of_get _ _ _ Hget). exact Hget.
    + apply String.eqb_refl.
  - apply SubscribeProps.end_date_for_days.
  - intros p t Hin _ Hfrom Hearlier. split; [exact Hin|].
    rewrite Hfrom. intros Heq. inversion Heq. lia.
Qed.

End PlanProps.

(* ------------------------------------------------------------------ *)
(** ** Properties of validate_meal_pass *)

Module MealpassProps.
Import MealpassRouter.

#[local] Arguments User_get : simpl never.
#[local] Arguments SubscriptionPlan_get : simpl never.
#[local] Arguments UserSubscription_get : simpl never.

Definition pass_with_qr (d : Db) (qr : string) : option MealPass :=
  find (fun p => String.eqb p.(qrCode) qr) d.(mealpasses).










End MealpassProps.

(* ------------------------------------------------------------------ *)
(** ** Properties of create_checkin *)

Module CheckinProps.
Import CheckinRouter.

#[local] Arguments MealPass_get : simpl never.
#[local] Arguments UserSubscription_get : simpl never.

(** The UTC day a timestamp falls in. *)
Definition utc_day (t : datetime) : Z := t / microseconds_per_day.

(** Two check-ins for the same pass and meal created on the same UTC day. *)
Definition clash (a b : CheckIn) : Prop :=
  a.(mealPassId) = b.(mealPassId)
  /\ a.(checkin_mealType) = b.(checkin_mealType)
  /\ exists ta tb, a.(checkin_created_at) = Some ta
                   /\ b.(checkin_created_at) = Some tb
                   /\ utc_day ta = utc_day tb.

(** No two stored check-ins clash. *)
Inductive once_per_day : list CheckIn -> Prop :=
| once_nil : once_per_day []
| once_cons c l :
    (forall c', In c' l -> ~ clash c c') ->
    once_per_day l -> once_per_day (c :: l).

Lemma once_per_day_snoc l c :
  once_per_day l ->
  (forall c', In c' l -> ~ clash c' c) ->
  once_per_day (l ++ [c]).
Proof.
  induction 1 as [|a l Ha Hl IH]; intros Hc; simpl.
  - constructor; [intros c' []| constructor].
  - constructor.
    + intros c' Hin. apply in_app_or in Hin. destruct Hin as [Hin|[<-|[]]].
      * now apply Ha.
      * apply Hc. now left.
    + apply IH. intros c' Hin. apply Hc. now right.
Qed.

Definition clock_monotone (e : Env) : Prop :=
  forall n m, (n <= m)%nat -> e.(clock) n <= e.(clock) m.

(** The invariant of the check-in collection: no clash, and no stored
    check-in dated after the next reading of the clock. *)
Definition checkins_inv (e : Env) (w : World) : Prop :=
  once_per_day w.(db).(checkins)
  /\ forall c t, In c w.(db).(checkins) -> c.(checkin_created_at) = Some t ->
                 t <= e.(clock) w.(tick).

Lemma same_day_in_range t now :
  utc_day t = utc_day now ->
  start_of_day now <= t < start_of_day now + timedelta_days 1.
Proof.
  unfold utc_day, start_of_day, timedelta_days, microseconds_per_day.
  intros H. rewrite <- H.
  pose proof (Z.div_mod t 86400000000 ltac:(lia)) as Hd.
  pose proof (Z.mod_pos_bound t 86400000000 ltac:(lia)) as Hm.
  lia.
Qed.

Lemma in_range_same_day t now :
  start_of_day now <= t < start_of_day now + timedelta_days 1 ->
  utc_day t = utc_day now.
Proof.
  unfold utc_day, start_of_day, timedelta_days, microseconds_per_day.
  intros H. symmetry.
  apply Z.div_unique with (r := t - now / 86400000000 * 86400000000);
    [left; lia | lia].
Qed.

Lemma utc_day_mono a b : a <= b -> utc_day a <= utc_day b.
Proof.
  intros H. unfold utc_day, microseconds_per_day. apply Z.div_le_mono; lia.
Qed.

(** "Such a check-in already exists": one of this pass and meal created in
    the UTC day of the current time. *)
Definition checked_in_today (d : Db) (pid : ObjectId) (meal : CheckinMeal)
    (now : datetime) : Prop :=
  exists c t, In c d.(checkins)
              /\ c.(mealPassId) = pid
              /\ c.(checkin_mealType) = meal
              /\ c.(checkin_created_at) = Some t
              /\ utc_day t = utc_day now.

Lemma CheckinMeal_eqb_eq a b : CheckinMeal_eqb a b = true <-> a = b.
Proof. destruct a, b; simpl; split; intros H; try reflexivity; discriminate. Qed.

Lemma checked_in_between_spec pid meal now c :
  checked_in_between pid meal (start_of_day now)
    (start_of_day now + timedelta_days 1) c = true
  <-> c.(mealPassId) = pid /\ c.(checkin_mealType) = meal
      /\ exists t, c.(checkin_created_at) = Some t /\ utc_day t = utc_day now.
Proof.
  unfold checked_in_between. split.
  - intros H. apply andb_true_iff in H. destruct H as [H Ht].
    apply andb_true_iff in H. destruct H as [Hp Hm].
    apply String.eqb_eq in Hp. apply CheckinMeal_eqb_eq in Hm.
    destruct (checkin_created_at c) as [t|]; [|discriminate].
    repeat split; trivial. exists t. split; [reflexivity|].
    apply in_range_same_day. lia.
  - intros (Hp & Hm & t & Ht & Hd).
    rewrite Ht. apply same_day_in_range in Hd.
    apply andb_true_iff. split; [apply andb_true_iff; split|].
    + now apply String.eqb_eq.
    + now apply CheckinMeal_eqb_eq.
    + lia.
Qed.

Lemma find_checked_in_today d pid meal now :
  (exists c, find (checked_in_between pid meal (start_of_day now)
                     (start_of_day now + timedelta_days 1)) d.(checkins) = Some c)
  <-> checked_in_today d pid meal now.
Proof.
  split.
  - intros [c Hf]. apply find_some in Hf. destruct Hf as [Hin Hb].
    apply checked_in_between_spec in Hb. destruct Hb as (Hp & Hm & t & Ht & Hd).
    exists c, t. auto.
  - intros (c & t & Hin & Hp & Hm & Ht & Hd).
    destruct (find _ (checkins d)) as [c'|] eqn:Hf; [eauto|].
    exfalso. pose proof (find_none _ _ Hf c Hin) as Hn.
    assert (Hy : checked_in_between pid meal (start_of_day now)
                   (start_of_day now + timedelta_days 1) c = true).
    { apply checked_in_between_spec. eauto. }
    congruence.
Qed.

(** The checks create_checkin makes before it looks for a check-in of
    today: the pass exists, is active and not blocked, and its subscription
    exists with status 'Active'. *)
Definition pass_found (w : World) (payload : CreateCheckInRequest)
    (mp : MealPass) : Prop :=
  exists pid, PydanticObjectId payload.(req_mealPassId) = Some pid
              /\ MealPass_get w.(db) pid = Some mp.

Definition passes_guards (w : World) (payload : CreateCheckInRequest)
    (mp : MealPass) (sub : UserSubscription) : Prop :=
  pass_found w payload mp
  /\ mp.(isActive) = true /\ mp.(isBlocked) = false
  /\ UserSubscription_get w.(db) mp.(subscriptionId) = Some sub
  /\ sub.(status) = Active.

Definition already_checked_in : CheckinResponse :=
  JSONResponse 400 "Already checked in for this meal today".

(** The dichotomy C8 states for one call on the pass [mp]. *)
Definition checkin_claim (e : Env) (w : World) (mess_id_arg : string)
    (payload : CreateCheckInRequest) (mp : MealPass) : Prop :=
  (checked_in_today w.(db) mp.(pass_id) payload.(req_mealType) (e.(clock) w.(tick)) ->
   exists w', create_checkin e mess_id_arg payload w = (Ok already_checked_in, w')
              /\ w'.(db) = w.(db))
  /\ (~ checked_in_today w.(db) mp.(pass_id) payload.(req_mealType)
         (e.(clock) w.(tick)) ->
      exists c w', create_checkin e mess_id_arg payload w = (Ok (Created c), w')
                   /\ w'.(db).(checkins) = (w.(db).(checkins) ++ [c])%list
                   /\ c.(checkin_status) = success
                   /\ c.(checkin_userId) = mp.(pass_userId)
                   /\ c.(checkin_messId) = mp.(pass_messId)
                   /\ c.(mealPassId) = mp.(pass_id)
                   /\ c.(checkin_mealType) = payload.(req_mealType)).

Lemma create_checkin_guarded e w mess_id_arg payload mp sub :
  passes_guards w payload mp sub ->
  checkin_claim e w mess_id_arg payload mp.
Proof.
  intros ((pid & Hp & Hget) & Ha & Hb & Hs & Hst).
  unfold checkin_claim. split.
  - intros Htoday. apply find_checked_in_today in Htoday. destruct Htoday as [c Hf].
    eexists. unfold create_checkin, await_meal_pass, await_subscription, await_find_one,
      await_insert, router_guard, try_except, parse_oid,
      bind, utcnow, get_db, ret.
    rewrite Hp, Hget, Ha, Hb. cbn [negb orb]. rewrite Hs, Hst.
    cbn [SubStatus_eqb negb db tick]. rewrite Hf. split; reflexivity.
  - intros Hno.
    destruct (find (checked_in_between mp.(pass_id) payload.(req_mealType)
                      (start_of_day (e.(clock) w.(tick)))
                      (start_of_day (e.(clock) w.(tick)) + timedelta_days 1))
                   w.(db).(checkins)) as [c|] eqn:Hf.
    { exfalso. apply Hno. apply find_checked_in_today. eauto. }
    eexists; eexists.
    unfold create_checkin, await_meal_pass, await_subscription, await_find_one,
      await_insert, router_guard, try_except, parse_oid, insert_checkin,
      bind, utcnow, fresh_oid, get_db, put_db, ret.
    rewrite Hp, Hget, Ha, Hb. cbn [negb orb]. rewrite Hs, Hst.
    cbn [SubStatus_eqb negb db tick]. rewrite Hf. cbn [db tick].
    split; [reflexivity|]. cbn. repeat split.
Qed.

Lemma inv_later e w n :
  clock_monotone e -> checkins_inv e w ->
  checkins_inv e {| db := w.(db); tick := (n + w.(tick))%nat |}.
Proof.
  intros Hm [Ho Hp]. split; [exact Ho|].
  cbn [db tick]. intros c t Hin Ht.
  specialize (Hp c t Hin Ht). specialize (Hm w.(tick) (n + w.(tick))%nat).
  lia.
Qed.

Lemma create_checkin_preserves_inv e w mess_id_arg payload :
  clock_monotone e -> checkins_inv e w ->
  checkins_inv e (snd (create_checkin e mess_id_arg payload w)).
Proof.
  intros Hm Hinv.
  pose proof (inv_later e w 0 Hm Hinv) as H0.
  pose proof (inv_later e w 1 Hm Hinv) as H1.
  destruct w as [d t]. cbn [db tick plus] in *.
  unfold create_checkin, await_meal_pass, await_subscription, await_find_one,
      await_insert, router_guard, try_except, parse_oid, insert_checkin,
    bind, utcnow, fresh_oid, get_db, put_db, ret, raise.
  destruct (PydanticObjectId (req_mealPassId payload)) as [pid|]; [|exact H0].
  cbn [db tick].
  destruct (MealPass_get d pid) as [mp|]; [|exact H0].
  destruct (negb (isActive mp) || isBlocked mp); [exact H0|].
  cbn [db tick].
  destruct (UserSubscription_get d (subscriptionId mp)) as [sub|]; [|exact H0].
  destruct (negb (SubStatus_eqb (status sub) Active)); [exact H0|].
  cbn [db tick fst snd].
  destruct (find _ (checkins d)) as [c|] eqn:Hf; [exact H1|].
  cbn [db tick fst snd].
  destruct Hinv as [Hone Hpast]. cbn [db tick] in Hone, Hpast.
  split; cbn [db tick checkins].
  - apply once_per_day_snoc; [exact Hone|].
    intros c' Hin (Hp & Hmeal & ta & tb & Hta & Htb & Hday).
    cbn [mealPassId checkin_mealType checkin_created_at] in Hp, Hmeal, Htb.
    inversion Htb; subst tb.
    pose proof (Hpast c' ta Hin Hta) as Hle.
    pose proof (Hm t (S t) ltac:(lia)) as Hmono.
    assert (Hnow : utc_day ta = utc_day (clock e t)).
    { pose proof (utc_day_mono _ _ Hle). pose proof (utc_day_mono _ _ Hmono). lia. }
    pose proof (find_none _ _ Hf c' Hin) as Hn.
    assert (Hy : checked_in_between (pass_id mp) (req_mealType payload)
                   (start_of_day (clock e t))
                   (start_of_day (clock e t) + timedelta_days 1) c' = true).
    { apply checked_in_between_spec. eauto. }
    congruence.
  - intros c' t' Hin Ht'. apply in_app_or in Hin. destruct Hin as [Hin|[<-|[]]].
    + specialize (Hpast c' t' Hin Ht').
      pose proof (Hm t (S (S (S (S t)))) ltac:(lia)). lia.
    + cbn [checkin_created_at] in Ht'. inversion Ht'; subst t'.
      apply Hm. lia.
Qed.

(** *** Requests in flight *)

#[local] Abbreviation Flight := (InFlight CreateCheckInRequest CheckinTask).

(** A request that holds today_start or the result of find_one is between
    its reading of the clock and the return of its insert. *)
Definition holds_today (t : CheckinTask) : bool :=
  match t with
  | AwaitFindOne _ _ _ | AwaitInsert _ _ _ => true
  | _ => false
  end.

Definition idle (r : Flight) : bool := negb (holds_today r.(suspended)).

(** Every request in flight other than the i-th is idle. *)
Fixpoint others_idle (i : nat) (pool : list Flight) : bool :=
  match pool with
  | [] => true
  | r :: rest =>
      match i with
      | O => forallb idle rest
      | S i' => idle r && others_idle i' rest
      end
  end.

Definition permitted (ev : Event CreateCheckInRequest) (pool : list Flight)
    : bool :=
  match ev with
  | Arrives _ => true
  | Resumes i => others_idle i pool
  end.

(** A run of the event loop in which no request is resumed while another
    one is between its reading of the clock and the return of its insert.
    Requests may arrive at any time, and may overlap in their look-ups of
    the pass and of the subscription. *)
Fixpoint one_at_a_time (e : Env) (events : list (Event CreateCheckInRequest))
    (pool : list Flight) (w : World) : bool :=
  match events with
  | [] => true
  | ev :: rest =>
      permitted ev pool
      && let (pool', w') := checkin_step e ev pool w in
         one_at_a_time e rest pool' w'
  end.













End CheckinProps.

(* ------------------------------------------------------------------ *)
(** ** Properties of signup *)

Module AuthProps.
Import AuthService.

Section SignupProps.

Variable bcrypt_gensalt : nat -> string.
Variable bcrypt_hashpw : string -> string -> string.
Variable jwt_encode : string -> string -> datetime -> datetime -> string.
Variable email_ok : string -> bool.
Variable normalized_email : string -> string.
Variable timestamp_millis : datetime -> Z.
Variable JWT_EXPIRATION_HOURS : Z.


Definition email_taken (w : World) (email_arg : string) : Prop :=
  exists u, In u w.(db).(users) /\ u.(email) = email_arg.

Definition username_taken (w : World) (username_arg : string) : Prop :=
  exists u, In u w.(db).(users) /\ u.(username) = username_arg.

Lemma find_email w email_arg :
  (exists u, find (fun u => String.eqb u.(email) email_arg) w.(db).(users) = Some u)
  <-> email_taken w email_arg.
Proof.
  split.
  - intros [u Hf]. apply find_some in Hf. destruct Hf as [Hin Hb].
    apply String.eqb_eq in Hb. exists u. auto.
  - intros (u & Hin & He).
    destruct (find _ (users (db w))) as [u'|] eqn:Hf; [eauto|].
    pose proof (find_none _ _ Hf u Hin) as Hn. cbn in Hn.
    rewrite He, String.eqb_refl in Hn. discriminate.
Qed.

Lemma find_username w username_arg :
  (exists u, find (fun u => String.eqb u.(username) username_arg) w.(db).(users) = Some u)
  <-> username_taken w username_arg.
Proof.
  split.
  - intros [u Hf]. apply find_some in Hf. destruct Hf as [Hin Hb].
    apply String.eqb_eq in Hb. exists u. auto.
  - intros (u & Hin & He).
    destruct (find _ (users (db w))) as [u'|] eqn:Hf; [eauto|].
    pose proof (find_none _ _ Hf u Hin) as Hn. cbn in Hn.
    rewrite He, String.eqb_refl in Hn. discriminate.
Qed.

(** The user signup inserts and the token it returns. *)
Definition new_user (e : Env) (w : World) (username_arg email_arg password_arg : string)
    (login_role : LoginRole) : User :=
  {| user_id := e.(new_oid) (4 + w.(tick))%nat;
     username := username_arg;
     email := normalized_email email_arg;
     password := bcrypt_hashpw password_arg (bcrypt_gensalt w.(tick));
     Login_Role := login_role;
     UserID := timestamp_millis (e.(clock) (1 + w.(tick))%nat);
     user_created_at := Some (e.(clock) (2 + w.(tick))%nat);
     user_updated_at := Some (e.(clock) (3 + w.(tick))%nat) |}.

Definition new_token (e : Env) (w : World) (login_role : LoginRole) : string :=
  jwt_encode (oid_str (e.(new_oid) (4 + w.(tick))%nat)) (LoginRole_value login_role)
    (e.(clock) (5 + w.(tick))%nat + JWT_EXPIRATION_HOURS * microseconds_per_hour)
    (e.(clock) (6 + w.(tick))%nat).

(** C3 as the claim states it, for one call. *)
Definition signup_claim (e : Env) (w : World)
    (username_arg email_arg password_arg : string) (login_role : LoginRole) : Prop :=
  let r := signup bcrypt_gensalt bcrypt_hashpw jwt_encode email_ok normalized_email timestamp_millis JWT_EXPIRATION_HOURS e username_arg email_arg password_arg login_role w in
  ((exists f v w', r = (Raise (DuplicateError f v), w'))
   <-> (email_taken w email_arg \/ username_taken w username_arg))
  /\ (email_taken w email_arg -> r = (Raise (DuplicateError "Email" email_arg), w))
  /\ (~ email_taken w email_arg -> username_taken w username_arg ->
      r = (Raise (DuplicateError "Username" username_arg), w))
  /\ (~ email_taken w email_arg -> ~ username_taken w username_arg ->
      exists w',
        r = (Ok (new_user e w username_arg email_arg password_arg login_role,
                 new_token e w login_role), w')
        /\ w'.(db).(users)
           = (w.(db).(users)
              ++ [new_user e w username_arg email_arg password_arg login_role])%list).

(** C3, amended. For a call with the four fields non-empty, a password of
    at most 128 characters, a username of 3 to 50 characters and a
    well-formed e-mail address, signup raises DuplicateError exactly when
    the e-mail or, failing that, the username is taken (e-mail first), and
    when neither is taken it inserts the user with the bcrypt hash of the
    password and returns the pair of the user and the JWT. *)
Theorem signup_rejects_duplicates e w username_arg email_arg password_arg login_role :
  (forall p s, String.length (bcrypt_hashpw p s) = 60%nat) ->
  all_fields username_arg email_arg password_arg login_role = true ->
  (String.length password_arg <= 128)%nat ->
  (3 <= String.length username_arg <= 50)%nat ->
  email_ok email_arg = true ->
  signup_claim e w username_arg email_arg password_arg login_role.
Proof.
  intros Hhash Hall Hlen Huser Hemail.
  assert (Hlong : (128 <? String.length password_arg)%nat = false)
    by (apply Nat.ltb_ge; lia).
  assert (Hok : user_fields_ok email_ok username_arg email_arg
                  (bcrypt_hashpw password_arg (bcrypt_gensalt w.(tick))) = true).
  { unfold user_fields_ok. rewrite Hhash, Hemail.
    destruct Huser as [H3 H50].
    apply Nat.leb_le in H3, H50. rewrite H3, H50. reflexivity. }
  assert (He : email_taken w email_arg \/ ~ email_taken w email_arg).
  { destruct (find (fun u => String.eqb u.(email) email_arg) w.(db).(users)) eqn:Hf.
    - left. apply find_email. eauto.
    - right. intros H. apply find_email in H. destruct H. congruence. }
  assert (Hu : username_taken w username_arg \/ ~ username_taken w username_arg).
  { destruct (find (fun u => String.eqb u.(username) username_arg) w.(db).(users)) eqn:Hf.
    - left. apply find_username. eauto.
    - right. intros H. apply find_username in H. destruct H. congruence. }
  assert (R1 : email_taken w email_arg ->
               signup bcrypt_gensalt bcrypt_hashpw jwt_encode email_ok normalized_email timestamp_millis JWT_EXPIRATION_HOURS
                 e username_arg email_arg password_arg login_role w
               = (Raise (DuplicateError "Email" email_arg), w)).
  { intros H. apply find_email in H. destruct H as [u Hf].
    unfold signup, check_fields, await_email_lookup, await_username_lookup,
      bind, get_db, raise, ret. rewrite Hall, Hlong. cbn [negb].
    now rewrite Hf. }
  assert (R2 : ~ email_taken w email_arg -> username_taken w username_arg ->
               signup bcrypt_gensalt bcrypt_hashpw jwt_encode email_ok normalized_email timestamp_millis JWT_EXPIRATION_HOURS
                 e username_arg email_arg password_arg login_role w
               = (Raise (DuplicateError "Username" username_arg), w)).
  { intros Hne H. apply find_username in H. destruct H as [u Hf].
    destruct (find (fun u => String.eqb u.(email) email_arg) w.(db).(users)) eqn:Hfe.
    { exfalso. apply Hne, find_email. eauto. }
    unfold signup, check_fields, await_email_lookup, await_username_lookup,
      bind, get_db, raise, ret. rewrite Hall, Hlong. cbn [negb].
    now rewrite Hfe, Hf. }
  assert (R3 : ~ email_taken w email_arg -> ~ username_taken w username_arg ->
               exists w',
                 signup bcrypt_gensalt bcrypt_hashpw jwt_encode email_ok normalized_email timestamp_millis JWT_EXPIRATION_HOURS
                 e username_arg email_arg password_arg login_role w
                 = (Ok (new_user e w username_arg email_arg password_arg login_role,
                        new_token e w login_role), w')
                 /\ w'.(db).(users)
                    = (w.(db).(users)
                       ++ [new_user e w username_arg email_arg password_arg
                             login_role])%list).
  { intros Hne Hnu.
    destruct (find (fun u => String.eqb u.(email) email_arg) w.(db).(users)) eqn:Hfe.
    { exfalso. apply Hne, find_email. eauto. }
    destruct (find (fun u => String.eqb u.(username) username_arg) w.(db).(users)) eqn:Hfu.
    { exfalso. apply Hnu, find_username. eauto. }
    eexists.
    unfold signup, check_fields, await_email_lookup, await_username_lookup,
      await_user_insert, create_token, hash_password, insert_user, bind, utcnow,
      fresh_oid, get_db, put_db, ret, raise.
    rewrite Hall, Hlong. cbn [negb]. rewrite Hfe, Hfu. cbn [db tick].
    rewrite Hok. cbn [negb db tick users]. split; reflexivity. }
  unfold signup_claim. cbv zeta. repeat split; trivial.
  - intros (f & v & w' & Hr).
    destruct He as [He|He]; [now left|].
    destruct Hu as [Hu|Hu]; [now right|].
    destruct (R3 He Hu) as (w2 & Hr2 & _). congruence.
  - intros [H|H].
    + rewrite (R1 H). eauto.
    + destruct He as [He|He]; [rewrite (R1 He); eauto|].
      rewrite (R2 He H). eauto.
Qed.

End SignupProps.

End AuthProps.

(* ------------------------------------------------------------------ *)
(** ** Properties of the ratings of a mess *)

Module MessProps.
Import MessModel.

(** *** Numeric texts *)

Fixpoint count_dots (s : string) : nat :=
  match s with
  | EmptyString => 0
  | String c r => if Ascii.eqb c "." then S (count_dots r) else count_dots r
  end.

Fixpoint count_digits (s : string) : nat :=
  match s with
  | EmptyString => 0
  | String c r => if is_digit c then S (count_digits r) else count_digits r
  end.

Definition digit_or_dot (c : ascii) : bool := is_digit c || Ascii.eqb c ".".

(** "Made of digits with at most one decimal point": only digits and
    points, at most one point, at least one digit. *)
Definition digits_with_at_most_one_point (s : string) : bool :=
  string_forallb digit_or_dot s
  && (count_dots s <=? 1)%nat
  && (1 <=? count_digits s)%nat.















Section RatingProps.

Variable float : Type.
Variable float_zero : float.
Variable float_of_int : Z -> float.
Variable float_of_str : string -> option float.
Variable float_add : float -> float -> float.
Variable int_truediv : Z -> Z -> float.
Variable float_div : float -> float -> float.







(** *** Ratings and RatedBy *)

(** The invariant C7 names: as many raters as ratings, and no rater twice
    when the entries of RatedBy are compared as strings. *)
Definition rating_inv (m : Mess float) : Prop :=
  List.length m.(Ratings) = List.length m.(RatedBy)
  /\ NoDup (map uid_str m.(RatedBy)).

Lemma existsb_eqb_in (x : string) (l : list string) :
  existsb (String.eqb x) l = true <-> In x l.
Proof.
  rewrite existsb_exists. split.
  - intros (y & Hin & He). apply String.eqb_eq in He. now subst.
  - intros H. exists x. split; [assumption|apply String.eqb_refl].
Qed.

Lemma NoDup_snoc (x : string) (l : list string) :
  NoDup l -> ~ In x l -> NoDup (l ++ [x]).
Proof.
  induction 1 as [|a l Ha Hl IH]; intros Hx; simpl.
  - constructor; [intros []|constructor].
  - constructor.
    + intros Hin. apply in_app_or in Hin. destruct Hin as [Hin|[<-|[]]].
      * contradiction.
      * apply Hx. now left.
    + apply IH. intros Hin. apply Hx. now right.
Qed.

(** With the canonical text of an ObjectId as user_id, add_rating keeps
    the invariant: it returns False and changes nothing when the text
    occurs in RatedBy, and otherwise appends one element to each list. *)
Lemma add_rating_canonical (m : Mess float) (user_id_arg : string) (rating : Z) :
  PydanticObjectId user_id_arg = Some user_id_arg ->
  rating_inv m ->
  rating_inv (snd (add_rating m user_id_arg rating))
  /\ (In user_id_arg (map uid_str m.(RatedBy)) ->
      add_rating m user_id_arg rating = (Ok false, m))
  /\ (~ In user_id_arg (map uid_str m.(RatedBy)) ->
      fst (add_rating m user_id_arg rating) = Ok true
      /\ (snd (add_rating m user_id_arg rating)).(Ratings)
         = (m.(Ratings) ++ [RInt rating])%list
      /\ (snd (add_rating m user_id_arg rating)).(RatedBy)
         = (m.(RatedBy) ++ [UOid user_id_arg])%list).
Proof.
  intros Hcanon [Hlen Hnd]. unfold add_rating.
  destruct (existsb (String.eqb user_id_arg) (map uid_str (RatedBy m))) eqn:Hex.
  - apply existsb_eqb_in in Hex. split; [split; assumption|].
    split; [reflexivity|]. intros Hn. contradiction.
  - assert (Hnot : ~ In user_id_arg (map uid_str (RatedBy m))).
    { intros Hin. apply existsb_eqb_in in Hin. congruence. }
    rewrite Hcanon. destruct m as [i n nm mo ca ad ow de rs by_ us im cr up].
    unfold set_ratings, rating_inv in *.
    cbv beta iota delta [snd fst Ratings RatedBy] in *.
    split; [split|split].
    + rewrite !List.length_app. cbn [List.length]. lia.
    + rewrite map_app. cbn [map uid_str oid_str]. now apply NoDup_snoc.
    + intros Hin. contradiction.
    + intros _. repeat split.
Qed.

Definition mess_hex : string := "64b7f0c2a1d3e4f567890abc".
Definition rater_hex : string := "507f1f77bcf86cd799439011".
Definition rater_hex_upper : string := "507F1F77BCF86CD799439011".

(** A mess that the user [rater_hex] has rated 5. *)
Definition rated_mess : Mess float :=
  {| mess_id := mess_hex; Mess_ID := 1699123456; Mess_Name := "Golden Mess";
     Mobile_No := None; Capacity := Some 100; Address := None;
     Owner_ID := "507f1f77bcf86cd799439012"; Description := Some "";
     Ratings := [RInt 5]; RatedBy := [UOid rater_hex];
     mess_UserID := 1699123456; Image := None;
     mess_created_at := None; mess_updated_at := None |}.

(** C7, at the failing inputs. The text [rater_hex_upper] denotes the
    ObjectId of the user who has already rated [rated_mess], yet
    update_rating accepts the rating and stores that ObjectId in RatedBy a
    second time; and add_rating with a text that is no ObjectId appends the
    rating, then raises, leaving Ratings one longer than RatedBy. *)
Theorem same_user_rates_twice :
  PydanticObjectId rater_hex_upper = Some rater_hex
  /\ has_user_rated rated_mess rater_hex = true
  /\ (exists resp m1,
        update_rating float float_zero float_of_int float_of_str float_add
          int_truediv float_div [rated_mess] mess_hex rater_hex_upper 3
        = (Ok resp, [m1])
        /\ m1.(Ratings) = [RInt 5; RInt 3]
        /\ map uid_str m1.(RatedBy) = [rater_hex; rater_hex]
        /\ ~ rating_inv m1)
  /\ (exists m2,
        add_rating rated_mess "guest" 4 = (Raise InvalidId, m2)
        /\ List.length m2.(Ratings) = 2%nat
        /\ List.length m2.(RatedBy) = 1%nat
        /\ ~ rating_inv m2).
Proof.
  split; [reflexivity|]. split; [reflexivity|]. split.
  - eexists; eexists. split; [reflexivity|].
    cbn [Ratings RatedBy set_ratings rated_mess app map uid_str oid_str].
    repeat split.
    intros [_ Hnd]. cbn in Hnd. inversion Hnd as [|x l Hx Hl]; subst.
    apply Hx. now left.
  - eexists. split; [reflexivity|].
    cbn [Ratings RatedBy set_ratings rated_mess app List.length].
    repeat split. intros [Hlen _]. cbn in Hlen. discriminate.
Qed.

End RatingProps.

(** *** The average in exact arithmetic

    Rationals stand for floats, so that sum and quotient are the
    mathematical ones: float(n) is n, + and / are those of Q. *)

Definition exact_average (float_of_str : string -> option Q) (m : Mess Q) : Q :=
  calculate_average_rating Q 0%Q inject_Z float_of_str Qplus
    (fun a b => Qdiv (inject_Z a) (inject_Z b)) Qdiv m.


(** The arithmetic mean of a list of rationals: their sum over their
    count; 0 for the empty list. *)
Fixpoint total (l : list Q) : Q :=
  match l with
  | [] => 0%Q
  | q :: rest => (q + total rest)%Q
  end.








End MessProps.

(* ------------------------------------------------------------------ *)
(** ** Properties of create_plan and delete_plan *)

Module PlanRouterProps.
Import SubscriptionRouter PlanRouter PlanProps.

#[local] Arguments User_get : simpl never.
#[local] Arguments SubscriptionPlan_get : simpl never.
#[local] Arguments UserSubscription_get : simpl never.

(** The plan create_plan stores for an owner whose id parses to [uid]. *)
Definition created_plan (e : Env) (w : World) (payload : CreatePlanRequest)
    (uid : ObjectId) : SubscriptionPlan :=
  {| plan_id := e.(new_oid) (2 + w.(tick))%nat;
     plan_messId := uid;
     planName := payload.(cr_planName);
     duration := payload.(cr_duration);
     plan_mealType := payload.(cr_mealType);
     price := payload.(cr_price);
     description := payload.(cr_description);
     plan_isActive := true;
     plan_created_at := Some (e.(clock) w.(tick));
     plan_updated_at := Some (e.(clock) (1 + w.(tick))%nat) |}.

Definition with_new_plan (d : Db) (plan : SubscriptionPlan) : Db :=
  {| users := d.(users); plans := d.(plans) ++ [plan];
     subscriptions := d.(subscriptions);
     mealpasses := d.(mealpasses); checkins := d.(checkins) |}.

(** Every outcome of create_plan. *)
Lemma create_plan_run e payload w :
  create_plan e payload w =
    match PydanticObjectId payload.(cr_userId) with
    | None => (Raise (HTTPException 500 "Internal server error"), w)
    | Some uid =>
      if not_mess_owner (User_get w.(db) uid)
      then (Raise (HTTPException 403 "Only mess owners can create subscription plans"), w)
      else if plan_fields_ok payload
      then (Ok (created_plan e w payload uid),
            {| db := with_new_plan w.(db) (created_plan e w payload uid);
               tick := (3 + w.(tick))%nat |})
      else (Raise (HTTPException 500 "Internal server error"),
            {| db := w.(db); tick := (2 + w.(tick))%nat |})
    end.
Proof.
  unfold create_plan, router_guard, try_except, parse_oid, insert_plan,
    bind, utcnow, fresh_oid, get_db, put_db, ret, raise.
  destruct (PydanticObjectId (cr_userId payload)) as [uid|]; [|reflexivity].
  cbn [db tick].
  destruct (not_mess_owner (User_get (db w) uid)); [reflexivity|].
  cbn [db tick].
  destruct (plan_fields_ok payload); reflexivity.
Qed.

(** X1. create_plan stores a plan only for an existing mess owner: a call
    that returns has appended exactly one plan, active, whose messId is the
    ObjectId of that owner; a call that raises has raised an HTTPException
    and left the database as it was. *)
Theorem create_plan_only_for_owners e payload w :
  (forall plan w', create_plan e payload w = (Ok plan, w') ->
     exists uid u,
       PydanticObjectId payload.(cr_userId) = Some uid
       /\ User_get w.(db) uid = Some u
       /\ is_mess_owner u = true
       /\ plan.(plan_messId) = uid
       /\ plan.(plan_isActive) = true
       /\ w'.(db) = with_new_plan w.(db) plan)
  /\ (forall x w', create_plan e payload w = (Raise x, w') ->
        w'.(db) = w.(db) /\ exists c d, x = HTTPException c d).
Proof.
  rewrite create_plan_run.
  destruct (PydanticObjectId (cr_userId payload)) as [uid|].
  2:{ split; [discriminate|]. intros x w' H. inversion H; subst. eauto. }
  unfold not_mess_owner.
  destruct (User_get (db w) uid) as [u|] eqn:Hu.
  2:{ split; [discriminate|]. intros x w' H. inversion H; subst. eauto. }
  destruct (is_mess_owner u) eqn:Ho; cbn [negb].
  2:{ split; [discriminate|]. intros x w' H. inversion H; subst. eauto. }
  destruct (plan_fields_ok payload).
  - split; [|discriminate]. intros plan w' H. inversion H; subst.
    exists uid, u. repeat split; trivial.
  - split; [discriminate|]. intros x w' H. inversion H; subst. eauto.
Qed.

Lemma find_app_none {A} (f : A -> bool) (l : list A) (x : A) :
  find f l = None -> f x = true -> find f (l ++ [x]) = Some x.
Proof.
  induction l as [|a l IH]; simpl; intros Hn Hx.
  - now rewrite Hx.
  - destruct (f a); [discriminate|]. now apply IH.
Qed.

(** An ObjectId text in canonical form: what [str] prints for it. *)
Definition canonical (s : string) : Prop := PydanticObjectId s = Some s.

(** What the two composition theorems assume of a create_plan call: the
    requester is an existing mess owner, the fields pass validation, and the
    id the driver generates is a canonical ObjectId no stored plan has. *)
Definition creates_plan (e : Env) (w : World) (payload : CreatePlanRequest)
    (uid : ObjectId) (u : User) : Prop :=
  PydanticObjectId payload.(cr_userId) = Some uid
  /\ User_get w.(db) uid = Some u
  /\ is_mess_owner u = true
  /\ plan_fields_ok payload = true
  /\ canonical (e.(new_oid) (2 + w.(tick))%nat)
  /\ SubscriptionPlan_get w.(db) (e.(new_oid) (2 + w.(tick))%nat) = None.

Lemma create_plan_ok e w payload uid u :
  creates_plan e w payload uid u ->
  create_plan e payload w
  = (Ok (created_plan e w payload uid),
     {| db := with_new_plan w.(db) (created_plan e w payload uid);
        tick := (3 + w.(tick))%nat |}).
Proof.
  intros (Hp & Hu & Ho & Hf & _ & _).
  rewrite create_plan_run, Hp. unfold not_mess_owner. rewrite Hu, Ho, Hf.
  reflexivity.
Qed.

Lemma created_plan_is_stored e w payload uid u :
  creates_plan e w payload uid u ->
  existing_plan {| db := with_new_plan w.(db) (created_plan e w payload uid);
                   tick := (3 + w.(tick))%nat |}
    (oid_str (created_plan e w payload uid).(plan_id))
    (created_plan e w payload uid).
Proof.
  intros (_ & _ & _ & _ & Hc & Hfresh).
  exists (e.(new_oid) (2 + w.(tick))%nat). split; [exact Hc|].
  unfold SubscriptionPlan_get in *. cbn [db plans with_new_plan].
  apply find_app_none; [exact Hfresh|]. cbn [plan_id created_plan].
  apply String.eqb_refl.
Qed.

(** X2. A plan can be updated by the owner who created it, when the owner
    gives the id in canonical form both times: create_plan followed by
    update_plan with the same userId stores the updated plan. *)
Theorem owner_updates_created_plan e w payload u upd :
  creates_plan e w payload payload.(cr_userId) u ->
  upd.(upd_userId) = payload.(cr_userId) ->
  exists plan w1,
    create_plan e payload w = (Ok plan, w1)
    /\ plan_modified e w1 upd plan (update_plan e (oid_str plan.(plan_id)) upd w1).
Proof.
  intros Hc Hsame.
  exists (created_plan e w payload payload.(cr_userId)). eexists.
  split; [exact (create_plan_ok e w payload _ u Hc)|].
  apply update_plan_owner.
  - exact (created_plan_is_stored e w payload _ u Hc).
  - destruct Hc as (Hp & Hu & Ho & _).
    exists payload.(cr_userId), u. rewrite Hsame.
    repeat split; trivial.
Qed.

(** X3. The same owner is refused when the id is spelled differently from
    its canonical form (upper-case digits): create_plan accepts the id and
    stores the plan under the canonical ObjectId, and update_plan with the
    very same text answers HTTP 403 and changes nothing. *)
Theorem owner_locked_out_by_spelling e w payload uid u upd :
  creates_plan e w payload uid u ->
  uid <> payload.(cr_userId) ->
  upd.(upd_userId) = payload.(cr_userId) ->
  exists plan w1,
    create_plan e payload w = (Ok plan, w1)
    /\ update_plan e (oid_str plan.(plan_id)) upd w1 = (Raise not_your_plan, w1).
Proof.
  intros Hc Hne Hsame.
  exists (created_plan e w payload uid). eexists.
  split; [exact (create_plan_ok e w payload uid u Hc)|].
  destruct Hc as (Hp & Hu & Ho & Hf & Hcan & Hfresh).
  apply update_plan_stranger with (plan := created_plan e w payload uid) (uid := uid).
  - exact (created_plan_is_stored e w payload uid u
             (conj Hp (conj Hu (conj Ho (conj Hf (conj Hcan Hfresh)))))).
  - now rewrite Hsame.
  - intros (uid' & u' & _ & _ & _ & Hs). rewrite Hsame in Hs.
    cbn [created_plan plan_messId oid_str] in Hs. contradiction.
Qed.

(** *** delete_plan *)

Lemma map_other_keys {A} (key : A -> ObjectId) (k : ObjectId) (x : A) (l : list A) :
  ~ In k (map key l) ->
  map (fun y => if oid_eqb (key y) k then x else y) l = l.
Proof.
  induction l as [|b l IH]; intros Hnotin; [reflexivity|].
  cbn [map] in *. destruct (oid_eqb (key b) k) eqn:Hb.
  - apply String.eqb_eq in Hb. exfalso. apply Hnotin. now left.
  - f_equal. apply IH. intros Hin. apply Hnotin. now right.
Qed.

Lemma replace_by_unique {A} (key : A -> ObjectId) (k : ObjectId) (x : A) (l : list A) :
  NoDup (map key l) ->
  replace_by (fun y => oid_eqb (key y) k) x l
  = map (fun y => if oid_eqb (key y) k then x else y) l.
Proof.
  induction l as [|a l IH]; intros Hnd; [reflexivity|].
  cbn [map replace_by] in *. apply NoDup_cons_iff in Hnd. destruct Hnd as [Hnotin Hnd].
  destruct (oid_eqb (key a) k) eqn:Ha.
  - f_equal. apply String.eqb_eq in Ha. rewrite Ha in Hnotin.
    symmetry. now apply map_other_keys.
  - f_equal. now apply IH.
Qed.

(** The stored subscriptions after the loop of delete_plan has run over
    [subs], from the clock reading number [t]. *)
Fixpoint mark_list (e : Env) (t : nat) (subs stored : list UserSubscription)
    : list UserSubscription :=
  match subs with
  | [] => stored
  | s :: r =>
      mark_list e (S t) r
        (replace_by (fun x => oid_eqb x.(sub_id) s.(sub_id))
           (plan_removed s (e.(clock) t)) stored)
  end.

Definition with_subscriptions (d : Db) (l : list UserSubscription) : Db :=
  {| users := d.(users); plans := d.(plans); subscriptions := l;
     mealpasses := d.(mealpasses); checkins := d.(checkins) |}.

Lemma with_subscriptions_same d : with_subscriptions d d.(subscriptions) = d.
Proof. now destruct d. Qed.

Lemma mark_plan_removed_run e subs w :
  mark_plan_removed e subs w
  = (Ok tt, {| db := with_subscriptions w.(db)
                       (mark_list e w.(tick) subs w.(db).(subscriptions));
               tick := (List.length subs + w.(tick))%nat |}).
Proof.
  revert w. induction subs as [|s r IH]; intros [d t].
  - cbn [mark_plan_removed mark_list ret List.length plus db tick].
    now rewrite with_subscriptions_same.
  - cbn [mark_plan_removed mark_list].
    unfold bind at 1. unfold utcnow. cbn [db tick].
    unfold bind at 1. unfold save_subscription, bind, get_db, put_db.
    cbn [db tick]. rewrite IH. cbn [db tick subscriptions List.length].
    unfold with_subscriptions.
    cbn [users plans mealpasses checkins subscriptions plan_removed sub_id].
    f_equal. f_equal. lia.
Qed.

Definition plans_without (d : Db) (plan : SubscriptionPlan) : list SubscriptionPlan :=
  remove_by (fun p => oid_eqb p.(plan_id) plan.(plan_id)) d.(plans).

(** The world a successful delete_plan leaves. *)
Definition after_delete (e : Env) (w : World) (plan : SubscriptionPlan) : World :=
  let subs := filter (fun s => oid_eqb s.(sub_planId) plan.(plan_id))
                w.(db).(subscriptions) in
  {| db := {| users := w.(db).(users);
              plans := plans_without w.(db) plan;
              subscriptions := mark_list e w.(tick) subs w.(db).(subscriptions);
              mealpasses := w.(db).(mealpasses);
              checkins := w.(db).(checkins) |};
     tick := (List.length subs + w.(tick))%nat |}.

Lemma delete_plan_run e w plan_id_arg mess_id_arg plan :
  existing_plan w plan_id_arg plan ->
  delete_plan e plan_id_arg mess_id_arg w =
    if String.eqb (oid_str plan.(plan_messId)) mess_id_arg
    then (Ok plan_deleted_message, after_delete e w plan)
    else (Raise (HTTPException 403 "You can only delete your own plans"), w).
Proof.
  intros (pid & Hp & Hplan).
  unfold delete_plan, router_guard, try_except, parse_oid.
  rewrite Hp. unfold bind at 1. unfold ret at 1. unfold bind at 1.
  unfold get_db at 1. rewrite Hplan.
  destruct (String.eqb (oid_str (plan_messId plan)) mess_id_arg); cbn [negb];
    [|reflexivity].
  unfold bind at 1. rewrite mark_plan_removed_run.
  unfold bind, delete_stored_plan, bind, get_db, put_db, ret.
  cbn [db tick with_subscriptions users plans subscriptions mealpasses checkins].
  reflexivity.
Qed.

(** How delete_plan leaves one stored subscription: marked when it is of
    the deleted plan, with endDate a clock reading of the call, and as it
    was otherwise. *)
Definition removed_or_kept (e : Env) (w w' : World) (plan : SubscriptionPlan)
    (s s' : UserSubscription) : Prop :=
  (s.(sub_planId) = plan.(plan_id) ->
     exists n, (w.(tick) <= n < w'.(tick))%nat
               /\ s' = plan_removed s (e.(clock) n))
  /\ (s.(sub_planId) <> plan.(plan_id) -> s' = s).

(** The replacement the loop makes for the document with id [i]. *)
Fixpoint removal_of (e : Env) (t : nat) (subs : list UserSubscription)
    (i : ObjectId) : option UserSubscription :=
  match subs with
  | [] => None
  | s :: r => if oid_eqb s.(sub_id) i then Some (plan_removed s (e.(clock) t))
              else removal_of e (S t) r i
  end.

Lemma removal_of_none e t subs i :
  ~ In i (map sub_id subs) -> removal_of e t subs i = None.
Proof.
  revert t. induction subs as [|s r IH]; intros t Hn; [reflexivity|].
  cbn [removal_of]. destruct (oid_eqb (sub_id s) i) eqn:Hs.
  - apply String.eqb_eq in Hs. exfalso. apply Hn. now left.
  - apply IH. intros Hin. apply Hn. now right.
Qed.

Lemma mark_list_map e subs : forall t stored,
  NoDup (map sub_id stored) -> NoDup (map sub_id subs) ->
  mark_list e t subs stored
  = map (fun y => match removal_of e t subs y.(sub_id) with
                  | Some s' => s'
                  | None => y
                  end) stored.
Proof.
  induction subs as [|s r IH]; intros t stored Hst Hsubs.
  - cbn [mark_list removal_of]. now rewrite map_id.
  - cbn [mark_list removal_of]. inversion Hsubs as [|? ? Hnotin Hr]; subst.
    rewrite (replace_by_unique sub_id (sub_id s) _ stored Hst).
    rewrite IH; [|rewrite map_map|assumption].
    + rewrite map_map. apply map_ext. intros y.
      unfold oid_eqb. rewrite (String.eqb_sym (sub_id s) (sub_id y)).
      destruct (String.eqb (sub_id y) (sub_id s)) eqn:Hy.
      * cbn [plan_removed sub_id].
        rewrite removal_of_none; [reflexivity|exact Hnotin].
      * reflexivity.
    + assert (Heq : map (fun x => sub_id (if oid_eqb (sub_id x) (sub_id s)
                                          then plan_removed s (clock e t) else x))
                      stored = map sub_id stored).
      { apply map_ext_in. intros y _.
        destruct (oid_eqb (sub_id y) (sub_id s)) eqn:Hy; [|reflexivity].
        apply String.eqb_eq in Hy. cbn [plan_removed sub_id]. now symmetry. }
      now rewrite Heq.
Qed.

Lemma removal_of_some e subs : forall t i s',
  removal_of e t subs i = Some s' ->
  exists s n, In s subs /\ s.(sub_id) = i
              /\ (t <= n < List.length subs + t)%nat
              /\ s' = plan_removed s (e.(clock) n).
Proof.
  induction subs as [|s r IH]; intros t i s' H; [discriminate|].
  cbn [removal_of] in H. destruct (oid_eqb (sub_id s) i) eqn:Hs.
  - inversion H; subst. apply String.eqb_eq in Hs.
    exists s, t. cbn [List.length]. repeat split; trivial; try lia. now left.
  - destruct (IH _ _ _ H) as (s0 & n & Hin & Hid & Hn & He).
    exists s0, n. cbn [List.length]. repeat split; trivial; try lia. now right.
Qed.

Lemma removal_of_in e subs : forall t i,
  In i (map sub_id subs) -> removal_of e t subs i <> None.
Proof.
  induction subs as [|s r IH]; intros t i Hin; [destruct Hin|].
  cbn [removal_of]. destruct (oid_eqb (sub_id s) i) eqn:Hs; [discriminate|].
  apply IH. destruct Hin as [Hin|Hin]; [|assumption].
  apply String.eqb_neq in Hs. contradiction.
Qed.

Lemma same_id_same_doc (l : list UserSubscription) a b :
  NoDup (map sub_id l) -> In a l -> In b l -> a.(sub_id) = b.(sub_id) -> a = b.
Proof.
  induction l as [|x l IH]; intros Hnd Ha Hb Hid; [destruct Ha|].
  simpl in Hnd. inversion Hnd as [|? ? Hx Hl]; subst.
  destruct Ha as [<-|Ha], Hb as [<-|Hb]; trivial.
  - exfalso. apply Hx. rewrite Hid. now apply in_map.
  - exfalso. apply Hx. rewrite <- Hid. now apply in_map.
  - now apply IH.
Qed.

Lemma subscriptions_of_plan_unique (pid : ObjectId) (stored : list UserSubscription) :
  NoDup (map sub_id stored) ->
  NoDup (map sub_id (filter (fun s => oid_eqb s.(sub_planId) pid) stored)).
Proof.
  intros Hnd. induction stored as [|s stored IH]; [constructor|].
  cbn [map] in Hnd. apply NoDup_cons_iff in Hnd. destruct Hnd as [Hs Hrest].
  cbn [filter]. destruct (oid_eqb (sub_planId s) pid); [|now apply IH].
  cbn [map]. constructor; [|now apply IH].
  intros Hin. apply Hs. apply in_map_iff in Hin.
  destruct Hin as (x & Hx & Hin). apply filter_In in Hin.
  apply in_map_iff. exists x. tauto.
Qed.


(** The stored form of [y] after delete_plan. *)
Definition marked (e : Env) (w : World) (plan : SubscriptionPlan)
    (y : UserSubscription) : UserSubscription :=
  match removal_of e w.(tick)
          (filter (fun s => oid_eqb s.(sub_planId) plan.(plan_id))
             w.(db).(subscriptions))
          y.(sub_id) with
  | Some s' => s'
  | None => y
  end.

Lemma after_delete_marked e w plan :
  NoDup (map sub_id w.(db).(subscriptions)) ->
  (after_delete e w plan).(db).(subscriptions)
  = map (marked e w plan) w.(db).(subscriptions).
Proof.
  intros Hnd. unfold after_delete. cbn [db subscriptions].
  apply mark_list_map; [assumption|]. now apply subscriptions_of_plan_unique.
Qed.

Lemma marked_spec e w plan y :
  NoDup (map sub_id w.(db).(subscriptions)) ->
  In y w.(db).(subscriptions) ->
  removed_or_kept e w (after_delete e w plan) plan y (marked e w plan y).
Proof.
  intros Hnd Hy. unfold removed_or_kept, marked, after_delete. cbn [tick].
  set (subs := filter (fun s => oid_eqb (sub_planId s) (plan_id plan))
                 (subscriptions (db w))).
  split.
  - intros Hplan.
    assert (Hin : In y subs).
    { apply filter_In. split; [assumption|]. now apply String.eqb_eq. }
    destruct (removal_of e (tick w) subs (sub_id y)) as [s'|] eqn:Hr.
    + destruct (removal_of_some e subs _ _ _ Hr) as (s & n & Hs & Hid & Hn & He).
      assert (s = y).
      { apply (same_id_same_doc (subscriptions (db w))); trivial.
        apply filter_In in Hs. tauto. }
      subst s. exists n. split; [lia|assumption].
    + exfalso. apply (removal_of_in e subs (tick w) (sub_id y)); [|assumption].
      now apply in_map.
  - intros Hplan. rewrite removal_of_none; [reflexivity|].
    intros Hin. apply in_map_iff in Hin. destruct Hin as (s & Hid & Hs).
    apply filter_In in Hs. destruct Hs as [Hs Hp].
    assert (s = y) by (apply (same_id_same_doc (subscriptions (db w))); trivial).
    subst s. apply String.eqb_eq in Hp. contradiction.
Qed.

Lemma marked_id e w plan y : (marked e w plan y).(sub_id) = y.(sub_id).
Proof.
  unfold marked.
  destruct (removal_of _ _ _ _) as [s'|] eqn:Hr; [|reflexivity].
  destruct (removal_of_some e _ _ _ _ Hr) as (s & n & _ & Hid & _ & He).
  subst s'. exact Hid.
Qed.


Lemma find_remove_by_none (k : ObjectId) (l : list SubscriptionPlan) :
  NoDup (map plan_id l) ->
  find (fun p => oid_eqb p.(plan_id) k)
       (remove_by (fun p => oid_eqb p.(plan_id) k) l) = None.
Proof.
  induction l as [|a l IH]; intros Hnd; [reflexivity|].
  cbn [map remove_by] in *. apply NoDup_cons_iff in Hnd. destruct Hnd as [Ha Hnd].
  destruct (oid_eqb (plan_id a) k) eqn:Hk.
  - apply String.eqb_eq in Hk. rewrite Hk in Ha.
    destruct (find (fun p => oid_eqb (plan_id p) k) l) as [p|] eqn:Hf; [|reflexivity].
    apply find_some in Hf. destruct Hf as [Hin Hp]. apply String.eqb_eq in Hp.
    exfalso. apply Ha. rewrite <- Hp. now apply in_map.
  - cbn [find]. rewrite Hk. now apply IH.
Qed.

Lemma deleted_plan_is_gone e w plan :
  NoDup (map plan_id w.(db).(plans)) ->
  SubscriptionPlan_get (after_delete e w plan).(db) plan.(plan_id) = None.
Proof.
  intros Hnd. unfold SubscriptionPlan_get, after_delete, plans_without.
  cbn [db plans]. now apply find_remove_by_none.
Qed.

(** X5. Nobody can subscribe to a deleted plan: after a successful
    delete_plan, subscribe_to_plan by an existing regular user for that
    plan answers HTTP 404 and stores nothing. *)
Theorem no_subscription_to_deleted_plan
    (sha256_hexdigest : string -> string) e e' w plan_id_arg mess_id_arg plan
    payload uid user :
  existing_plan w plan_id_arg plan ->
  oid_str plan.(plan_messId) = mess_id_arg ->
  NoDup (map plan_id w.(db).(plans)) ->
  PydanticObjectId payload.(req_userId) = Some uid ->
  User_get w.(db) uid = Some user ->
  is_regular_user user = true ->
  PydanticObjectId payload.(req_planId) = Some plan.(plan_id) ->
  exists w',
    delete_plan e plan_id_arg mess_id_arg w = (Ok plan_deleted_message, w')
    /\ subscribe_to_plan sha256_hexdigest e' payload w'
       = (Raise (HTTPException 404 "Plan not found or inactive"), w').
Proof.
  intros Hex Hmess Hnd Hu Huser Hreg Hp.
  exists (after_delete e w plan). split.
  - rewrite (delete_plan_run e w plan_id_arg mess_id_arg plan Hex).
    apply String.eqb_eq in Hmess. now rewrite Hmess.
  - pose proof (deleted_plan_is_gone e w plan Hnd) as Hgone.
    assert (Huser' : User_get (after_delete e w plan).(db) uid = Some user)
      by exact Huser.
    unfold subscribe_to_plan, router_guard, try_except, parse_oid,
      bind, get_db, ret, raise.
    rewrite Hu, Hp, Huser', Hreg. cbn [negb]. rewrite Hgone. reflexivity.
Qed.

Lemma find_map_same_key (g : UserSubscription -> UserSubscription) (k : ObjectId)
    (l : list UserSubscription) :
  (forall y, (g y).(sub_id) = y.(sub_id)) ->
  find (fun s => oid_eqb s.(sub_id) k) (map g l)
  = option_map g (find (fun s => oid_eqb s.(sub_id) k) l).
Proof.
  intros Hg. induction l as [|a l IH]; [reflexivity|].
  cbn [map find]. rewrite Hg.
  destruct (oid_eqb (sub_id a) k); [reflexivity|exact IH].
Qed.

(** X6. A subscription of a deleted plan stays 'Plan Removed': after a
    successful delete_plan the subscription is stored with that status,
    and every later activate_subscription on it, whatever status it asks
    for, answers HTTP 404 and changes nothing. *)
Theorem removed_subscription_stays_removed
    e w plan_id_arg mess_id_arg plan subscription_id sid subscription :
  existing_plan w plan_id_arg plan ->
  oid_str plan.(plan_messId) = mess_id_arg ->
  NoDup (map plan_id w.(db).(plans)) ->
  NoDup (map sub_id w.(db).(subscriptions)) ->
  PydanticObjectId subscription_id = Some sid ->
  UserSubscription_get w.(db) sid = Some subscription ->
  subscription.(sub_planId) = plan.(plan_id) ->
  exists w' s',
    delete_plan e plan_id_arg mess_id_arg w = (Ok plan_deleted_message, w')
    /\ UserSubscription_get w'.(db) sid = Some s'
    /\ s'.(status) = PlanRemoved
    /\ forall e' payload,
         activate_subscription e' subscription_id payload w'
         = (Raise (HTTPException 404 "Plan not found"), w').
Proof.
  intros Hex Hmess Hndp Hnds Hs Hget Hplan.
  exists (after_delete e w plan), (marked e w plan subscription).
  assert (Hin : In subscription w.(db).(subscriptions)).
  { unfold UserSubscription_get in Hget. now apply find_some in Hget. }
  destruct (marked_spec e w plan subscription Hnds Hin) as [Hrem _].
  destruct (Hrem Hplan) as (n & _ & Hmarked).
  assert (Hget' : UserSubscription_get (after_delete e w plan).(db) sid
                  = Some (marked e w plan subscription)).
  { unfold UserSubscription_get in *.
    rewrite (after_delete_marked e w plan Hnds).
    rewrite find_map_same_key by (intros; apply marked_id).
    now rewrite Hget. }
  split; [|split; [exact Hget'|split]].
  - rewrite (delete_plan_run e w plan_id_arg mess_id_arg plan Hex).
    apply String.eqb_eq in Hmess. now rewrite Hmess.
  - now rewrite Hmarked.
  - intros e' payload.
    pose proof (deleted_plan_is_gone e w plan Hndp) as Hgone.
    assert (Hpl : (marked e w plan subscription).(sub_planId) = plan.(plan_id))
      by (rewrite Hmarked; exact Hplan).
    unfold activate_subscription, router_guard, try_except, parse_oid,
      bind, get_db, ret, raise.
    rewrite Hs, Hget', Hpl, Hgone. reflexivity.
Qed.

End PlanRouterProps.

(* ------------------------------------------------------------------ *)
(** ** A subscription from subscribe_to_plan to the scan of its pass *)

Module FlowProps.
Import SubscriptionRouter MealpassRouter CheckinRouter.
Import SubscribeProps PlanProps MealpassProps CheckinProps.

#[local] Arguments User_get : simpl never.
#[local] Arguments SubscriptionPlan_get : simpl never.
#[local] Arguments UserSubscription_get : simpl never.
#[local] Arguments MealPass_get : simpl never.

Section WithDigest.

Variable sha256_hexdigest : string -> string.

(** The world subscribe_to_plan leaves when the pass is stored. *)
Definition after_subscribe (e : Env) (w : World) (user : User)
    (plan : SubscriptionPlan) : World :=
  {| db := with_mealpass
             (with_subscription w.(db) (new_subscription e w user plan))
             (new_mealpass sha256_hexdigest e w user plan);
     tick := (8 + w.(tick))%nat |}.

(** A call of subscribe_to_plan that passes every guard and stores a pass,
    where the ids the driver generates are new and the QR text is the QR
    text of no stored pass. *)
Definition subscribes (e : Env) (w : World) (payload : SubscribeToPlanRequest)
    (user : User) (plan : SubscriptionPlan) : Prop :=
  may_subscribe w payload user plan
  /\ ~ prior_subscription w user plan
  /\ pass_block_completes sha256_hexdigest e w user plan = true
  /\ UserSubscription_get w.(db) (new_subscription e w user plan).(sub_id) = None
  /\ MealPass_get w.(db) (new_mealpass sha256_hexdigest e w user plan).(pass_id) = None
  /\ pass_with_qr w.(db) (new_mealpass sha256_hexdigest e w user plan).(qrCode) = None.

Lemma subscribe_ok e w payload user plan :
  subscribes e w payload user plan ->
  subscribe_to_plan sha256_hexdigest e payload w
  = (Ok (new_subscription e w user plan), after_subscribe e w user plan).
Proof.
  intros (Hmay & Hno & Hpass & _).
  rewrite (subscribe_to_plan_run sha256_hexdigest e w payload user plan Hmay Hno).
  now rewrite Hpass.
Qed.

Lemma new_subscription_stored e w payload user plan :
  subscribes e w payload user plan ->
  UserSubscription_get (after_subscribe e w user plan).(db)
    (new_subscription e w user plan).(sub_id)
  = Some (new_subscription e w user plan).
Proof.
  intros (_ & _ & _ & Hs & _ & _).
  unfold UserSubscription_get in *.
  cbn [after_subscribe db with_mealpass with_subscription subscriptions].
  apply PlanRouterProps.find_app_none; [exact Hs|apply String.eqb_refl].
Qed.

Lemma new_pass_stored e w payload user plan :
  subscribes e w payload user plan ->
  MealPass_get (after_subscribe e w user plan).(db)
    (new_mealpass sha256_hexdigest e w user plan).(pass_id)
  = Some (new_mealpass sha256_hexdigest e w user plan).
Proof.
  intros (_ & _ & _ & _ & Hp & _).
  unfold MealPass_get in *.
  cbn [after_subscribe db with_mealpass with_subscription mealpasses].
  apply PlanRouterProps.find_app_none; [exact Hp|apply String.eqb_refl].
Qed.

Lemma new_pass_scanned e w payload user plan :
  subscribes e w payload user plan ->
  pass_with_qr (after_subscribe e w user plan).(db)
    (new_mealpass sha256_hexdigest e w user plan).(qrCode)
  = Some (new_mealpass sha256_hexdigest e w user plan).
Proof.
  intros (_ & _ & _ & _ & _ & Hq).
  unfold pass_with_qr in *.
  cbn [after_subscribe db with_mealpass with_subscription mealpasses].
  apply PlanRouterProps.find_app_none; [exact Hq|apply String.eqb_refl].
Qed.

(** The scan of the QR code of the pass of a new subscription. *)
Definition scan_of (e : Env) (w : World) (user : User) (plan : SubscriptionPlan)
    : ValidateMealPassRequest :=
  {| req_qrCode := (new_mealpass sha256_hexdigest e w user plan).(qrCode) |}.

(** X7. The pass of a new subscription cannot be used before the
    subscription is activated: right after subscribe_to_plan every scan of
    its QR code is answered with HTTP 403, every check-in with it with the
    403 response that names the status 'Pending', and neither stores
    anything. *)
Theorem pending_pass_is_refused e w payload user plan :
  subscribes e w payload user plan ->
  exists sub w1,
    subscribe_to_plan sha256_hexdigest e payload w = (Ok sub, w1)
    /\ sub.(status) = Pending
    /\ (forall e' user_id_arg, exists detail w2,
          validate_meal_pass e' user_id_arg (scan_of e w user plan) w1
          = (Raise (HTTPException 403 detail), w2)
          /\ w2.(db) = w1.(db))
    /\ (forall e' mess_id_arg request,
          PydanticObjectId request.(req_mealPassId)
          = Some (new_mealpass sha256_hexdigest e w user plan).(pass_id) ->
          create_checkin e' mess_id_arg request w1
          = (Ok (JSONResponse 403 "Subscription is not active. Current status: Pending"),
             w1)).
Proof.
  intros Hsub.
  exists (new_subscription e w user plan), (after_subscribe e w user plan).
  split; [now apply subscribe_ok|]. split; [reflexivity|].
  pose proof (new_subscription_stored e w payload user plan Hsub) as Hs.
  pose proof (new_pass_stored e w payload user plan Hsub) as Hp.
  pose proof (new_pass_scanned e w payload user plan Hsub) as Hq.
  split.
  - intros e' user_id_arg.
    unfold validate_meal_pass, try_except, outside_window, bind, utcnow, get_db,
      ret, raise.
    unfold pass_with_qr in Hq. cbn [scan_of req_qrCode]. rewrite Hq.
    cbn [new_mealpass isBlocked isActive negb validFrom validTill subscriptionId].
    cbn [db tick].
    destruct (clock e' (tick (after_subscribe e w user plan))
              <? startDate (new_subscription e w user plan)); cbn [db tick].
    { eexists; eexists. split; reflexivity. }
    destruct (clock e' (tick (after_subscribe e w user plan))
              >? endDate (new_subscription e w user plan)); cbn [db tick].
    { eexists; eexists. split; reflexivity. }
    rewrite Hs. cbn [new_subscription status SubStatus_eqb negb].
    eexists; eexists. split; reflexivity.
  - intros e' mess_id_arg request Hreq.
    unfold create_checkin, await_meal_pass, await_subscription, await_find_one,
      await_insert, router_guard, try_except, parse_oid, bind, get_db, ret.
    rewrite Hreq, Hp.
    cbn [new_mealpass isBlocked isActive negb orb subscriptionId].
    rewrite Hs. reflexivity.
Qed.

(** The request that activates the new subscription. *)
Definition activates (payload : UpdateSubscriptionRequest) (plan : SubscriptionPlan)
    : Prop :=
  payload.(act_status) = Some ReqActive
  /\ not_authorized plan payload.(act_messId) = false.

Lemma user_id_of_get d uid user :
  User_get d uid = Some user -> user.(user_id) = uid.
Proof.
  unfold User_get. intros H. apply find_some in H. now apply String.eqb_eq.
Qed.

(** The world after the new subscription has been activated. *)
Definition after_activation (e : Env) (w : World) (user : User)
    (plan : SubscriptionPlan) : World :=
  let w1 := after_subscribe e w user plan in
  let s2 := activated e w1 (new_subscription e w user plan) plan in
  {| db := {| users := w1.(db).(users); plans := w1.(db).(plans);
              subscriptions :=
                replace_by (fun x => oid_eqb x.(sub_id) s2.(sub_id)) s2
                  w1.(db).(subscriptions);
              mealpasses := w1.(db).(mealpasses);
              checkins := w1.(db).(checkins) |};
     tick := (2 + w1.(tick))%nat |}.

Lemma activate_new_subscription e w payload user plan act :
  subscribes e w payload user plan ->
  PlanRouterProps.canonical (new_subscription e w user plan).(sub_id) ->
  activates act plan ->
  activate_subscription e (oid_str (new_subscription e w user plan).(sub_id)) act
    (after_subscribe e w user plan)
  = (Ok (activated e (after_subscribe e w user plan)
           (new_subscription e w user plan) plan),
     after_activation e w user plan).
Proof.
  intros Hsub Hcan [Hst Hauth].
  pose proof (new_subscription_stored e w payload user plan Hsub) as Hs.
  destruct Hsub as (Hmay & _).
  destruct Hmay as (_ & _ & (pid & _ & Hplan) & _).
  assert (Hplan' : SubscriptionPlan_get (after_subscribe e w user plan).(db)
                     (new_subscription e w user plan).(sub_planId) = Some plan).
  { cbn [new_subscription sub_planId].
    rewrite (plan_id_of_get _ _ _ Hplan). exact Hplan. }
  unfold activate_subscription, router_guard, try_except, parse_oid,
    apply_status, save_subscription, bind, utcnow, get_db, put_db, ret, raise.
  unfold PlanRouterProps.canonical, oid_str in *. rewrite Hcan, Hs, Hplan', Hauth, Hst.
  cbn [db tick]. reflexivity.
Qed.

(** The answer of validate_meal_pass when every check passes. *)
Lemma validate_accepts e w user_id_arg qr mp f t s u :
  pass_with_qr w.(db) qr = Some mp ->
  mp.(isBlocked) = false ->
  mp.(isActive) = true ->
  mp.(validFrom) = Some f ->
  mp.(validTill) = Some t ->
  f <= e.(clock) w.(tick) <= t ->
  UserSubscription_get w.(db) mp.(subscriptionId) = Some s ->
  s.(status) = Active ->
  User_get w.(db) mp.(pass_userId) = Some u ->
  validate_meal_pass e user_id_arg {| req_qrCode := qr |} w
  = (Ok {| valid := true;
           mealPass := mp;
           userId_info := (oid_str u.(user_id), u.(username), u.(email));
           subscriptionId_info :=
             match SubscriptionPlan_get w.(db) s.(sub_planId) with
             | Some plan =>
                 Some (oid_str s.(sub_id), s.(status),
                       (oid_str plan.(plan_id), plan.(planName),
                        plan.(plan_mealType), plan.(duration)))
             | None => None
             end |},
     {| db := w.(db); tick := S w.(tick) |}).
Proof.
  intros Hq Hb Ha Hf Ht [Hfrom Htill] Hs Hst Hu.
  unfold validate_meal_pass, try_except, outside_window, bind, utcnow, get_db,
    ret, raise.
  unfold pass_with_qr in Hq. cbn [req_qrCode].
  rewrite Hq, Hb, Ha, Hf, Ht. cbn [negb db tick].
  assert (H1 : (clock e (tick w) <? f) = false) by lia.
  assert (H2 : (clock e (tick w) >? t) = false) by lia.
  rewrite H1, H2, Hs, Hst. cbn [SubStatus_eqb negb]. rewrite Hu.
  reflexivity.
Qed.

(** X8. Subscribe, activate, scan: when the new subscription is activated
    and its pass is then scanned inside the window the pass was issued
    with, validate_meal_pass accepts the pass and reports the subscriber,
    the subscription as Active and the plan. *)
Theorem activated_pass_is_accepted e w payload user plan act user_id_arg :
  subscribes e w payload user plan ->
  PlanRouterProps.canonical (new_subscription e w user plan).(sub_id) ->
  activates act plan ->
  e.(clock) w.(tick) <= e.(clock) (10 + w.(tick))%nat
    <= end_date_for plan.(duration) (e.(clock) w.(tick)) ->
  exists sub w1 s2 w2 resp w3,
    subscribe_to_plan sha256_hexdigest e payload w = (Ok sub, w1)
    /\ activate_subscription e (oid_str sub.(sub_id)) act w1 = (Ok s2, w2)
    /\ validate_meal_pass e user_id_arg (scan_of e w user plan) w2 = (Ok resp, w3)
    /\ resp.(valid) = true
    /\ resp.(mealPass) = new_mealpass sha256_hexdigest e w user plan
    /\ resp.(userId_info) = (oid_str user.(user_id), user.(username), user.(email))
    /\ resp.(subscriptionId_info)
       = Some (oid_str sub.(sub_id), Active,
               (oid_str plan.(plan_id), plan.(planName), plan.(plan_mealType),
                plan.(duration)))
    /\ w3.(db) = w2.(db).
Proof.
  intros Hsub Hcan Hact Hwin.
  exists (new_subscription e w user plan), (after_subscribe e w user plan).
  exists (activated e (after_subscribe e w user plan)
            (new_subscription e w user plan) plan).
  exists (after_activation e w user plan).
  pose proof (new_subscription_stored e w payload user plan Hsub) as Hs.
  pose proof (new_pass_scanned e w payload user plan Hsub) as Hq.
  assert (Hs2 : UserSubscription_get (after_activation e w user plan).(db)
                  (new_mealpass sha256_hexdigest e w user plan).(subscriptionId)
                = Some (activated e (after_subscribe e w user plan)
                          (new_subscription e w user plan) plan)).
  { unfold UserSubscription_get in *. unfold after_activation.
    cbn [db subscriptions].
    apply find_replace_by with (y := new_subscription e w user plan).
    - exact Hs.
    - apply String.eqb_refl. }
  pose proof Hsub as (Hmay & _).
  destruct Hmay as ((uid & _ & Huser) & _ & (pid & _ & Hplan) & _).
  assert (Huser' : User_get (after_activation e w user plan).(db)
                     (new_mealpass sha256_hexdigest e w user plan).(pass_userId)
                   = Some user).
  { cbn [new_mealpass pass_userId].
    rewrite (user_id_of_get _ _ _ Huser). exact Huser. }
  assert (Hplan' : SubscriptionPlan_get (after_activation e w user plan).(db)
                     plan.(plan_id) = Some plan).
  { rewrite (plan_id_of_get _ _ _ Hplan). exact Hplan. }
  eexists; eexists.
  split; [now apply subscribe_ok|].
  split; [now apply (activate_new_subscription e w payload user plan act)|].
  split.
  { apply (validate_accepts e (after_activation e w user plan) user_id_arg
             (new_mealpass sha256_hexdigest e w user plan).(qrCode)
             (new_mealpass sha256_hexdigest e w user plan)
             (e.(clock) w.(tick))
             (end_date_for plan.(duration) (e.(clock) w.(tick)))
             (activated e (after_subscribe e w user plan)
                (new_subscription e w user plan) plan)
             user);
      try reflexivity; trivial. }
  cbn [valid mealPass userId_info subscriptionId_info db tick].
  split; [reflexivity|]. split; [reflexivity|]. split; [reflexivity|].
  split; [|reflexivity].
  change (sub_planId (activated e (after_subscribe e w user plan)
                        (new_subscription e w user plan) plan))
    with (plan_id plan).
  rewrite Hplan'. reflexivity.
Qed.

End WithDigest.

(** X9. An activation does not bring a pass back: when the window of a
    pass is over at the time of the scan, the scan is refused as expired
    although activate_subscription has just stored the subscription as
    Active. *)
Theorem activation_does_not_renew_pass
    e w subscription_id act subscription plan qr mp f t user_id_arg :
  may_activate w subscription_id act subscription plan ->
  act.(act_status) = Some ReqActive ->
  pass_with_qr w.(db) qr = Some mp ->
  mp.(subscriptionId) = subscription.(sub_id) ->
  mp.(isBlocked) = false ->
  mp.(isActive) = true ->
  mp.(validFrom) = Some f ->
  mp.(validTill) = Some t ->
  t < e.(clock) (2 + w.(tick))%nat ->
  exists s2 w2,
    activate_subscription e subscription_id act w = (Ok s2, w2)
    /\ s2.(status) = Active
    /\ UserSubscription_get w2.(db) mp.(subscriptionId) = Some s2
    /\ validate_meal_pass e user_id_arg {| req_qrCode := qr |} w2
       = (Raise (HTTPException 403 "Meal pass has expired"),
          {| db := w2.(db); tick := S w2.(tick) |}).
Proof.
  intros ((sid & Hs & Hget) & Hplan & Hauth) Hst Hq Hsub Hb Ha Hf Ht Hlate.
  exists (activated e w subscription plan). eexists.
  split.
  { unfold activate_subscription, router_guard, try_except, parse_oid,
      apply_status, save_subscription, bind, utcnow, get_db, put_db, ret, raise.
    rewrite Hs, Hget, Hplan, Hauth, Hst. cbn [db tick]. reflexivity. }
  split; [reflexivity|]. split.
  { unfold UserSubscription_get in *. cbn [db subscriptions].
    rewrite Hsub. cbn [activated set_subscription sub_id].
    apply find_replace_by with (y := subscription).
    - rewrite (sub_id_of_get _ _ _ Hget). exact Hget.
    - apply String.eqb_refl. }
  unfold validate_meal_pass, try_except, outside_window, bind, utcnow, get_db,
    ret, raise.
  unfold pass_with_qr in Hq. cbn [db mealpasses req_qrCode tick].
  rewrite Hq, Hb, Ha, Hf, Ht. cbn [negb db tick].
  cbn [plus] in Hlate.
  destruct (clock e (S (S (tick w))) <? f); [reflexivity|].
  assert (Hgt : (clock e (S (S (tick w))) >? t) = true) by lia.
  rewrite Hgt. reflexivity.
Qed.

(** X10. create_checkin does not look at the window of the pass: for a
    pass whose validTill has passed, whose subscription is Active, the scan
    is refused as expired and yet the check-in with the same pass is
    created and stored. *)
Theorem expired_pass_still_checks_in
    e w mess_id_arg request mp sub f t user_id_arg :
  passes_guards w request mp sub ->
  ~ checked_in_today w.(db) mp.(pass_id) request.(req_mealType) (e.(clock) w.(tick)) ->
  pass_with_qr w.(db) mp.(qrCode) = Some mp ->
  mp.(validFrom) = Some f ->
  mp.(validTill) = Some t ->
  t < e.(clock) w.(tick) ->
  validate_meal_pass e user_id_arg {| req_qrCode := mp.(qrCode) |} w
  = (Raise (HTTPException 403 "Meal pass has expired"),
     {| db := w.(db); tick := S w.(tick) |})
  /\ exists c w',
       create_checkin e mess_id_arg request w = (Ok (Created c), w')
       /\ w'.(db).(checkins) = (w.(db).(checkins) ++ [c])%list
       /\ c.(mealPassId) = mp.(pass_id)
       /\ c.(checkin_status) = success.
Proof.
  intros Hguards Hno Hq Hf Ht Hlate. split.
  - destruct Hguards as (_ & Ha & Hb & _).
    unfold validate_meal_pass, try_except, outside_window, bind, utcnow, get_db,
      ret, raise.
    unfold pass_with_qr in Hq. cbn [req_qrCode].
    rewrite Hq, Hb, Ha, Hf, Ht. cbn [negb db tick].
    destruct (clock e (tick w) <? f); [reflexivity|].
    assert (Hgt : (clock e (tick w) >? t) = true) by lia.
    rewrite Hgt. reflexivity.
  - destruct (create_checkin_guarded e w mess_id_arg request mp sub Hguards)
      as [_ Hcreate].
    destruct (Hcreate Hno) as (c & w' & Hrun & Hins & Hst & _ & _ & Hp & _).
    exists c, w'. auto.
Qed.

End FlowProps.

(* ------------------------------------------------------------------ *)
(** ** Properties of get_today_stats *)

Module StatsProps.
Import CheckinRouter StatsRouter CheckinProps.

#[local] Arguments MealPass_get : simpl never.
#[local] Arguments UserSubscription_get : simpl never.

(** A check-in that the statistics of [mess] count under [meal] at the
    time [now]. *)
Definition counts_today (mess : ObjectId) (now : datetime) (meal : CheckinMeal)
    (c : CheckIn) : bool :=
  succeeded_today mess (start_of_day now) (start_of_day now + timedelta_days 1) c
  && CheckinMeal_eqb c.(checkin_mealType) meal.

Definition count_of (mess : ObjectId) (now : datetime) (meal : CheckinMeal)
    (l : list CheckIn) : Z :=
  Z.of_nat (List.length (filter (counts_today mess now meal) l)).

Definition meals (meal : CheckinMeal) (l : list CheckIn) : Z :=
  Z.of_nat (List.length
              (filter (fun c => CheckinMeal_eqb c.(checkin_mealType) meal) l)).

Lemma fold_count_meal l : forall s,
  fold_left count_meal l s
  = {| stat_breakfast := s.(stat_breakfast) + meals breakfast l;
       stat_lunch := s.(stat_lunch) + meals lunch l;
       stat_dinner := s.(stat_dinner) + meals dinner l |}.
Proof.
  induction l as [|a l IH]; intros s.
  - destruct s. unfold meals. cbn. f_equal; lia.
  - cbn [fold_left]. rewrite IH. unfold count_meal, meals. cbn [filter].
    destruct (checkin_mealType a);
      cbn [CheckinMeal_eqb stat_breakfast stat_lunch stat_dinner List.length];
      f_equal; lia.
Qed.

Lemma filter_filter {A} (p q : A -> bool) (l : list A) :
  filter q (filter p l) = filter (fun x => p x && q x) l.
Proof.
  induction l as [|a l IH]; [reflexivity|].
  cbn [filter]. destruct (p a); cbn [filter andb]; [|exact IH].
  destruct (q a); now rewrite IH.
Qed.

Lemma is_success_eq s : is_success s = true <-> s = success.
Proof. destruct s; simpl; split; intros H; try reflexivity; discriminate. Qed.

Lemma counts_today_spec mess now meal c :
  counts_today mess now meal c = true
  <-> c.(checkin_messId) = mess
      /\ c.(checkin_status) = success
      /\ c.(checkin_mealType) = meal
      /\ exists t, c.(checkin_created_at) = Some t /\ utc_day t = utc_day now.
Proof.
  unfold counts_today, succeeded_today. split.
  - intros H. apply andb_true_iff in H. destruct H as [H Hm].
    apply andb_true_iff in H. destruct H as [H Hs].
    apply andb_true_iff in H. destruct H as [Hid Ht].
    apply String.eqb_eq in Hid. apply is_success_eq in Hs.
    apply CheckinMeal_eqb_eq in Hm.
    destruct (checkin_created_at c) as [t|]; [|discriminate].
    repeat split; trivial. exists t. split; [reflexivity|].
    apply in_range_same_day. lia.
  - intros (Hid & Hs & Hm & t & Ht & Hd).
    rewrite Ht. apply same_day_in_range in Hd.
    apply andb_true_iff. split; [|now apply CheckinMeal_eqb_eq].
    apply andb_true_iff. split; [|now apply is_success_eq].
    apply andb_true_iff. split; [now apply String.eqb_eq|lia].
Qed.

(** The statistics of [mess] over a list of check-ins at the time [now]. *)
Definition stats_of (mess : ObjectId) (now : datetime) (l : list CheckIn) : Stats :=
  {| stat_breakfast := count_of mess now breakfast l;
     stat_lunch := count_of mess now lunch l;
     stat_dinner := count_of mess now dinner l |}.

Lemma get_today_stats_run e mess_id_arg w :
  get_today_stats e mess_id_arg w
  = (match PydanticObjectId mess_id_arg with
     | Some mess => Ok (stats_of mess (e.(clock) w.(tick)) w.(db).(checkins))
     | None => Raise (HTTPException 500 "Internal server error")
     end,
     {| db := w.(db); tick := S w.(tick) |}).
Proof.
  unfold get_today_stats, try_except, parse_oid, bind, utcnow, get_db, ret, raise.
  destruct (PydanticObjectId mess_id_arg) as [mess|]; [|reflexivity].
  cbn [db tick]. rewrite fold_count_meal.
  unfold stats_of, count_of, meals, counts_today, no_stats.
  cbn [stat_breakfast stat_lunch stat_dinner].
  rewrite !filter_filter. reflexivity.
Qed.

(** X11. get_today_stats answers, for each of breakfast, lunch and dinner,
    with the number of stored check-ins of that mess and meal that have
    status 'success' and were created on the UTC day of the call; a mess id
    that is no ObjectId text gives HTTP 500; and the call stores nothing. *)
Theorem today_stats_counts e mess_id_arg w :
  get_today_stats e mess_id_arg w
  = (match PydanticObjectId mess_id_arg with
     | Some mess => Ok (stats_of mess (e.(clock) w.(tick)) w.(db).(checkins))
     | None => Raise (HTTPException 500 "Internal server error")
     end,
     {| db := w.(db); tick := S w.(tick) |})
  /\ forall mess now meal c,
       counts_today mess now meal c = true
       <-> c.(checkin_messId) = mess
           /\ c.(checkin_status) = success
           /\ c.(checkin_mealType) = meal
           /\ exists t, c.(checkin_created_at) = Some t
                        /\ utc_day t = utc_day now.
Proof.
  split; [apply get_today_stats_run|]. intros. apply counts_today_spec.
Qed.

(** The check-in create_checkin stores for the pass [mp]. *)
Definition new_checkin (e : Env) (w : World) (mp : MealPass)
    (request : CreateCheckInRequest) : CheckIn :=
  {| checkin_id := e.(new_oid) (3 + w.(tick))%nat;
     checkin_userId := mp.(pass_userId);
     checkin_messId := mp.(pass_messId);
     mealPassId := mp.(pass_id);
     checkin_mealType := request.(req_mealType);
     checkin_status := success;
     failureReason := None;
     checkin_created_at := Some (e.(clock) (1 + w.(tick))%nat);
     checkin_updated_at := Some (e.(clock) (2 + w.(tick))%nat) |}.

Definition with_checkin (d : Db) (c : CheckIn) : Db :=
  {| users := d.(users); plans := d.(plans); subscriptions := d.(subscriptions);
     mealpasses := d.(mealpasses); checkins := d.(checkins) ++ [c] |}.

Lemma create_checkin_run e w mess_id_arg request mp sub :
  passes_guards w request mp sub ->
  ~ checked_in_today w.(db) mp.(pass_id) request.(req_mealType) (e.(clock) w.(tick)) ->
  create_checkin e mess_id_arg request w
  = (Ok (Created (new_checkin e w mp request)),
     {| db := with_checkin w.(db) (new_checkin e w mp request);
        tick := (4 + w.(tick))%nat |}).
Proof.
  intros ((pid & Hp & Hget) & Ha & Hb & Hs & Hst) Hno.
  destruct (find (checked_in_between mp.(pass_id) request.(req_mealType)
                    (start_of_day (e.(clock) w.(tick)))
                    (start_of_day (e.(clock) w.(tick)) + timedelta_days 1))
                 w.(db).(checkins)) as [c|] eqn:Hf.
  { exfalso. apply Hno. apply find_checked_in_today. eauto. }
  unfold create_checkin, await_meal_pass, await_subscription, await_find_one,
      await_insert, router_guard, try_except, parse_oid, insert_checkin,
    bind, utcnow, fresh_oid, get_db, put_db, ret.
  rewrite Hp, Hget, Ha, Hb. cbn [negb orb]. rewrite Hs, Hst.
  cbn [SubStatus_eqb negb db tick]. rewrite Hf. cbn [db tick]. reflexivity.
Qed.

Lemma count_of_snoc mess now meal l c :
  count_of mess now meal (l ++ [c])
  = count_of mess now meal l + (if counts_today mess now meal c then 1 else 0).
Proof.
  unfold count_of. rewrite filter_app, List.length_app. cbn [filter].
  destruct (counts_today mess now meal c); cbn [List.length]; lia.
Qed.

(** X12. A check-in shows in the statistics of the mess of the pass, and
    of no other mess, whatever mess id the check-in request was sent to:
    after a successful create_checkin, get_today_stats on the same UTC day
    counts one more for that meal at the mess of the pass and the same as
    before at every other mess. *)
Theorem checkin_shows_in_stats e w mess_id_arg request mp sub stats_arg mess :
  passes_guards w request mp sub ->
  ~ checked_in_today w.(db) mp.(pass_id) request.(req_mealType) (e.(clock) w.(tick)) ->
  PydanticObjectId stats_arg = Some mess ->
  utc_day (e.(clock) (1 + w.(tick))%nat) = utc_day (e.(clock) (4 + w.(tick))%nat) ->
  exists c w1 s0 s1,
    create_checkin e mess_id_arg request w = (Ok (Created c), w1)
    /\ c.(checkin_mealType) = request.(req_mealType)
    /\ fst (get_today_stats e stats_arg {| db := w.(db); tick := w1.(tick) |}) = Ok s0
    /\ fst (get_today_stats e stats_arg w1) = Ok s1
    /\ (mess = mp.(pass_messId) -> s1 = count_meal s0 c)
    /\ (mess <> mp.(pass_messId) -> s1 = s0).
Proof.
  intros Hguards Hno Hmess Hday.
  exists (new_checkin e w mp request). eexists.
  exists (stats_of mess (e.(clock) (4 + w.(tick))%nat) w.(db).(checkins)).
  exists (stats_of mess (e.(clock) (4 + w.(tick))%nat)
            (w.(db).(checkins) ++ [new_checkin e w mp request])).
  split; [exact (create_checkin_run e w mess_id_arg request mp sub Hguards Hno)|].
  split; [reflexivity|].
  rewrite !get_today_stats_run, Hmess. cbn [fst db tick with_checkin checkins].
  split; [reflexivity|]. split; [reflexivity|].
  assert (Hc : forall meal,
             counts_today mess (e.(clock) (4 + w.(tick))%nat) meal
               (new_checkin e w mp request)
             = oid_eqb mp.(pass_messId) mess
               && CheckinMeal_eqb request.(req_mealType) meal).
  { intros meal.
    destruct (oid_eqb (pass_messId mp) mess
              && CheckinMeal_eqb (req_mealType request) meal) eqn:Hb.
    - apply andb_true_iff in Hb. destruct Hb as [Hid Hm].
      apply counts_today_spec. cbn [new_checkin checkin_messId checkin_status
        checkin_mealType checkin_created_at].
      apply String.eqb_eq in Hid. apply CheckinMeal_eqb_eq in Hm.
      repeat split; trivial. eexists. split; [reflexivity|exact Hday].
    - destruct (counts_today mess _ meal (new_checkin e w mp request)) eqn:Hct;
        [|reflexivity].
      apply counts_today_spec in Hct.
      cbn [new_checkin checkin_messId checkin_mealType] in Hct.
      destruct Hct as (Hid & _ & Hm & _).
      apply String.eqb_eq in Hid. apply CheckinMeal_eqb_eq in Hm.
      unfold oid_eqb in Hb. rewrite Hid, Hm in Hb. discriminate. }
  unfold stats_of. rewrite !count_of_snoc, !Hc. split.
  - intros ->. unfold oid_eqb. rewrite String.eqb_refl. cbn [andb].
    unfold count_meal. cbn [new_checkin checkin_mealType].
    destruct (req_mealType request);
      cbn [CheckinMeal_eqb stat_breakfast stat_lunch stat_dinner];
      f_equal; lia.
  - intros Hne.
    assert (Hf : oid_eqb (pass_messId mp) mess = false).
    { apply String.eqb_neq. congruence. }
    rewrite Hf. cbn [andb]. f_equal; lia.
Qed.

End StatsProps.

(* ------------------------------------------------------------------ *)
(** ** Properties of signin, and of signup followed by signin *)

Module SigninProps.
Import AuthService AuthSignin AuthProps.

Section Signing.

Variable bcrypt_gensalt : nat -> string.
Variable bcrypt_hashpw : string -> string -> string.
Variable bcrypt_checkpw : string -> string -> option bool.
Variable jwt_encode : string -> string -> datetime -> datetime -> string.
Variable email_ok : string -> bool.
Variable normalized_email : string -> string.
Variable timestamp_millis : datetime -> Z.
Variable JWT_EXPIRATION_HOURS : Z.

(** The token create_token makes at the world [w]. *)
Definition token_at (e : Env) (w : World) (user : User) (login_role : LoginRole)
    : string :=
  jwt_encode (oid_str user.(user_id)) (LoginRole_value login_role)
    (e.(clock) w.(tick) + JWT_EXPIRATION_HOURS * microseconds_per_hour)
    (e.(clock) (S w.(tick))).

(** X13. signin authenticates only a stored user with the given username
    and role whose stored hash bcrypt accepts for the given password, and
    the token it returns is made for that user's id and that role; every
    failure is a ValidationError; and no call changes the database. *)
Theorem signin_is_sound e username_arg password_arg login_role w :
  (forall user token w',
     signin jwt_encode JWT_EXPIRATION_HOURS bcrypt_checkpw e
       username_arg password_arg login_role w
     = (Ok (Authenticated user token), w') ->
     In user w.(db).(users)
     /\ user.(username) = username_arg
     /\ user.(Login_Role) = login_role
     /\ bcrypt_checkpw password_arg user.(password) = Some true
     /\ token = token_at e w user login_role
     /\ w'.(db) = w.(db))
  /\ (forall x w',
        signin jwt_encode JWT_EXPIRATION_HOURS bcrypt_checkpw e
          username_arg password_arg login_role w
        = (Raise x, w') ->
        w' = w /\ exists m, x = ValidationError m)
  /\ (snd (signin jwt_encode JWT_EXPIRATION_HOURS bcrypt_checkpw e
             username_arg password_arg login_role w)).(db) = w.(db).
Proof.
  unfold signin, create_token, invalid_credentials, bind, utcnow, get_db, ret, raise.
  destruct (negb _).
  { split; [discriminate|]. split; [|reflexivity].
    intros x w' H. inversion H; subst. eauto. }
  destruct (find _ (users (db w))) as [u|] eqn:Hf.
  2:{ split; [discriminate|]. split; [|reflexivity].
      intros x w' H. inversion H; subst. eauto. }
  apply find_some in Hf. destruct Hf as [Hin Hmatch].
  apply andb_true_iff in Hmatch. destruct Hmatch as [Hname Hrole].
  apply String.eqb_eq in Hname.
  assert (Hrole' : Login_Role u = login_role).
  { destruct (Login_Role u), login_role; trivial; discriminate. }
  destruct (bcrypt_checkpw password_arg (password u)) as [[|]|] eqn:Hpw.
  - cbn [db tick]. split; [|split; [discriminate|reflexivity]].
    intros user token w' H. inversion H; subst. unfold token_at.
    repeat split; trivial.
  - split; [discriminate|]. split; [|reflexivity].
    intros x w' H. inversion H; subst. eauto.
  - split; [discriminate|]. split; [discriminate|reflexivity].
Qed.

(** A signup request that passes every check of signup. *)
Definition registers (w : World) (username_arg email_arg password_arg : string)
    (login_role : LoginRole) : Prop :=
  all_fields username_arg email_arg password_arg login_role = true
  /\ (String.length password_arg <= 128)%nat
  /\ (3 <= String.length username_arg <= 50)%nat
  /\ email_ok email_arg = true
  /\ ~ email_taken w email_arg
  /\ ~ username_taken w username_arg.

Definition with_user (d : Db) (u : User) : Db :=
  {| users := d.(users) ++ [u]; plans := d.(plans);
     subscriptions := d.(subscriptions); mealpasses := d.(mealpasses);
     checkins := d.(checkins) |}.

Lemma signup_ok e w username_arg email_arg password_arg login_role :
  (forall p s, (6 <= String.length (bcrypt_hashpw p s))%nat) ->
  registers w username_arg email_arg password_arg login_role ->
  signup bcrypt_gensalt bcrypt_hashpw jwt_encode email_ok normalized_email timestamp_millis
    JWT_EXPIRATION_HOURS e username_arg email_arg password_arg login_role w
  = (Ok (new_user bcrypt_gensalt bcrypt_hashpw normalized_email timestamp_millis e w
           username_arg email_arg password_arg login_role,
         new_token jwt_encode JWT_EXPIRATION_HOURS e w login_role),
     {| db := with_user w.(db)
                (new_user bcrypt_gensalt bcrypt_hashpw normalized_email timestamp_millis e w
                   username_arg email_arg password_arg login_role);
        tick := (7 + w.(tick))%nat |}).
Proof.
  intros Hhash (Hall & Hlen & [H3 H50] & Hemail & Hne & Hnu).
  assert (Hlong : (128 <? String.length password_arg)%nat = false)
    by (apply Nat.ltb_ge; lia).
  assert (Hok : user_fields_ok email_ok username_arg email_arg
                  (bcrypt_hashpw password_arg (bcrypt_gensalt w.(tick))) = true).
  { unfold user_fields_ok. rewrite Hemail.
    specialize (Hhash password_arg (bcrypt_gensalt (tick w))).
    apply Nat.leb_le in H3, H50, Hhash. rewrite H3, H50, Hhash. reflexivity. }
  destruct (find (fun u => String.eqb u.(email) email_arg) w.(db).(users)) eqn:Hfe.
  { exfalso. apply Hne, find_email. eauto. }
  destruct (find (fun u => String.eqb u.(username) username_arg) w.(db).(users)) eqn:Hfu.
  { exfalso. apply Hnu, find_username. eauto. }
  unfold signup, check_fields, await_email_lookup, await_username_lookup,
      await_user_insert, create_token, hash_password, insert_user, bind, utcnow,
    fresh_oid, get_db, put_db, ret, raise.
  rewrite Hall, Hlong. cbn [negb]. rewrite Hfe, Hfu. cbn [db tick].
  rewrite Hok. cbn [negb db tick users]. reflexivity.
Qed.

Lemma find_snoc_none {A} (f : A -> bool) (l : list A) (x : A) :
  find f l = None -> find f (l ++ [x]) = (if f x then Some x else None).
Proof.
  induction l as [|a l IH]; cbn [app find]; intros Hn.
  - reflexivity.
  - destruct (f a); [discriminate|]. now apply IH.
Qed.

Lemma LoginRole_eqb_eq a b : LoginRole_eqb a b = true <-> a = b.
Proof. destruct a, b; simpl; split; intros H; try reflexivity; discriminate. Qed.

(** X14. A user who has signed up can sign in: after a successful signup,
    signin with the same username, password and role authenticates the
    user signup stored, provided bcrypt accepts a password for the hash it
    made of it; with the other role the same credentials are refused. *)
Theorem signup_then_signin e w username_arg email_arg password_arg login_role :
  (forall p s, (6 <= String.length (bcrypt_hashpw p s))%nat) ->
  (forall p s, bcrypt_checkpw p (bcrypt_hashpw p s) = Some true) ->
  registers w username_arg email_arg password_arg login_role ->
  exists user token w1,
    signup bcrypt_gensalt bcrypt_hashpw jwt_encode email_ok normalized_email timestamp_millis
      JWT_EXPIRATION_HOURS e username_arg email_arg password_arg login_role w
    = (Ok (user, token), w1)
    /\ (exists w2,
          signin jwt_encode JWT_EXPIRATION_HOURS bcrypt_checkpw e
            username_arg password_arg login_role w1
          = (Ok (Authenticated user (token_at e w1 user login_role)), w2)
          /\ w2.(db) = w1.(db))
    /\ (forall other, other <> login_role ->
          signin jwt_encode JWT_EXPIRATION_HOURS bcrypt_checkpw e
            username_arg password_arg other w1
          = (Raise invalid_credentials, w1)).
Proof.
  intros Hhash Hcheck Hreg.
  eexists; eexists; eexists.
  split; [exact (signup_ok e w username_arg email_arg password_arg login_role
                   Hhash Hreg)|].
  destruct Hreg as (Hall & _ & _ & _ & _ & Hnu).
  assert (Hnone : forall r,
             find (fun u => String.eqb u.(username) username_arg
                            && LoginRole_eqb u.(Login_Role) r) w.(db).(users)
             = None).
  { intros r.
    destruct (find _ (users (db w))) as [u|] eqn:Hf; [|reflexivity].
    apply find_some in Hf. destruct Hf as [Hin Hm].
    apply andb_true_iff in Hm. destruct Hm as [Hname _].
    apply String.eqb_eq in Hname. exfalso. apply Hnu. exists u. auto. }
  unfold all_fields in Hall.
  apply andb_true_iff in Hall. destruct Hall as [Hall Hr].
  apply andb_true_iff in Hall. destruct Hall as [Hall Hp].
  apply andb_true_iff in Hall. destruct Hall as [Hu _].
  split.
  - eexists.
    unfold signin, create_token, bind, utcnow, get_db, ret, raise.
    rewrite Hu, Hp, Hr. cbn [andb negb db users with_user].
    rewrite find_snoc_none by apply Hnone.
    cbn [new_user username Login_Role password].
    rewrite String.eqb_refl.
    assert (Hrr : LoginRole_eqb login_role login_role = true)
      by (now apply LoginRole_eqb_eq).
    rewrite Hrr. cbn [andb new_user password]. rewrite Hcheck. cbn [db tick].
    split; reflexivity.
  - intros other Hother.
    assert (Ho : negb (String.eqb (LoginRole_value other) "") = true)
      by (destruct other; reflexivity).
    unfold signin, invalid_credentials, bind, get_db, ret, raise.
    rewrite Hu, Hp, Ho. cbn [andb negb db users with_user].
    rewrite find_snoc_none by apply Hnone.
    cbn [new_user username Login_Role].
    assert (Hrr : LoginRole_eqb login_role other = false).
    { destruct login_role, other; trivial; exfalso; now apply Hother. }
    rewrite Hrr, andb_false_r. reflexivity.
Qed.

(** No two stored users share an e-mail address or a username. *)
Definition unique_users (d : Db) : Prop :=
  NoDup (map email d.(users)) /\ NoDup (map username d.(users)).

Lemma find_none_not_in (key : User -> string) (k : string) (l : list User) :
  find (fun u => String.eqb (key u) k) l = None -> ~ In k (map key l).
Proof.
  intros Hf Hin. apply in_map_iff in Hin. destruct Hin as (u & Hk & Hin).
  pose proof (find_none _ _ Hf u Hin) as Hn. cbn in Hn.
  rewrite Hk, String.eqb_refl in Hn. discriminate.
Qed.

#[local] Abbreviation sign_up :=
  (signup bcrypt_gensalt bcrypt_hashpw jwt_encode email_ok normalized_email
     timestamp_millis JWT_EXPIRATION_HOURS).

#[local] Abbreviation sign_up_loop :=
  (signup_loop bcrypt_gensalt bcrypt_hashpw jwt_encode email_ok
     normalized_email timestamp_millis JWT_EXPIRATION_HOURS).

Definition call_of (username_arg email_arg password_arg : string)
    (login_role : LoginRole) : SignupCall :=
  {| call_username := username_arg; call_email := email_arg;
     call_password := password_arg; call_role := login_role |}.

(** Two calls with the same arguments, each of which makes its two
    look-ups before the other one inserts. *)
Definition overlapping_signups (c : SignupCall) : list (Event SignupCall) :=
  [Arrives c; Arrives c;
   Resumes 0; Resumes 0; Resumes 1; Resumes 1;
   Resumes 0; Resumes 1].

(** The run of a call served alone is signup. *)
Lemma signup_served_alone e w username_arg email_arg password_arg login_role :
  sign_up_loop e
    (signup_alone (call_of username_arg email_arg password_arg login_role)) [] w
  = ([{| request := call_of username_arg email_arg password_arg login_role;
         suspended :=
           SignupDone (fst (sign_up e username_arg email_arg password_arg
                              login_role w)) |}],
     snd (sign_up e username_arg email_arg password_arg login_role w)).
Proof.
  destruct w as [d n].
  unfold signup_alone, signup_loop, signup, call_of.
  cbn [event_loop event_step app].
  unfold signup_begin, signup_stretch, check_fields, bind, ret, raise.
  cbn [call_username call_email call_password call_role].
  destruct (negb (all_fields _ _ _ _)); [reflexivity|].
  destruct (128 <? String.length password_arg)%nat; [reflexivity|].
  cbn [resume_nth request suspended signup_resume call_username call_email
       call_password call_role].
  unfold signup_stretch, await_email_lookup, bind, get_db, ret, raise.
  cbn [db tick].
  destruct (find _ (users d)); [reflexivity|].
  cbn [resume_nth request suspended signup_resume call_username call_email
       call_password call_role].
  unfold signup_stretch, await_username_lookup, hash_password, bind, utcnow,
    get_db, ret, raise.
  cbn [db tick].
  destruct (find _ (users d)); [reflexivity|].
  cbn [db tick].
  destruct (negb (user_fields_ok _ _ _ _)); [reflexivity|].
  cbn [resume_nth request suspended signup_resume call_username call_email
       call_password call_role].
  destruct (await_user_insert _ _ _ _ _ _ _ _ _ _); reflexivity.
Qed.

Lemma signup_users e w username_arg email_arg password_arg login_role :
  (snd (sign_up e username_arg email_arg password_arg login_role w)).(db).(users)
  = w.(db).(users)
  \/ (find (fun u => String.eqb u.(email) email_arg) w.(db).(users) = None
      /\ find (fun u => String.eqb u.(username) username_arg) w.(db).(users)
         = None
      /\ exists u,
           (snd (sign_up e username_arg email_arg password_arg login_role w))
             .(db).(users) = (w.(db).(users) ++ [u])%list
           /\ u.(username) = username_arg
           /\ u.(email) = normalized_email email_arg).
Proof.
  unfold signup, check_fields, await_email_lookup, await_username_lookup,
    await_user_insert, create_token, hash_password, insert_user, bind, utcnow,
    fresh_oid, get_db, put_db, ret, raise.
  destruct (negb (all_fields _ _ _ _)); [now left|].
  destruct (128 <? String.length password_arg)%nat; [now left|].
  destruct (find (fun u => String.eqb u.(email) email_arg) w.(db).(users)) eqn:Hfe;
    [now left|].
  destruct (find (fun u => String.eqb u.(username) username_arg) w.(db).(users)) eqn:Hfu;
    [now left|].
  cbn [db tick].
  destruct (negb (user_fields_ok _ _ _ _)); [now left|].
  right. split; [reflexivity|]. split; [reflexivity|].
  eexists. cbn [snd db users tick]. split; [reflexivity|].
  split; reflexivity.
Qed.

Lemma repeated_at_end (a b : string) (l : list string) :
  a = b -> ~ NoDup (l ++ [a; b]).
Proof.
  intros <- Hnd. apply NoDup_remove_2 in Hnd. apply Hnd.
  apply in_or_app. right. now left.
Qed.

(** X15. signup keeps usernames and e-mail addresses unique only for a
    call that is served alone and whose e-mail text is in normal form.
    Served alone (its run in the event loop is [signup]), a call leaves the
    usernames without a repetition, and the e-mail addresses too when the
    text it was given is its own normal form. Given another spelling of an
    address that is stored, a call that passes every check stores a second
    user with that address. And two calls with the same arguments that
    pass every check and overlap both insert their user: the collection
    then holds the username and the address twice. *)
Theorem signup_unique_only_alone e w username_arg email_arg password_arg
    login_role :
  unique_users w.(db) ->
  sign_up_loop e
    (signup_alone (call_of username_arg email_arg password_arg login_role)) [] w
  = ([{| request := call_of username_arg email_arg password_arg login_role;
         suspended :=
           SignupDone (fst (sign_up e username_arg email_arg password_arg
                              login_role w)) |}],
     snd (sign_up e username_arg email_arg password_arg login_role w))
  /\ NoDup (map username
              (snd (sign_up e username_arg email_arg password_arg login_role w))
                .(db).(users))
  /\ (normalized_email email_arg = email_arg ->
      unique_users
        (snd (sign_up e username_arg email_arg password_arg login_role w)).(db))
  /\ ((forall p s, (6 <= String.length (bcrypt_hashpw p s))%nat) ->
      registers w username_arg email_arg password_arg login_role ->
      (In (normalized_email email_arg) (map email w.(db).(users)) ->
       ~ NoDup (map email
                  (snd (sign_up e username_arg email_arg password_arg
                          login_role w)).(db).(users)))
      /\ exists u1 t1 u2 t2 w',
           sign_up_loop e
             (overlapping_signups
                (call_of username_arg email_arg password_arg login_role)) [] w
           = ([{| request := call_of username_arg email_arg password_arg
                               login_role;
                  suspended := SignupDone (Ok (u1, t1)) |};
               {| request := call_of username_arg email_arg password_arg
                               login_role;
                  suspended := SignupDone (Ok (u2, t2)) |}], w')
           /\ w'.(db).(users) = (w.(db).(users) ++ [u1; u2])%list
           /\ u1.(username) = u2.(username)
           /\ u1.(email) = u2.(email)
           /\ ~ unique_users w'.(db)).
Proof.
  intros [He Hu].
  split; [apply signup_served_alone|].
  pose proof (signup_users e w username_arg email_arg password_arg login_role)
    as Hcases.
  split; [|split].
  - destruct Hcases as [Hsame|(Hfe & Hfu & u & Husers & Hname & Hmail)].
    + now rewrite Hsame.
    + rewrite Husers, map_app. cbn [map]. rewrite Hname.
      apply MessProps.NoDup_snoc; [exact Hu|].
      now apply (find_none_not_in username).
  - intros Hnormal.
    destruct Hcases as [Hsame|(Hfe & Hfu & u & Husers & Hname & Hmail)].
    + unfold unique_users. rewrite Hsame. now split.
    + unfold unique_users. rewrite Husers, !map_app. cbn [map].
      rewrite Hname, Hmail, Hnormal. split.
      * apply MessProps.NoDup_snoc; [exact He|].
        now apply (find_none_not_in email).
      * apply MessProps.NoDup_snoc; [exact Hu|].
        now apply (find_none_not_in username).
  - intros Hhash Hreg. split.
    + intros Hstored.
      rewrite (signup_ok e w username_arg email_arg password_arg login_role
                 Hhash Hreg).
      cbn [snd db with_user users]. rewrite map_app. cbn [map new_user email].
      intros Hnd. apply NoDup_remove_2 in Hnd. apply Hnd.
      now rewrite app_nil_r.
    + destruct Hreg as (Hall & Hlen & [H3 H50] & Hemail & Hne & Hnu).
      assert (Hlong : (128 <? String.length password_arg)%nat = false)
        by (apply Nat.ltb_ge; lia).
      assert (Hok : forall s,
                 user_fields_ok email_ok username_arg email_arg
                   (bcrypt_hashpw password_arg s) = true).
      { intros s. unfold user_fields_ok. rewrite Hemail.
        specialize (Hhash password_arg s).
        apply Nat.leb_le in H3, H50, Hhash. rewrite H3, H50, Hhash. reflexivity. }
      destruct (find (fun u => String.eqb u.(email) email_arg) w.(db).(users)) eqn:Hfe.
      { exfalso. apply Hne, find_email. eauto. }
      destruct (find (fun u => String.eqb u.(username) username_arg) w.(db).(users)) eqn:Hfu.
      { exfalso. apply Hnu, find_username. eauto. }
      clear Hcases. destruct w as [d n]. cbn [db tick] in *.
      unfold overlapping_signups, signup_loop, call_of.
      cbn [event_loop event_step app].
      unfold signup_begin, signup_stretch, check_fields, bind, ret, raise.
      cbn [call_username call_email call_password call_role].
      rewrite Hall, Hlong. cbn [negb app].
      do 6 (cbn [resume_nth request suspended signup_resume call_username
                 call_email call_password call_role];
            unfold signup_stretch, await_email_lookup, await_username_lookup,
              await_user_insert, create_token, hash_password, insert_user,
              bind, utcnow, fresh_oid, get_db, put_db, ret, raise;
            cbn [db tick users]; rewrite ?Hfe, ?Hfu; cbn [db tick];
            rewrite ?Hok; cbn [negb]).
      eexists; eexists; eexists; eexists; eexists.
      split; [reflexivity|]. cbn [db users username email].
      split; [now rewrite <- app_assoc|].
      split; [reflexivity|]. split; [reflexivity|].
      intros [_ Hdup]. cbn [db users] in Hdup.
      rewrite <- app_assoc, map_app in Hdup. cbn [app map username] in Hdup.
      revert Hdup. now apply repeated_at_end.
Qed.

End Signing.

End SigninProps.

(* ------------------------------------------------------------------ *)
(** ** Properties of the rating endpoints and of add_rating_to_mess *)

Module RatingRouterProps.
Import MessModel RatingRouter MessProps.

Section Rated.

Variable float : Type.
Variable float_zero : float.
Variable float_of_int : Z -> float.
Variable float_of_str : string -> option float.
Variable float_add : float -> float -> float.
Variable int_truediv : Z -> Z -> float.
Variable float_div : float -> float -> float.

(** X16. MessService.add_rating_to_mess never adds a rating: it hands
    Mess.add_rating the rating where the user id is expected, so that for
    an existing mess, a rating from 1 to 5 and a well-formed user id the
    call ends in the TypeError of PydanticObjectId on an int; every call
    raises, and the stored collection is left as it was. *)
Theorem add_rating_to_mess_always_raises
    (messes : list (Mess float)) mess_id_arg rating user_id_arg :
  add_rating_to_mess float messes mess_id_arg rating user_id_arg
  = (Raise
       match get_mess_by_id messes mess_id_arg with
       | Raise x => x
       | Ok _ =>
         if (1 <=? rating) && (rating <=? 5)
         then match PydanticObjectId user_id_arg with
              | Some _ => TypeError
                  "id must be an instance of (bytes, str, ObjectId), not <class 'int'>"
              | None => InvalidId
              end
         else ValidationError "Rating must be between 1 and 5"
       end,
     messes).
Proof.
  unfold add_rating_to_mess.
  destruct (get_mess_by_id messes mess_id_arg) as [m|x]; [|reflexivity].
  destruct ((1 <=? rating) && (rating <=? 5)); cbn [negb]; [|reflexivity].
  destruct (PydanticObjectId user_id_arg) as [o|]; reflexivity.
Qed.

Lemma index_of_text_none (l : list (RatedByEntry)) (user_id_arg : string) :
  existsb (String.eqb user_id_arg) (map uid_str l) = false ->
  index_of_text l user_id_arg = None.
Proof.
  induction l as [|a l IH]; [reflexivity|].
  cbn [map existsb]. intros H. apply orb_false_iff in H. destruct H as [Ha Hl].
  destruct a as [o|s|z]; cbn [index_of_text uid_str] in *.
  - now rewrite IH.
  - rewrite String.eqb_sym, Ha. now rewrite IH.
  - now rewrite IH.
Qed.

Lemma index_of_text_snoc_oid (l : list (RatedByEntry)) (user_id_arg : string) o :
  index_of_text l user_id_arg = None ->
  index_of_text (l ++ [UOid o]) user_id_arg = None.
Proof.
  induction l as [|a l IH]; [reflexivity|].
  cbn [app index_of_text]. destruct a as [o'|s|z].
  - destruct (index_of_text l user_id_arg); [discriminate|].
    intros _. now rewrite IH.
  - destruct (String.eqb s user_id_arg); [discriminate|].
    destruct (index_of_text l user_id_arg); [discriminate|].
    intros _. now rewrite IH.
  - destruct (index_of_text l user_id_arg); [discriminate|].
    intros _. now rewrite IH.
Qed.

Lemma mess_id_of_find (messes : list (Mess float)) i m :
  find (fun m => oid_eqb m.(mess_id) i) messes = Some m -> m.(mess_id) = i.
Proof. intros H. apply find_some in H. now apply String.eqb_eq. Qed.

(** X17. The has_user_rated endpoint never reports the rating a user gave
    through update_rating: after a successful update_rating the endpoint
    answers for the same mess and user with rating 0, and with hasRated
    true only when the user id was given in canonical (lower-case) form. *)
Theorem rated_user_sees_zero
    (messes messes' : list (Mess float)) mess_id_arg user_id_arg rating resp :
  update_rating float float_zero float_of_int float_of_str float_add
    int_truediv float_div messes mess_id_arg user_id_arg rating
  = (Ok resp, messes') ->
  exists o,
    PydanticObjectId user_id_arg = Some o
    /\ has_user_rated_endpoint float messes' mess_id_arg user_id_arg
       = Ok {| hr_success := true;
               hasRated := String.eqb user_id_arg o;
               hr_rating := RInt 0 |}.
Proof.
  unfold update_rating, get_mess_by_id, has_user_rated, add_rating.
  destruct ((rating <? 1) || (rating >? 5)); [discriminate|].
  destruct (PydanticObjectId mess_id_arg) as [i|] eqn:Hi; [|discriminate].
  destruct (find (fun m => oid_eqb (mess_id m) i) messes) as [m|] eqn:Hfind;
    [|discriminate].
  destruct (existsb (String.eqb user_id_arg) (map uid_str (RatedBy m))) eqn:Hex;
    [discriminate|].
  destruct (PydanticObjectId user_id_arg) as [o|] eqn:Ho; [|discriminate].
  intros H. inversion H; subst messes'. clear H.
  exists o. split; [reflexivity|].
  unfold has_user_rated_endpoint, get_mess_by_id, has_user_rated. rewrite Hi.
  pose proof (mess_id_of_find messes i m Hfind) as Hid.
  cbn [set_ratings mess_id Ratings RatedBy]. rewrite Hid.
  rewrite (PlanProps.find_replace_by (fun m0 : Mess float => oid_eqb (mess_id m0) i)
             _ m messes Hfind) by (cbn [mess_id set_ratings]; rewrite Hid; apply String.eqb_refl).
  clear Hfind Hid. destruct m as [mi n nm mo ca ad ow de rs by_ us im cr up].
  unfold set_ratings. cbv beta iota delta [RatedBy Ratings] in *.
  rewrite map_app, existsb_app, Hex. cbn [map existsb uid_str oid_str orb].
  rewrite orb_false_r.
  rewrite (index_of_text_snoc_oid _ _ o (index_of_text_none _ _ Hex)).
  unfold oid_str. destruct (String.eqb user_id_arg o); reflexivity.
Qed.

(** Every stored mess has as many raters as ratings. *)
Definition lengths_agree (messes : list (Mess float)) : Prop :=
  Forall (fun m => List.length m.(Ratings) = List.length m.(RatedBy)) messes.

Lemma Forall_replace_by {A} (P : A -> Prop) (f : A -> bool) (x : A) (l : list A) :
  Forall P l -> P x -> Forall P (replace_by f x l).
Proof.
  induction 1 as [|a l Ha Hl IH]; intros Hx; cbn [replace_by]; [constructor|].
  destruct (f a); constructor; auto.
Qed.

(** X18. update_rating keeps, in every stored mess, as many raters as
    ratings, whatever the arguments and the outcome: the rating that
    Mess.add_rating appends before a malformed user id makes it raise is
    never saved. *)
Theorem update_rating_keeps_lengths
    (messes : list (Mess float)) mess_id_arg user_id_arg rating :
  lengths_agree messes ->
  lengths_agree
    (snd (update_rating float float_zero float_of_int float_of_str float_add
            int_truediv float_div messes mess_id_arg user_id_arg rating)).
Proof.
  intros Hall.
  unfold update_rating, add_rating.
  destruct ((rating <? 1) || (rating >? 5)); [exact Hall|].
  destruct (get_mess_by_id messes mess_id_arg) as [m|x] eqn:Hget; [|exact Hall].
  destruct (has_user_rated m user_id_arg) eqn:Hr; [exact Hall|].
  unfold has_user_rated in Hr. rewrite Hr.
  destruct (PydanticObjectId user_id_arg) as [o|]; [|exact Hall].
  cbn [snd]. apply Forall_replace_by; [exact Hall|].
  cbn [set_ratings Ratings RatedBy]. rewrite !List.length_app. cbn [List.length].
  assert (Hin : In m messes).
  { unfold get_mess_by_id in Hget.
    destruct (PydanticObjectId mess_id_arg) as [i|]; [|discriminate].
    destruct (find (fun m0 => oid_eqb (mess_id m0) i) messes) as [m0|] eqn:Hf;
      [|discriminate].
    inversion Hget; subst m0. now apply find_some in Hf. }
  unfold lengths_agree in Hall. rewrite Forall_forall in Hall.
  rewrite (Hall m Hin). reflexivity.
Qed.

End Rated.

End RatingRouterProps.

(* ------------------------------------------------------------------ *)
(** ** get_mess_plans and the plans one can subscribe to *)

Module ListingProps.
Import SubscriptionRouter PlanRouter SubscribeProps PlanProps.

#[local] Arguments User_get : simpl never.
#[local] Arguments SubscriptionPlan_get : simpl never.
#[local] Arguments UserSubscription_get : simpl never.

Lemma find_unique_plan (l : list SubscriptionPlan) (plan : SubscriptionPlan) :
  NoDup (map plan_id l) -> In plan l ->
  find (fun p => oid_eqb p.(plan_id) plan.(plan_id)) l = Some plan.
Proof.
  induction l as [|a l IH]; intros Hnd Hin; [destruct Hin|].
  cbn [map] in Hnd. apply NoDup_cons_iff in Hnd. destruct Hnd as [Ha Hnd].
  cbn [find]. destruct Hin as [->|Hin].
  - unfold oid_eqb. now rewrite String.eqb_refl.
  - destruct (oid_eqb (plan_id a) (plan_id plan)) eqn:Hk.
    + apply String.eqb_eq in Hk. exfalso. apply Ha. rewrite Hk. now apply in_map.
    + now apply IH.
Qed.

Lemma get_mess_plans_run mess_id_arg w :
  get_mess_plans mess_id_arg w
  = (match PydanticObjectId mess_id_arg with
     | Some mess =>
         Ok (filter (fun p => oid_eqb p.(plan_messId) mess && p.(plan_isActive))
               w.(db).(plans))
     | None => Raise (HTTPException 500 "Internal server error")
     end, w).
Proof.
  unfold get_mess_plans, try_except, parse_oid, bind, get_db, ret, raise.
  destruct (PydanticObjectId mess_id_arg); reflexivity.
Qed.

Section WithDigest.

Variable sha256_hexdigest : string -> string.

(** X19. Every plan that get_mess_plans lists is open for subscription:
    a regular user who has not subscribed to it before, and who names it by
    its id, gets a Pending subscription to that plan stored; and the
    listing itself changes nothing. *)
Theorem listed_plan_is_open e w mess_id_arg listed plan payload uid user :
  get_mess_plans mess_id_arg w = (Ok listed, w) ->
  In plan listed ->
  NoDup (map plan_id w.(db).(plans)) ->
  PydanticObjectId payload.(req_planId) = Some plan.(plan_id) ->
  PydanticObjectId payload.(req_userId) = Some uid ->
  User_get w.(db) uid = Some user ->
  is_regular_user user = true ->
  ~ prior_subscription w user plan ->
  exists sub w1,
    subscribe_to_plan sha256_hexdigest e payload w = (Ok sub, w1)
    /\ sub.(sub_planId) = plan.(plan_id)
    /\ sub.(sub_userId) = user.(user_id)
    /\ sub.(status) = Pending
    /\ In sub w1.(db).(subscriptions).
Proof.
  intros Hlist Hin Hnd Hp Hu Huser Hreg Hno.
  rewrite get_mess_plans_run in Hlist.
  destruct (PydanticObjectId mess_id_arg) as [mess|]; [|discriminate].
  inversion Hlist; subst listed. clear Hlist.
  apply filter_In in Hin. destruct Hin as [Hin Hact].
  apply andb_true_iff in Hact. destruct Hact as [_ Hact].
  assert (Hmay : may_subscribe w payload user plan).
  { split; [eauto|]. split; [exact Hreg|]. split; [|exact Hact].
    exists plan.(plan_id). split; [exact Hp|].
    unfold SubscriptionPlan_get. now apply find_unique_plan. }
  exists (new_subscription e w user plan).
  rewrite (subscribe_to_plan_run sha256_hexdigest e w payload user plan Hmay Hno).
  destruct (pass_block_completes sha256_hexdigest e w user plan);
    eexists; (split; [reflexivity|]);
    cbn [new_subscription sub_planId sub_userId status db with_mealpass
         with_subscription subscriptions];
    repeat split; apply in_or_app; right; now left.
Qed.

End WithDigest.

End ListingProps.

(* ------------------------------------------------------------------ *)
(** ** Deactivated plans and subscriptions that have ended *)

Module LifecycleProps.
Import SubscriptionRouter PlanRouter SubscribeProps PlanProps.

#[local] Arguments User_get : simpl never.
#[local] Arguments SubscriptionPlan_get : simpl never.
#[local] Arguments UserSubscription_get : simpl never.

Lemma in_replace_by {A} (f : A -> bool) (x y : A) (l : list A) :
  find f l = Some y -> In x (replace_by f x l).
Proof.
  induction l as [|a l IH]; [discriminate|].
  cbn [find replace_by]. destruct (f a).
  - intros _. now left.
  - intros H. right. now apply IH.
Qed.

(** What every call of activate_subscription that passes the guards does,
    whatever status it asks for. *)
Lemma activate_runs e w subscription_id act subscription plan :
  may_activate w subscription_id act subscription plan ->
  exists s2 w2,
    activate_subscription e subscription_id act w = (Ok s2, w2)
    /\ s2.(sub_id) = subscription.(sub_id)
    /\ s2.(sub_userId) = subscription.(sub_userId)
    /\ s2.(sub_planId) = subscription.(sub_planId)
    /\ s2.(status) = match act.(act_status) with
                     | Some st => ReqStatus_value st
                     | None => subscription.(status)
                     end
    /\ w2.(db).(users) = w.(db).(users)
    /\ w2.(db).(plans) = w.(db).(plans)
    /\ w2.(db).(subscriptions)
       = replace_by (fun x => oid_eqb x.(sub_id) subscription.(sub_id)) s2
           w.(db).(subscriptions).
Proof.
  intros ((sid & Hs & Hget) & Hplan & Hauth).
  unfold activate_subscription, router_guard, try_except, parse_oid,
    apply_status, save_subscription, bind, utcnow, get_db, put_db, ret, raise.
  rewrite Hs, Hget, Hplan, Hauth.
  destruct (act_status act) as [[| | |]|]; cbn [db tick];
    eexists; eexists; (split; [reflexivity|]);
    cbn [set_subscription sub_id sub_userId sub_planId status db users plans
         subscriptions ReqStatus_value];
    repeat split.
Qed.

Section WithDigest.

Variable sha256_hexdigest : string -> string.

(** X20. A plan can be subscribed to once and for all: after
    activate_subscription has set a subscription to any status, 'Cancelled'
    and 'Expired' included, subscribe_to_plan by the same user for the same
    plan still answers HTTP 400 "already subscribed" and stores nothing. *)
Theorem ended_subscription_blocks_resubscription
    e w subscription_id act subscription plan request user :
  may_activate w subscription_id act subscription plan ->
  may_subscribe w request user plan ->
  subscription.(sub_userId) = user.(user_id) ->
  exists s2 w2,
    activate_subscription e subscription_id act w = (Ok s2, w2)
    /\ s2.(status) = match act.(act_status) with
                     | Some st => ReqStatus_value st
                     | None => subscription.(status)
                     end
    /\ forall e',
         subscribe_to_plan sha256_hexdigest e' request w2
         = (Raise already_subscribed, w2).
Proof.
  intros Hact Hmay Huser.
  destruct (activate_runs e w subscription_id act subscription plan Hact)
    as (s2 & w2 & Hrun & Hid & Hu & Hp & Hst & Husers & Hplans & Hsubs).
  exists s2, w2. split; [exact Hrun|]. split; [exact Hst|].
  intros e'.
  destruct Hact as ((sid & Hs & Hget) & Hplan & _).
  apply (subscribe_to_plan_duplicate sha256_hexdigest e' w2 request user plan).
  - destruct Hmay as ((uid & Hpu & Hgu) & Hreg & (pid & Hpp & Hgp) & Hactive).
    split; [|split; [exact Hreg|split; [|exact Hactive]]].
    + exists uid. split; [exact Hpu|].
      unfold User_get in *. now rewrite Husers.
    + exists pid. split; [exact Hpp|].
      unfold SubscriptionPlan_get in *. now rewrite Hplans.
  - exists s2. split; [|split].
    + rewrite Hsubs. apply in_replace_by with (y := subscription).
      unfold UserSubscription_get in Hget.
      now rewrite (sub_id_of_get _ _ _ Hget).
    + now rewrite Hu.
    + rewrite Hp. symmetry. exact (plan_id_of_get _ _ _ Hplan).
Qed.

(** X21. A plan its owner has deactivated takes no new subscriber and is
    no longer listed: after update_plan with isActive = false by the owner,
    subscribe_to_plan for that plan answers HTTP 404, and get_mess_plans
    lists no plan with that id. *)
Theorem deactivated_plan_is_closed
    e w plan_id_arg upd plan request uid user mess_id_arg :
  existing_plan w plan_id_arg plan ->
  owns_plan w upd plan ->
  upd.(upd_isActive) = Some false ->
  NoDup (map plan_id w.(db).(plans)) ->
  PydanticObjectId request.(req_userId) = Some uid ->
  User_get w.(db) uid = Some user ->
  is_regular_user user = true ->
  PydanticObjectId request.(req_planId) = Some plan.(plan_id) ->
  exists stored w1,
    update_plan e plan_id_arg upd w = (Ok stored, w1)
    /\ stored.(plan_isActive) = false
    /\ (forall e',
          subscribe_to_plan sha256_hexdigest e' request w1
          = (Raise (HTTPException 404 "Plan not found or inactive"), w1))
    /\ (forall listed w2,
          get_mess_plans mess_id_arg w1 = (Ok listed, w2) ->
          forall p, In p listed -> p.(plan_id) <> plan.(plan_id)).
Proof.
  intros Hex Hown Hoff Hnd Hu Huser Hreg Hp.
  destruct (update_plan_owner e w plan_id_arg upd plan Hex Hown) as [Hrun Hget].
  exists (updated_plan upd plan (e.(clock) w.(tick))). eexists.
  split; [exact Hrun|].
  assert (Hinactive : (updated_plan upd plan (e.(clock) w.(tick))).(plan_isActive)
                      = false).
  { cbn [updated_plan plan_isActive]. now rewrite Hoff. }
  split; [exact Hinactive|]. split.
  - intros e'.
    unfold subscribe_to_plan, router_guard, try_except, parse_oid,
      bind, get_db, ret, raise.
    rewrite Hu, Hp. cbn [db tick].
    assert (Huser' : User_get (with_plan w.(db)
                                 (updated_plan upd plan (e.(clock) w.(tick)))) uid
                     = Some user) by exact Huser.
    rewrite Huser', Hreg. cbn [negb]. rewrite Hget, Hinactive. reflexivity.
  - intros listed w2 Hlist p Hin Hsame.
    unfold get_mess_plans, try_except, parse_oid, bind, get_db, ret, raise in Hlist.
    destruct (PydanticObjectId mess_id_arg) as [mess|]; [|discriminate].
    inversion Hlist; subst listed w2. clear Hlist.
    apply filter_In in Hin. destruct Hin as [Hin Hactive].
    apply andb_true_iff in Hactive. destruct Hactive as [_ Hactive].
    cbn [db with_plan plans] in Hin.
    rewrite (PlanRouterProps.replace_by_unique plan_id _ _ _ Hnd) in Hin.
    apply in_map_iff in Hin. destruct Hin as (y & Hy & _).
    cbn [updated_plan plan_id] in Hy.
    destruct (oid_eqb (plan_id y) (plan_id plan)) eqn:Hk.
    + subst p. rewrite Hinactive in Hactive. discriminate.
    + subst p. apply String.eqb_neq in Hk. contradiction.
Qed.

End WithDigest.

End LifecycleProps.

(* ------------------------------------------------------------------ *)
(** ** Worked scenarios: the theorems above at concrete inputs, and the
       inputs at which the claims they amend fail *)

Module Scenario.
Import SubscriptionRouter SubscribeProps PlanProps.

Definition asha_id : string := "507f1f77bcf86cd799439011".
Definition owner_id : string := "507f1f77bcf86cd799439012".
Definition weekly_id : string := "65a1b2c3d4e5f60718293a4b".
Definition sub_hex : string := "65a1b2c3d4e5f60718293a60".
Definition pass_hex : string := "65a1b2c3d4e5f60718293a70".

Definition asha : User :=
  {| user_id := asha_id; username := "asha"; email := "asha@example.com";
     password := "$2b$10$abcdefghijklmnopqrstuv"; Login_Role := USER;
     UserID := 1699123456000;
     user_created_at := Some 1699123456000000;
     user_updated_at := Some 1699123456000000 |}.

Definition owner : User :=
  {| user_id := owner_id; username := "golden"; email := "golden@example.com";
     password := "$2b$10$abcdefghijklmnopqrstuv"; Login_Role := MESS_OWNER;
     UserID := 1699123457000;
     user_created_at := Some 1699123457000000;
     user_updated_at := Some 1699123457000000 |}.

Definition weekly : SubscriptionPlan :=
  {| plan_id := weekly_id; plan_messId := owner_id; planName := "Weekly veg";
     duration := Weekly; plan_mealType := Veg; price := 700%Q;
     description := "Seven days of vegetarian meals"; plan_isActive := true;
     plan_created_at := Some 1699200000000000;
     plan_updated_at := Some 1699200000000000 |}.

(** Users and one plan; nobody has subscribed yet. *)
Definition fresh_db : Db :=
  {| users := [asha; owner]; plans := [weekly]; subscriptions := [];
     mealpasses := []; checkins := [] |}.

Definition fresh_world : World := {| db := fresh_db; tick := 0 |}.

Definition drawn_ids : list string :=
  [ "65a1b2c3d4e5f60718293b00"; "65a1b2c3d4e5f60718293b01";
    "65a1b2c3d4e5f60718293b02"; "65a1b2c3d4e5f60718293b03";
    "65a1b2c3d4e5f60718293b04"; "65a1b2c3d4e5f60718293b05";
    "65a1b2c3d4e5f60718293b06"; "65a1b2c3d4e5f60718293b07";
    "65a1b2c3d4e5f60718293b08"; "65a1b2c3d4e5f60718293b09" ].

(** A clock that advances one millisecond per reading, from
    2023-11-14 22:13:20 UTC. *)
Definition ticking (n : nat) : datetime := 1700000000000000 + Z.of_nat n * 1000.

Definition calm : Env :=
  {| clock := ticking;
     new_oid := fun n => nth n drawn_ids "65a1b2c3d4e5f60718293bff";
     local_timestamp := fun t => t / 1000000;
     pass_block_raises := fun _ => false |}.

(** The same environment, in which the write of the meal pass raises. *)
Definition faulty : Env :=
  {| clock := ticking;
     new_oid := fun n => nth n drawn_ids "65a1b2c3d4e5f60718293bff";
     local_timestamp := fun t => t / 1000000;
     pass_block_raises := fun _ => true |}.

(** A stand-in for SHA-256 with the length of a hexdigest. *)
Definition toy_digest (s : string) : string :=
  "9f86d081884c7d659a2feaa0c55ad015a3bf4f1b2b0b822cd15d6c15b0f00a08".

Definition asha_subscribes : SubscribeToPlanRequest :=
  {| req_planId := weekly_id; req_userId := asha_id |}.

Lemma asha_may_subscribe : may_subscribe fresh_world asha_subscribes asha weekly.
Proof.
  split; [|split; [|split]].
  - exists asha_id. split; reflexivity.
  - reflexivity.
  - exists weekly_id. split; reflexivity.
  - reflexivity.
Defined.

Lemma asha_not_subscribed : ~ prior_subscription fresh_world asha weekly.
Proof. intros (s & Hin & _). exact Hin. Defined.

(** C1 fails where the write of the meal pass raises: the call passes
    every guard and answers with the subscription, and no pass is stored. *)
Lemma subscribe_without_pass :
  may_subscribe fresh_world asha_subscribes asha weekly
  /\ ~ prior_subscription fresh_world asha weekly
  /\ fst (subscribe_to_plan toy_digest faulty asha_subscribes fresh_world)
     = Ok (new_subscription faulty fresh_world asha weekly)
  /\ ~ issues_subscription_and_pass toy_digest faulty fresh_world
         asha_subscribes asha weekly.
Proof.
  split; [exact asha_may_subscribe|]. split; [exact asha_not_subscribed|].
  split; [reflexivity|].
  intros (sub & pass & w' & Hrun & _ & _ & _ & _ & _ & _ & Hin & _).
  rewrite (subscribe_to_plan_run toy_digest faulty fresh_world asha_subscribes
             asha weekly asha_may_subscribe asha_not_subscribed) in Hrun.
  vm_compute in Hrun. inversion Hrun; subst. exact Hin.
Qed.

Lemma subscribe_issues_pass_witness :
  may_subscribe fresh_world asha_subscribes asha weekly
  /\ ~ prior_subscription fresh_world asha weekly
  /\ calm.(pass_block_raises) (7 + fresh_world.(tick))%nat = false
  /\ issues_subscription_and_pass toy_digest calm fresh_world
       asha_subscribes asha weekly.
Proof.
  split; [exact asha_may_subscribe|]. split; [exact asha_not_subscribed|].
  split; [reflexivity|].
  apply (subscribe_issues_pass toy_digest calm fresh_world asha_subscribes asha weekly).
  - intros s. reflexivity.
  - exact asha_may_subscribe.
  - exact asha_not_subscribed.
  - reflexivity.
Defined.

(** Asha's subscription, as a second request finds it. *)
Definition asha_subscription : UserSubscription :=
  {| sub_id := sub_hex; sub_userId := asha_id; sub_planId := weekly_id;
     startDate := 1699900000000000; endDate := 1700504800000000;
     status := Pending; paymentId := None; paymentStatus := PaymentPending;
     cancellationReason := None;
     sub_created_at := Some 1699900000000001;
     sub_updated_at := Some 1699900000000002 |}.

Definition asha_pass : MealPass :=
  {| pass_id := pass_hex; pass_userId := asha_id; subscriptionId := sub_hex;
     pass_messId := owner_id; qrCode := toy_digest "";
     isActive := true; isBlocked := false; blockReason := None;
     validFrom := Some 1699900000000000; validTill := Some 1700504800000000;
     pass_created_at := Some 1699900000000005;
     pass_updated_at := Some 1699900000000006 |}.

Definition subscribed_db : Db :=
  {| users := [asha; owner]; plans := [weekly];
     subscriptions := [asha_subscription]; mealpasses := [asha_pass];
     checkins := [] |}.

Definition subscribed_world : World := {| db := subscribed_db; tick := 0 |}.

Lemma asha_may_subscribe_again :
  may_subscribe subscribed_world asha_subscribes asha weekly.
Proof.
  split; [|split; [|split]].
  - exists asha_id. split; reflexivity.
  - reflexivity.
  - exists weekly_id. split; reflexivity.
  - reflexivity.
Defined.

Lemma duplicate_subscription_rejected_witness :
  may_subscribe subscribed_world asha_subscribes asha weekly
  /\ ((exists w', subscribe_to_plan toy_digest calm asha_subscribes subscribed_world
                  = (Raise already_subscribed, w'))
      <-> prior_subscription subscribed_world asha weekly)
  /\ (forall w', subscribe_to_plan toy_digest calm asha_subscribes subscribed_world
                 = (Raise already_subscribed, w') -> w' = subscribed_world).
Proof.
  split; [exact asha_may_subscribe_again|].
  exact (duplicate_subscription_rejected toy_digest calm subscribed_world
           asha_subscribes asha weekly asha_may_subscribe_again).
Defined.

Lemma pass_failure_is_swallowed_witness :
  may_subscribe fresh_world asha_subscribes asha weekly
  /\ ~ prior_subscription fresh_world asha weekly
  /\ faulty.(pass_block_raises) (7 + fresh_world.(tick))%nat = true
  /\ exists sub w',
      subscribe_to_plan toy_digest faulty asha_subscribes fresh_world = (Ok sub, w')
      /\ In sub w'.(db).(subscriptions)
      /\ w'.(db).(mealpasses) = fresh_world.(db).(mealpasses)
      /\ (forall p, In p w'.(db).(mealpasses) -> p.(subscriptionId) <> sub.(sub_id))
      /\ (forall e', (forall n, e'.(clock) n = faulty.(clock) n) ->
                     (forall n, e'.(new_oid) n = faulty.(new_oid) n) ->
                     fst (subscribe_to_plan toy_digest e' asha_subscribes fresh_world)
                     = Ok sub).
Proof.
  split; [exact asha_may_subscribe|]. split; [exact asha_not_subscribed|].
  split; [reflexivity|].
  apply (pass_failure_is_swallowed toy_digest faulty fresh_world asha_subscribes
           asha weekly).
  - exact asha_may_subscribe.
  - exact asha_not_subscribed.
  - reflexivity.
  - intros p Hin. destruct Hin.
Defined.

(** *** update_plan *)

Definition rename_plan (userId : string) : UpdatePlanRequest :=
  {| upd_planName := Some "Weekly veg (new)"; upd_duration := None;
     upd_mealType := None; upd_price := Some 750%Q; upd_description := None;
     upd_isActive := None; upd_userId := userId |}.

Lemma weekly_exists : existing_plan fresh_world weekly_id weekly.
Proof. exists weekly_id. split; reflexivity. Defined.

(** C6 fails where userId is no ObjectId text: the plan exists, the
    requester is not its owner, and the call raises HTTP 500, not 403. *)
Lemma update_plan_malformed_user :
  existing_plan fresh_world weekly_id weekly
  /\ update_plan calm weekly_id (rename_plan "golden") fresh_world
     = (Raise (HTTPException 500 "Internal server error"), fresh_world)
  /\ ~ update_plan_claim calm fresh_world weekly_id (rename_plan "golden") weekly.
Proof.
  split; [exact weekly_exists|]. split; [reflexivity|].
  intros [_ H].
  assert (Hno : ~ owns_plan fresh_world (rename_plan "golden") weekly).
  { intros (uid & u & Hp & _). vm_compute in Hp. discriminate. }
  specialize (H Hno). vm_compute in H. discriminate.
Qed.

Lemma update_plan_by_owner_only_witness :
  existing_plan fresh_world weekly_id weekly
  /\ PydanticObjectId (rename_plan owner_id).(upd_userId) <> None
  /\ update_plan_claim calm fresh_world weekly_id (rename_plan owner_id) weekly.
Proof.
  split; [exact weekly_exists|].
  assert (Hwf : PydanticObjectId (rename_plan owner_id).(upd_userId) <> None).
  { vm_compute. discriminate. }
  split; [exact Hwf|].
  exact (proj1 (update_plan_by_owner_only calm fresh_world weekly_id
                  (rename_plan owner_id) weekly weekly_exists) Hwf).
Defined.

(** *** activate_subscription *)

Definition activate_request : UpdateSubscriptionRequest :=
  {| act_status := Some ReqActive; act_messId := Some owner_id |}.

Lemma owner_may_activate :
  may_activate subscribed_world sub_hex activate_request asha_subscription weekly.
Proof.
  split; [|split].
  - exists sub_hex. split; reflexivity.
  - reflexivity.
  - reflexivity.
Defined.

Lemma activation_leaves_passes_witness :
  may_activate subscribed_world sub_hex activate_request asha_subscription weekly
  /\ activate_request.(act_status) = Some ReqActive
  /\ exists s2 w2,
      activate_subscription calm sub_hex activate_request subscribed_world
      = (Ok s2, w2)
      /\ s2.(startDate) = 1700000000000000
      /\ s2.(endDate) = 1700604800000000
      /\ w2.(db).(mealpasses) = [asha_pass]
      /\ asha_pass.(validFrom) <> Some s2.(startDate).
Proof.
  split; [exact owner_may_activate|]. split; [reflexivity|].
  destruct (activation_leaves_passes calm subscribed_world sub_hex activate_request
              asha_subscription weekly owner_may_activate eq_refl)
    as (_ & s2 & w2 & Hrun & _ & Hs & He & _ & Hm & Hp).
  exists s2, w2. split; [exact Hrun|].
  split; [exact Hs|]. split; [rewrite He, Hs; reflexivity|].
  split; [exact Hm|].
  rewrite Hs. discriminate.
Defined.

(** *** validate_meal_pass *)

Import MealpassRouter MealpassProps.

Definition active_subscription : UserSubscription :=
  {| sub_id := sub_hex; sub_userId := asha_id; sub_planId := weekly_id;
     startDate := 1699900000000000; endDate := 1700504800000000;
     status := Active; paymentId := None; paymentStatus := PaymentCompleted;
     cancellationReason := None;
     sub_created_at := Some 1699900000000001;
     sub_updated_at := Some 1699950000000000 |}.


Definition dated_world : World :=
  {| db := {| users := [asha; owner]; plans := [weekly];
              subscriptions := [active_subscription];
              mealpasses := [asha_pass]; checkins := [] |};
     tick := 0 |}.


Definition scan : ValidateMealPassRequest := {| req_qrCode := toy_digest "" |}.




(** *** create_checkin *)

Import CheckinRouter CheckinProps.



Definition lunch_request : CreateCheckInRequest :=
  {| req_mealPassId := pass_hex; req_mealType := lunch |}.


Definition in_flight (payload : CreateCheckInRequest)
    (r : Result CheckinResponse) : InFlight CreateCheckInRequest CheckinTask :=
  {| request := payload; suspended := Returned r |}.



(** Midnight between 2023-11-14 and 2023-11-15 UTC. *)
Definition midnight : datetime := 1700006400000000.


(** A clock that advances one millisecond per reading, from half a
    millisecond before midnight. *)
Definition near_midnight : Env :=
  {| clock := fun n => midnight - 500 + Z.of_nat n * 1000;
     new_oid := fun n => nth n drawn_ids "65a1b2c3d4e5f60718293bff";
     local_timestamp := fun t => t / 1000000;
     pass_block_raises := fun _ => false |}.





Lemma two_clashing (a b : CheckIn) : clash a b -> ~ once_per_day [a; b].
Proof.
  intros Hclash Honce. inversion Honce as [|c l Hc Hl]; subst.
  apply (Hc b); [now left|exact Hclash].
Qed.




Lemma asha_passes_guards :
  passes_guards dated_world lunch_request asha_pass active_subscription.
Proof.
  split; [exists pass_hex; split; reflexivity|].
  repeat split; reflexivity.
Defined.


(** Between the reading of the clock and find_one, too, no other request
    may insert. Here each request runs from its find_one to its insert
    without the other; but the first reads the clock before midnight, the
    second reads it and inserts after midnight, and the first then looks
    for a check-in of yesterday and dates its own today. *)
Definition midnight_race : list (Event CreateCheckInRequest) :=
  [Arrives lunch_request; Arrives lunch_request;
   Resumes 0; Resumes 0;
   Resumes 1; Resumes 1; Resumes 1; Resumes 1;
   Resumes 0; Resumes 0].

Example second_lunch_after_midnight :
  one_at_a_time near_midnight midnight_race [] dated_world = false
  /\ exists c1 c2 w',
       checkin_loop near_midnight midnight_race [] dated_world
       = ([in_flight lunch_request (Ok (Created c2));
           in_flight lunch_request (Ok (Created c1))], w')
       /\ w'.(db).(checkins) = [c1; c2]
       /\ map checkin_created_at [c1; c2]
          = [Some (midnight + 1500); Some (midnight + 4500)]
       /\ ~ once_per_day [c1; c2].
Proof.
  split; [reflexivity|].
  eexists; eexists; eexists. split; [reflexivity|]. split; [reflexivity|].
  split; [reflexivity|].
  apply two_clashing. split; [reflexivity|]. split; [reflexivity|].
  eexists; eexists. split; [reflexivity|]. split; reflexivity.
Qed.





(** *** signup *)

Import AuthService AuthProps.

(** Stand-ins for bcrypt, the JWT encoder and the e-mail check, with the
    one property the theorem uses: a bcrypt hash has 60 characters. *)
Definition toy_salt (n : nat) : string := "$2b$10$N9qo8uLOickgx2ZMRZoMye".

Definition toy_hashpw (plain salt : string) : string :=
  "$2b$10$N9qo8uLOickgx2ZMRZoMyeIjZAgcfl7p92ldGxad68LJZdL17lhWy".

Definition toy_jwt (id role : string) (exp iat : datetime) : string :=
  id ++ "." ++ role.

Fixpoint has_at (s : string) : bool :=
  match s with
  | EmptyString => false
  | String c r => Ascii.eqb c "@" || has_at r
  end.

(** A stand-in for the normal form EmailStr stores: the text with what
    follows its first "@" in lower case. *)
Fixpoint domain_lowered (s : string) : string :=
  match s with
  | EmptyString => EmptyString
  | String c r => if Ascii.eqb c "@" then String c (lower r)
                  else String c (domain_lowered r)
  end.

Definition toy_signup_claim (e : Env) (w : World) (u m p : string) (r : LoginRole)
    : Prop :=
  signup_claim toy_salt toy_hashpw toy_jwt has_at domain_lowered
         (fun t => t / 1000) 24 e w u m p r.

Lemma no_such_email m :
  m <> "asha@example.com" -> m <> "golden@example.com" ->
  ~ email_taken fresh_world m.
Proof.
  intros H1 H2 (u & Hin & He). cbn in Hin.
  destruct Hin as [<-|[<-|[]]]; cbn in He; congruence.
Defined.

Lemma no_such_username n :
  n <> "asha" -> n <> "golden" -> ~ username_taken fresh_world n.
Proof.
  intros H1 H2 (u & Hin & He). cbn in Hin.
  destruct Hin as [<-|[<-|[]]]; cbn in He; congruence.
Defined.

(** C3 fails on a two-character username: the four fields are non-empty,
    the password is short enough, neither the e-mail nor the username is
    taken, and the User document is refused, so nothing is inserted. *)
Lemma signup_short_username :
  all_fields "ab" "ab@example.com" "secret12" USER = true
  /\ (String.length "secret12" <= 128)%nat
  /\ signup toy_salt toy_hashpw toy_jwt has_at domain_lowered
         (fun t => t / 1000) 24 calm
       "ab" "ab@example.com" "secret12" USER fresh_world
     = (Raise PydanticValidationError, {| db := fresh_db; tick := 4 |})
  /\ ~ toy_signup_claim calm fresh_world "ab" "ab@example.com" "secret12" USER.
Proof.
  split; [reflexivity|]. split; [cbn; lia|]. split; [reflexivity|].
  intros (_ & _ & _ & H).
  assert (He : ~ email_taken fresh_world "ab@example.com")
    by (apply no_such_email; discriminate).
  assert (Hu : ~ username_taken fresh_world "ab")
    by (apply no_such_username; discriminate).
  destruct (H He Hu) as (w' & Hr & _). vm_compute in Hr. discriminate.
Qed.

Lemma signup_rejects_duplicates_witness :
  all_fields "bela" "bela@example.com" "secret12" USER = true
  /\ (String.length "secret12" <= 128)%nat
  /\ (3 <= String.length "bela" <= 50)%nat
  /\ has_at "bela@example.com" = true
  /\ toy_signup_claim calm fresh_world "bela" "bela@example.com" "secret12" USER.
Proof.
  split; [reflexivity|]. split; [cbn; lia|]. split; [cbn; lia|].
  split; [reflexivity|].
  apply (signup_rejects_duplicates toy_salt toy_hashpw toy_jwt has_at domain_lowered
           (fun t => t / 1000) 24 calm fresh_world "bela" "bela@example.com"
           "secret12" USER).
  - intros p s. reflexivity.
  - reflexivity.
  - cbn. lia.
  - cbn. lia.
  - reflexivity.
Defined.

(** *** calculate_average_rating, with rationals standing for floats *)

Import MessModel MessProps.

Fixpoint digits_value (s : string) (acc : Z) : Z :=
  match s with
  | EmptyString => acc
  | String c r => digits_value r (acc * 10 + (Z.of_nat (nat_of_ascii c) - 48))
  end.

Fixpoint fraction_length (s : string) : nat :=
  match s with
  | EmptyString => 0
  | String c r => if Ascii.eqb c "." then String.length r else fraction_length r
  end.

(** The value of a numeric text as a rational. *)
Definition q_of_text (s : string) : Q :=
  Qmake (digits_value (replace_first_dot s) 0)
        (Z.to_pos (10 ^ Z.of_nat (fraction_length s))).

(** float() on the texts that reach it: the value of a text of decimal
    digits with at most one point, ValueError on any other. *)
Definition q_float (s : string) : option Q :=
  if digits_with_at_most_one_point s then Some (q_of_text s) else None.



Definition q_average (m : Mess Q) : Q := exact_average q_float m.

(** The one-character texts of the superscript digits two, three and one
    (U+00B2, U+00B3, U+00B9). *)
Definition superscript_two : string := String (ascii_of_nat 178) EmptyString.
Definition superscript_three : string := String (ascii_of_nat 179) EmptyString.
Definition superscript_one : string := String (ascii_of_nat 185) EmptyString.

Definition mess_with (rs : list (Rating Q)) : Mess Q :=
  {| mess_id := "64b7f0c2a1d3e4f567890abc"; Mess_ID := 1699123456;
     Mess_Name := "Golden Mess"; Mobile_No := None; Capacity := Some 100;
     Address := None; Owner_ID := owner_id; Description := Some "";
     Ratings := rs; RatedBy := [];
     mess_UserID := 1699123456; Image := None;
     mess_created_at := None; mess_updated_at := None |}.

Example numeric_texts :
  map numeric_text ["4.5"; "5"; "5."; ".5"; "1.2.3"; "."; ""; "4,5"; "-3"; "abc"]
  = [true; true; true; true; false; false; false; false; false; false].
Proof. reflexivity. Qed.

Example average_of_no_rating : q_average (mess_with []) = 0%Q.
Proof. reflexivity. Qed.

Example average_of_unusable_ratings :
  q_average (mess_with [RStr "good"; ROther; RStr "1.2.3"]) = 0%Q.
Proof. reflexivity. Qed.

Example average_of_mixed_ratings :
  Qeq (q_average (mess_with [RInt 5; RStr "4.5"; RStr "n/a"; RInt 3; ROther]))
      (25 # 6).
Proof. vm_compute. reflexivity. Qed.

(** The superscript digits pass the guard of the loop, float() raises on
    them, and the except clause leaves them out. *)
Example superscripts_pass_the_guard :
  map numeric_text [superscript_two; superscript_three; superscript_one;
                    String.append "4" superscript_two]
  = [true; true; true; true]
  /\ map q_float [superscript_two; superscript_three; superscript_one;
                  String.append "4" superscript_two]
     = [None; None; None; None].
Proof. split; reflexivity. Qed.

Example average_skips_superscripts :
  Qeq (q_average (mess_with [RStr superscript_two; RInt 4; RStr "5."])) (9 # 2)
  /\ q_average (mess_with [RStr superscript_two; RStr superscript_one]) = 0%Q.
Proof. split; [vm_compute|]; reflexivity. Qed.


End Scenario.

(* ------------------------------------------------------------------ *)
(** ** Worked scenarios for the plan, pass, statistics, sign-in and rating
       properties *)

Module MoreScenarios.
Import SubscriptionRouter PlanRouter MealpassRouter CheckinRouter StatsRouter.
Import SubscribeProps PlanProps MealpassProps CheckinProps.
Import PlanRouterProps FlowProps StatsProps ListingProps LifecycleProps.
Import Scenario.

(** *** create_plan, update_plan, delete_plan *)

Definition owner_id_upper : string := "507F1F77BCF86CD799439012".

Definition monthly_veg (userId : string) : CreatePlanRequest :=
  {| cr_planName := "Monthly veg"; cr_duration := Monthly; cr_mealType := Veg;
     cr_price := 2500%Q; cr_description := "Thirty days of vegetarian meals";
     cr_userId := userId |}.

Lemma owner_creates_plan :
  creates_plan calm fresh_world (monthly_veg owner_id) owner_id owner.
Proof. repeat split; reflexivity. Defined.

Lemma owner_creates_plan_in_capitals :
  creates_plan calm fresh_world (monthly_veg owner_id_upper) owner_id owner.
Proof. repeat split; reflexivity. Defined.

Lemma create_plan_only_for_owners_witness :
  exists uid u,
    PydanticObjectId (monthly_veg owner_id).(cr_userId) = Some uid
    /\ User_get fresh_world.(db) uid = Some u
    /\ is_mess_owner u = true
    /\ (created_plan calm fresh_world (monthly_veg owner_id) owner_id).(plan_messId)
       = uid
    /\ (created_plan calm fresh_world (monthly_veg owner_id) owner_id).(plan_isActive)
       = true
    /\ with_new_plan fresh_world.(db)
         (created_plan calm fresh_world (monthly_veg owner_id) owner_id)
       = with_new_plan fresh_world.(db)
           (created_plan calm fresh_world (monthly_veg owner_id) owner_id).
Proof.
  exact (proj1 (create_plan_only_for_owners calm (monthly_veg owner_id) fresh_world)
           (created_plan calm fresh_world (monthly_veg owner_id) owner_id)
           {| db := with_new_plan fresh_world.(db)
                      (created_plan calm fresh_world (monthly_veg owner_id) owner_id);
              tick := 3 |}
           eq_refl).
Defined.

Lemma owner_updates_created_plan_witness :
  creates_plan calm fresh_world (monthly_veg owner_id)
    (monthly_veg owner_id).(cr_userId) owner
  /\ (rename_plan owner_id).(upd_userId) = (monthly_veg owner_id).(cr_userId)
  /\ exists plan w1,
       create_plan calm (monthly_veg owner_id) fresh_world = (Ok plan, w1)
       /\ plan_modified calm w1 (rename_plan owner_id) plan
            (update_plan calm (oid_str plan.(plan_id)) (rename_plan owner_id) w1).
Proof.
  split; [exact owner_creates_plan|]. split; [reflexivity|].
  exact (owner_updates_created_plan calm fresh_world (monthly_veg owner_id) owner
           (rename_plan owner_id) owner_creates_plan eq_refl).
Defined.

Lemma owner_locked_out_by_spelling_witness :
  creates_plan calm fresh_world (monthly_veg owner_id_upper) owner_id owner
  /\ owner_id <> (monthly_veg owner_id_upper).(cr_userId)
  /\ exists plan w1,
       create_plan calm (monthly_veg owner_id_upper) fresh_world = (Ok plan, w1)
       /\ update_plan calm (oid_str plan.(plan_id)) (rename_plan owner_id_upper) w1
          = (Raise not_your_plan, w1).
Proof.
  assert (Hne : owner_id <> (monthly_veg owner_id_upper).(cr_userId)).
  { intros H. vm_compute in H. discriminate. }
  split; [exact owner_creates_plan_in_capitals|]. split; [exact Hne|].
  exact (owner_locked_out_by_spelling calm fresh_world (monthly_veg owner_id_upper)
           owner_id owner (rename_plan owner_id_upper)
           owner_creates_plan_in_capitals Hne eq_refl).
Defined.

Lemma weekly_has_subscriber : existing_plan subscribed_world weekly_id weekly.
Proof. exists weekly_id. split; reflexivity. Defined.

Lemma one_subscription : NoDup (map sub_id subscribed_world.(db).(subscriptions)).
Proof. constructor; [intros H; exact H|constructor]. Defined.

Lemma one_plan : NoDup (map plan_id subscribed_world.(db).(plans)).
Proof. constructor; [intros H; exact H|constructor]. Defined.

Lemma one_plan_no_subscriber : NoDup (map plan_id fresh_world.(db).(plans)).
Proof. constructor; [intros H; exact H|constructor]. Defined.


Lemma no_subscription_to_deleted_plan_witness :
  existing_plan fresh_world weekly_id weekly
  /\ oid_str weekly.(plan_messId) = owner_id
  /\ NoDup (map plan_id fresh_world.(db).(plans))
  /\ PydanticObjectId asha_subscribes.(req_userId) = Some asha_id
  /\ User_get fresh_world.(db) asha_id = Some asha
  /\ is_regular_user asha = true
  /\ PydanticObjectId asha_subscribes.(req_planId) = Some weekly.(plan_id)
  /\ exists w',
       delete_plan calm weekly_id owner_id fresh_world = (Ok plan_deleted_message, w')
       /\ subscribe_to_plan toy_digest calm asha_subscribes w'
          = (Raise (HTTPException 404 "Plan not found or inactive"), w').
Proof.
  split; [exact weekly_exists|]. split; [reflexivity|].
  split; [exact one_plan_no_subscriber|].
  split; [reflexivity|]. split; [reflexivity|]. split; [reflexivity|].
  split; [reflexivity|].
  exact (no_subscription_to_deleted_plan toy_digest calm calm fresh_world weekly_id
           owner_id weekly asha_subscribes asha_id asha weekly_exists eq_refl
           one_plan_no_subscriber eq_refl eq_refl eq_refl eq_refl).
Defined.

Lemma removed_subscription_stays_removed_witness :
  existing_plan subscribed_world weekly_id weekly
  /\ NoDup (map plan_id subscribed_world.(db).(plans))
  /\ NoDup (map sub_id subscribed_world.(db).(subscriptions))
  /\ UserSubscription_get subscribed_world.(db) sub_hex = Some asha_subscription
  /\ exists w' s',
       delete_plan calm weekly_id owner_id subscribed_world
       = (Ok plan_deleted_message, w')
       /\ UserSubscription_get w'.(db) sub_hex = Some s'
       /\ s'.(status) = PlanRemoved
       /\ forall e' payload,
            activate_subscription e' sub_hex payload w'
            = (Raise (HTTPException 404 "Plan not found"), w').
Proof.
  split; [exact weekly_has_subscriber|]. split; [exact one_plan|].
  split; [exact one_subscription|]. split; [reflexivity|].
  exact (removed_subscription_stays_removed calm subscribed_world weekly_id owner_id
           weekly sub_hex sub_hex asha_subscription weekly_has_subscriber eq_refl
           one_plan one_subscription eq_refl eq_refl eq_refl).
Defined.

(** *** From subscribe_to_plan to the scan of the pass *)

Lemma asha_subscribes_first :
  subscribes toy_digest calm fresh_world asha_subscribes asha weekly.
Proof.
  split; [exact asha_may_subscribe|]. split; [exact asha_not_subscribed|].
  repeat split; reflexivity.
Defined.

Lemma pending_pass_is_refused_witness :
  subscribes toy_digest calm fresh_world asha_subscribes asha weekly
  /\ exists sub w1,
       subscribe_to_plan toy_digest calm asha_subscribes fresh_world = (Ok sub, w1)
       /\ sub.(status) = Pending
       /\ (exists detail w2,
             validate_meal_pass calm asha_id
               (scan_of toy_digest calm fresh_world asha weekly) w1
             = (Raise (HTTPException 403 detail), w2))
       /\ create_checkin calm owner_id
            {| req_mealPassId := "65a1b2c3d4e5f60718293b07"; req_mealType := lunch |}
            w1
          = (Ok (JSONResponse 403 "Subscription is not active. Current status: Pending"),
             w1).
Proof.
  split; [exact asha_subscribes_first|].
  destruct (pending_pass_is_refused toy_digest calm fresh_world asha_subscribes asha
              weekly asha_subscribes_first)
    as (sub & w1 & Hrun & Hst & Hscan & Hcheckin).
  exists sub, w1. split; [exact Hrun|]. split; [exact Hst|]. split.
  - destruct (Hscan calm asha_id) as (detail & w2 & Hv & _).
    exists detail, w2. exact Hv.
  - apply Hcheckin. reflexivity.
Defined.

Lemma activated_pass_is_accepted_witness :
  subscribes toy_digest calm fresh_world asha_subscribes asha weekly
  /\ canonical (new_subscription calm fresh_world asha weekly).(sub_id)
  /\ activates activate_request weekly
  /\ calm.(clock) 0%nat <= calm.(clock) 10%nat
       <= end_date_for weekly.(duration) (calm.(clock) 0%nat)
  /\ exists sub w1 s2 w2 resp w3,
       subscribe_to_plan toy_digest calm asha_subscribes fresh_world = (Ok sub, w1)
       /\ activate_subscription calm (oid_str sub.(sub_id)) activate_request w1
          = (Ok s2, w2)
       /\ validate_meal_pass calm asha_id
            (scan_of toy_digest calm fresh_world asha weekly) w2
          = (Ok resp, w3)
       /\ resp.(valid) = true.
Proof.
  assert (Hwin : calm.(clock) 0%nat <= calm.(clock) 10%nat
                   <= end_date_for weekly.(duration) (calm.(clock) 0%nat)).
  { split; vm_compute; discriminate. }
  split; [exact asha_subscribes_first|]. split; [reflexivity|].
  split; [split; reflexivity|]. split; [exact Hwin|].
  destruct (activated_pass_is_accepted toy_digest calm fresh_world asha_subscribes
              asha weekly activate_request asha_id asha_subscribes_first eq_refl
              (conj eq_refl eq_refl) Hwin)
    as (sub & w1 & s2 & w2 & resp & w3 & H1 & H2 & H3 & H4 & _).
  exists sub, w1, s2, w2, resp, w3. auto.
Defined.

(** An environment whose clock starts after the window of asha_pass. *)
Definition late : Env :=
  {| clock := fun n => 1700600000000000 + Z.of_nat n * 1000;
     new_oid := fun n => nth n drawn_ids "65a1b2c3d4e5f60718293bff";
     local_timestamp := fun t => t / 1000000;
     pass_block_raises := fun _ => false |}.

Lemma activation_does_not_renew_pass_witness :
  may_activate subscribed_world sub_hex activate_request asha_subscription weekly
  /\ pass_with_qr subscribed_world.(db) scan.(req_qrCode) = Some asha_pass
  /\ 1700504800000000 < late.(clock) 2%nat
  /\ exists s2 w2,
       activate_subscription late sub_hex activate_request subscribed_world
       = (Ok s2, w2)
       /\ s2.(status) = Active
       /\ UserSubscription_get w2.(db) asha_pass.(subscriptionId) = Some s2
       /\ validate_meal_pass late asha_id scan w2
          = (Raise (HTTPException 403 "Meal pass has expired"),
             {| db := w2.(db); tick := S w2.(tick) |}).
Proof.
  assert (Hlate : 1700504800000000 < late.(clock) 2%nat) by reflexivity.
  split; [exact owner_may_activate|]. split; [reflexivity|]. split; [exact Hlate|].
  exact (activation_does_not_renew_pass late subscribed_world sub_hex activate_request
           asha_subscription weekly scan.(req_qrCode) asha_pass
           1699900000000000 1700504800000000 asha_id
           owner_may_activate eq_refl eq_refl eq_refl eq_refl eq_refl eq_refl eq_refl
           Hlate).
Defined.

Lemma no_checkin_yet :
  ~ checked_in_today dated_world.(db) asha_pass.(pass_id)
      lunch_request.(req_mealType) (late.(clock) dated_world.(tick)).
Proof. intros (c & t & Hin & _). exact Hin. Defined.

Lemma expired_pass_still_checks_in_witness :
  passes_guards dated_world lunch_request asha_pass active_subscription
  /\ pass_with_qr dated_world.(db) asha_pass.(qrCode) = Some asha_pass
  /\ 1700504800000000 < late.(clock) dated_world.(tick)
  /\ validate_meal_pass late asha_id {| req_qrCode := asha_pass.(qrCode) |} dated_world
     = (Raise (HTTPException 403 "Meal pass has expired"),
        {| db := dated_world.(db); tick := S dated_world.(tick) |})
  /\ exists c w',
       create_checkin late owner_id lunch_request dated_world = (Ok (Created c), w')
       /\ w'.(db).(checkins) = (dated_world.(db).(checkins) ++ [c])%list
       /\ c.(mealPassId) = asha_pass.(pass_id)
       /\ c.(checkin_status) = success.
Proof.
  assert (Hlate : 1700504800000000 < late.(clock) dated_world.(tick)) by reflexivity.
  split; [exact asha_passes_guards|]. split; [reflexivity|]. split; [exact Hlate|].
  exact (expired_pass_still_checks_in late dated_world owner_id lunch_request
           asha_pass active_subscription 1699900000000000 1700504800000000 asha_id
           asha_passes_guards no_checkin_yet eq_refl eq_refl eq_refl Hlate).
Defined.

(** *** get_today_stats *)

Lemma no_checkin_so_far :
  ~ checked_in_today dated_world.(db) asha_pass.(pass_id)
      lunch_request.(req_mealType) (calm.(clock) dated_world.(tick)).
Proof. intros (c & t & Hin & _). exact Hin. Defined.

Lemma checkin_shows_in_stats_witness :
  passes_guards dated_world lunch_request asha_pass active_subscription
  /\ PydanticObjectId owner_id = Some asha_pass.(pass_messId)
  /\ utc_day (calm.(clock) 1%nat) = utc_day (calm.(clock) 4%nat)
  /\ exists c w1 s0 s1,
       create_checkin calm asha_id lunch_request dated_world = (Ok (Created c), w1)
       /\ fst (get_today_stats calm owner_id
                 {| db := dated_world.(db); tick := w1.(tick) |}) = Ok s0
       /\ fst (get_today_stats calm owner_id w1) = Ok s1
       /\ s1 = count_meal s0 c
       /\ s1.(stat_lunch) = s0.(stat_lunch) + 1.
Proof.
  assert (Hday : utc_day (calm.(clock) 1%nat) = utc_day (calm.(clock) 4%nat))
    by reflexivity.
  split; [exact asha_passes_guards|]. split; [reflexivity|]. split; [exact Hday|].
  destruct (checkin_shows_in_stats calm dated_world asha_id lunch_request asha_pass
              active_subscription owner_id asha_pass.(pass_messId)
              asha_passes_guards no_checkin_so_far eq_refl Hday)
    as (c & w1 & s0 & s1 & Hrun & Hmeal & H0 & H1 & Hsame & _).
  exists c, w1, s0, s1.
  split; [exact Hrun|]. split; [exact H0|]. split; [exact H1|].
  split; [exact (Hsame eq_refl)|].
  rewrite (Hsame eq_refl). unfold count_meal. rewrite Hmeal. reflexivity.
Defined.

(** *** get_mess_plans *)

Lemma listed_plan_is_open_witness :
  get_mess_plans owner_id fresh_world = (Ok [weekly], fresh_world)
  /\ NoDup (map plan_id fresh_world.(db).(plans))
  /\ ~ prior_subscription fresh_world asha weekly
  /\ exists sub w1,
       subscribe_to_plan toy_digest calm asha_subscribes fresh_world = (Ok sub, w1)
       /\ sub.(sub_planId) = weekly.(plan_id)
       /\ sub.(sub_userId) = asha.(user_id)
       /\ sub.(status) = Pending
       /\ In sub w1.(db).(subscriptions).
Proof.
  split; [reflexivity|]. split; [exact one_plan_no_subscriber|].
  split; [exact asha_not_subscribed|].
  exact (listed_plan_is_open toy_digest calm fresh_world owner_id [weekly] weekly
           asha_subscribes asha_id asha eq_refl (or_introl eq_refl)
           one_plan_no_subscriber eq_refl eq_refl eq_refl eq_refl
           asha_not_subscribed).
Defined.

(** *** Subscriptions that have ended, plans that are closed *)

Definition cancel_request : UpdateSubscriptionRequest :=
  {| act_status := Some ReqCancelled; act_messId := Some owner_id |}.

Lemma owner_may_cancel :
  may_activate subscribed_world sub_hex cancel_request asha_subscription weekly.
Proof.
  split; [|split].
  - exists sub_hex. split; reflexivity.
  - reflexivity.
  - reflexivity.
Defined.

Lemma ended_subscription_blocks_resubscription_witness :
  may_activate subscribed_world sub_hex cancel_request asha_subscription weekly
  /\ may_subscribe subscribed_world asha_subscribes asha weekly
  /\ asha_subscription.(sub_userId) = asha.(user_id)
  /\ exists s2 w2,
       activate_subscription calm sub_hex cancel_request subscribed_world
       = (Ok s2, w2)
       /\ s2.(status) = Cancelled
       /\ subscribe_to_plan toy_digest calm asha_subscribes w2
          = (Raise already_subscribed, w2).
Proof.
  split; [exact owner_may_cancel|]. split; [exact asha_may_subscribe_again|].
  split; [reflexivity|].
  destruct (ended_subscription_blocks_resubscription toy_digest calm subscribed_world
              sub_hex cancel_request asha_subscription weekly asha_subscribes asha
              owner_may_cancel asha_may_subscribe_again eq_refl)
    as (s2 & w2 & Hrun & Hst & Hagain).
  exists s2, w2. split; [exact Hrun|]. split; [exact Hst|]. apply Hagain.
Defined.

Definition close_plan : UpdatePlanRequest :=
  {| upd_planName := None; upd_duration := None; upd_mealType := None;
     upd_price := None; upd_description := None; upd_isActive := Some false;
     upd_userId := owner_id |}.

Lemma owner_owns_weekly : owns_plan fresh_world close_plan weekly.
Proof. exists owner_id, owner. repeat split; reflexivity. Defined.

Lemma deactivated_plan_is_closed_witness :
  existing_plan fresh_world weekly_id weekly
  /\ owns_plan fresh_world close_plan weekly
  /\ close_plan.(upd_isActive) = Some false
  /\ NoDup (map plan_id fresh_world.(db).(plans))
  /\ User_get fresh_world.(db) asha_id = Some asha
  /\ exists stored w1,
       update_plan calm weekly_id close_plan fresh_world = (Ok stored, w1)
       /\ stored.(plan_isActive) = false
       /\ subscribe_to_plan toy_digest calm asha_subscribes w1
          = (Raise (HTTPException 404 "Plan not found or inactive"), w1)
       /\ get_mess_plans owner_id w1 = (Ok [], w1).
Proof.
  split; [exact weekly_exists|]. split; [exact owner_owns_weekly|].
  split; [reflexivity|]. split; [exact one_plan_no_subscriber|].
  split; [reflexivity|].
  destruct (deactivated_plan_is_closed toy_digest calm fresh_world weekly_id close_plan
              weekly asha_subscribes asha_id asha owner_id weekly_exists
              owner_owns_weekly eq_refl one_plan_no_subscriber eq_refl eq_refl
              eq_refl eq_refl)
    as (stored & w1 & Hrun & Hoff & Hsub & _).
  exists stored, w1. split; [exact Hrun|]. split; [exact Hoff|].
  split; [apply Hsub|].
  vm_compute in Hrun. inversion Hrun; subst stored w1. reflexivity.
Defined.

(** *** signin *)

Import AuthService AuthSignin AuthProps SigninProps.

(** A stand-in for bcrypt.checkpw that accepts exactly the hash
    [toy_hashpw] makes. *)
Definition toy_checkpw (plain hashed : string) : option bool :=
  Some (String.eqb hashed (toy_hashpw plain "")).

Definition toy_signin (e : Env) (u p : string) (r : LoginRole) : M SigninAnswer :=
  signin toy_jwt 24 toy_checkpw e u p r.

(** The world after "bela" has signed up. *)
Definition bela_world : World :=
  snd (signup toy_salt toy_hashpw toy_jwt has_at domain_lowered
         (fun t => t / 1000) 24 calm
         "bela" "bela@example.com" "secret12" USER fresh_world).

Definition bela : User :=
  new_user toy_salt toy_hashpw domain_lowered (fun t => t / 1000) calm fresh_world
    "bela" "bela@example.com" "secret12" USER.

Lemma signin_is_sound_witness :
  toy_signin calm "bela" "secret12" USER bela_world
  = (Ok (Authenticated bela (token_at toy_jwt 24 calm bela_world bela USER)),
     {| db := bela_world.(db); tick := (2 + bela_world.(tick))%nat |})
  /\ In bela bela_world.(db).(users)
  /\ bela.(username) = "bela"
  /\ toy_checkpw "secret12" bela.(password) = Some true.
Proof.
  split; [reflexivity|].
  destruct (proj1 (signin_is_sound toy_checkpw toy_jwt 24 calm "bela" "secret12" USER
                     bela_world)
              bela (token_at toy_jwt 24 calm bela_world bela USER)
              {| db := bela_world.(db); tick := (2 + bela_world.(tick))%nat |}
              eq_refl)
    as (Hin & Hname & _ & Hpw & _).
  split; [exact Hin|]. split; [exact Hname|exact Hpw].
Defined.

Lemma bela_registers :
  registers has_at fresh_world "bela" "bela@example.com" "secret12" USER.
Proof.
  split; [reflexivity|]. split; [cbn; lia|]. split; [cbn; lia|].
  split; [reflexivity|]. split.
  - apply no_such_email; discriminate.
  - apply no_such_username; discriminate.
Defined.

Lemma toy_hash_is_long p s : (6 <= String.length (toy_hashpw p s))%nat.
Proof. cbn. lia. Defined.

Lemma signup_then_signin_witness :
  (forall p s, (6 <= String.length (toy_hashpw p s))%nat)
  /\ (forall p s, toy_checkpw p (toy_hashpw p s) = Some true)
  /\ registers has_at fresh_world "bela" "bela@example.com" "secret12" USER
  /\ exists user token w1,
       signup toy_salt toy_hashpw toy_jwt has_at domain_lowered
         (fun t => t / 1000) 24 calm
         "bela" "bela@example.com" "secret12" USER fresh_world
       = (Ok (user, token), w1)
       /\ (exists w2,
             toy_signin calm "bela" "secret12" USER w1
             = (Ok (Authenticated user (token_at toy_jwt 24 calm w1 user USER)), w2))
       /\ toy_signin calm "bela" "secret12" MESS_OWNER w1
          = (Raise invalid_credentials, w1).
Proof.
  split; [exact toy_hash_is_long|]. split; [intros p s; reflexivity|].
  split; [exact bela_registers|].
  destruct (signup_then_signin toy_salt toy_hashpw toy_checkpw toy_jwt has_at domain_lowered
              (fun t => t / 1000) 24 calm fresh_world "bela" "bela@example.com"
              "secret12" USER toy_hash_is_long (fun p s => eq_refl) bela_registers)
    as (user & token & w1 & Hup & (w2 & Hin & _) & Hother).
  exists user, token, w1. split; [exact Hup|]. split.
  - exists w2. exact Hin.
  - apply Hother. discriminate.
Defined.

Lemma two_users_unique : unique_users fresh_world.(db).
Proof.
  split; cbn.
  - constructor; [intros [H|[]]; discriminate|].
    constructor; [intros []|constructor].
  - constructor; [intros [H|[]]; discriminate|].
    constructor; [intros []|constructor].
Defined.

Definition toy_signup_loop (e : Env) :=
  signup_loop toy_salt toy_hashpw toy_jwt has_at domain_lowered
    (fun t => t / 1000) 24 e.

(** Asha signs up a second time, under another username and with the
    domain of her address in capitals. *)
Lemma asha_registers_again :
  registers has_at fresh_world "asha2" "asha@EXAMPLE.COM" "secret12" USER.
Proof.
  split; [reflexivity|]. split; [cbn; lia|]. split; [cbn; lia|].
  split; [reflexivity|]. split.
  - apply no_such_email; discriminate.
  - apply no_such_username; discriminate.
Defined.

(** The theorem of X15 at two calls. "bela" gives an address in normal
    form: served alone, the call leaves three users without a repeated
    address or username; two such calls that overlap store "bela" twice.
    "asha2" gives Asha's address with the domain in capitals: the look-up
    by that text finds nobody, and the address stored is Asha's own. *)
Lemma signup_unique_only_alone_witness :
  unique_users fresh_world.(db)
  /\ domain_lowered "bela@example.com" = "bela@example.com"
  /\ unique_users bela_world.(db)
  /\ List.length bela_world.(db).(users) = 3%nat
  /\ (exists u1 t1 u2 t2 w',
        toy_signup_loop calm
          (overlapping_signups
             (call_of "bela" "bela@example.com" "secret12" USER)) [] fresh_world
        = ([{| request := call_of "bela" "bela@example.com" "secret12" USER;
               suspended := SignupDone (Ok (u1, t1)) |};
            {| request := call_of "bela" "bela@example.com" "secret12" USER;
               suspended := SignupDone (Ok (u2, t2)) |}], w')
        /\ map username w'.(db).(users) = ["asha"; "golden"; "bela"; "bela"]
        /\ ~ unique_users w'.(db))
  /\ registers has_at fresh_world "asha2" "asha@EXAMPLE.COM" "secret12" USER
  /\ domain_lowered "asha@EXAMPLE.COM" = "asha@example.com"
  /\ map email
       (snd (signup toy_salt toy_hashpw toy_jwt has_at domain_lowered
               (fun t => t / 1000) 24 calm
               "asha2" "asha@EXAMPLE.COM" "secret12" USER fresh_world))
         .(db).(users)
     = ["asha@example.com"; "golden@example.com"; "asha@example.com"]
  /\ ~ NoDup
         (map email
            (snd (signup toy_salt toy_hashpw toy_jwt has_at domain_lowered
                    (fun t => t / 1000) 24 calm
                    "asha2" "asha@EXAMPLE.COM" "secret12" USER fresh_world))
              .(db).(users)).
Proof.
  destruct (signup_unique_only_alone toy_salt toy_hashpw toy_jwt has_at
              domain_lowered (fun t => t / 1000) 24 calm fresh_world
              "bela" "bela@example.com" "secret12" USER two_users_unique)
    as (_ & _ & Hbela & Hover).
  destruct (signup_unique_only_alone toy_salt toy_hashpw toy_jwt has_at
              domain_lowered (fun t => t / 1000) 24 calm fresh_world
              "asha2" "asha@EXAMPLE.COM" "secret12" USER two_users_unique)
    as (_ & _ & _ & Hasha).
  split; [exact two_users_unique|]. split; [reflexivity|].
  split; [exact (Hbela eq_refl)|]. split; [reflexivity|].
  split.
  { destruct (Hover toy_hash_is_long bela_registers)
      as (_ & u1 & t1 & u2 & t2 & w' & Hrun & Husers & _ & _ & Hdup).
    exists u1, t1, u2, t2, w'. split; [exact Hrun|]. split; [|exact Hdup].
    unfold toy_signup_loop in Hrun.
    vm_compute in Hrun. inversion Hrun; subst. reflexivity. }
  split; [exact asha_registers_again|]. split; [reflexivity|].
  split; [reflexivity|].
  apply (proj1 (Hasha toy_hash_is_long asha_registers_again)).
  cbn. now left.
Defined.

(** *** The rating endpoints *)

Import MessModel MessProps RatingRouter RatingRouterProps.

Definition q_update_rating (messes : list (Mess Q)) (mess_id_arg user_id_arg : string)
    (rating : Z) : Result (RatingResponse Q) * list (Mess Q) :=
  update_rating Q 0%Q inject_Z q_float Qplus
    (fun a b => Qdiv (inject_Z a) (inject_Z b)) Qdiv
    messes mess_id_arg user_id_arg rating.

(** The collection after the user [rater_hex] has rated an unrated mess 4. *)
Definition rated_once : list (Mess Q) :=
  snd (q_update_rating [mess_with []] mess_hex rater_hex 4).

Lemma rated_user_sees_zero_witness :
  (exists resp, q_update_rating [mess_with []] mess_hex rater_hex 4
                = (Ok resp, rated_once))
  /\ map (fun m => m.(Ratings)) rated_once = [[RInt 4]]
  /\ has_user_rated_endpoint Q rated_once mess_hex rater_hex
     = Ok {| hr_success := true; hasRated := true; hr_rating := RInt 0 |}.
Proof.
  split; [eexists; reflexivity|]. split; [reflexivity|].
  destruct (rated_user_sees_zero Q 0%Q inject_Z q_float Qplus
              (fun a b => Qdiv (inject_Z a) (inject_Z b)) Qdiv
              [mess_with []] rated_once mess_hex rater_hex 4
              {| resp_success := true;
                 resp_message := "Rating submitted successfully";
                 resp_rating := (4 # 1)%Q;
                 resp_total_ratings := 1 |}
              eq_refl)
    as (o & Ho & Hend).
  rewrite Hend. inversion Ho; subst o. reflexivity.
Defined.

Lemma unrated_lengths_agree : lengths_agree Q [mess_with []].
Proof. constructor; [reflexivity|constructor]. Defined.

Lemma update_rating_keeps_lengths_witness :
  lengths_agree Q [mess_with []]
  /\ lengths_agree Q rated_once
  /\ lengths_agree Q (snd (q_update_rating [mess_with []] mess_hex "guest" 4)).
Proof.
  split; [exact unrated_lengths_agree|]. split.
  - exact (update_rating_keeps_lengths Q 0%Q inject_Z q_float Qplus
             (fun a b => Qdiv (inject_Z a) (inject_Z b)) Qdiv
             [mess_with []] mess_hex rater_hex 4 unrated_lengths_agree).
  - exact (update_rating_keeps_lengths Q 0%Q inject_Z q_float Qplus
             (fun a b => Qdiv (inject_Z a) (inject_Z b)) Qdiv
             [mess_with []] mess_hex "guest" 4 unrated_lengths_agree).
Defined.

End MoreScenarios.
